(** * BroadenAgentic: constraint validation, quality criteria, backend
      retry and selection, and the agent execution engine

    A shallow embedding of the Python sources

      - [app/core/constraint/input.py]      (modules [InputTypeConstraint], [InputConstraintSet])
      - [app/core/constraint/criterion.py]  (modules [CriterionMetric], [OutputCriterion])
      - [app/core/llm/base.py]              (module [LLMBase])
      - [app/core/llm/factory.py]           (module [LLMFactory])
      - [app/core/agent/base.py]            (module [AgentBase])

    Conventions of the embedding.

    - A Python [str] is represented by its UTF-8 encoding (a [string] of
      bytes); [len] counts code points, [in] is substring search.
    - A Python [float] is an IEEE 754 binary64 number, Rocq's primitive
      [float]: its arithmetic rounds, overflows to an infinity and
      yields NaN as the processor's does, and a comparison with NaN is
      false.  A Python [int] is an unbounded integer ([Z]).  A value
      that may be either is a [PyNum]; arithmetic and comparison between
      the two follow CPython (the [int] is converted for arithmetic,
      comparison is exact).  An [int] beyond the range of a [float] is
      converted to an infinity where CPython raises [OverflowError];
      no counter of the program comes near 1.8e308.
    - The ratio of two counts that [get_success_rate] returns is kept
      as the exact rational ([Q]) that the returned float rounds.
    - Python values that reach the validators are [None], booleans,
      integers, floats, strings, lists and string-keyed dictionaries.
    - A method that can raise returns a [result]; a method that mutates
      [self] takes the object and returns it ([M S A]).  An exception
      leaves the mutations done before it in place, as in Python.
    - What lives outside the repository (the [re] module, [str()],
      [float()], number formatting, the concrete backend behind the
      abstract [generate], the event loop's clock) is a member of a type
      class: the general theorems hold for every behaviour of those, and
      the examples run on the scripted instances of module [Scripted]. *)

From Stdlib Require Import Floats.
From Stdlib Require Import ZArith QArith String Ascii List Lia Bool.
From stdpp Require Import base option gmap strings pretty.
Import ListNotations.

#[local] Set Warnings "-register-all,-inexact-float".
#[local] Open Scope string_scope.

(** ** Python values, exceptions and built-ins *)

Module Py.

(** The exception classes the sources raise, catch or can receive from
    the libraries they call.  Every one of them derives from
    [Exception]; [re_error] is [re.error]. *)
Inductive ExcClass :=
| Exception | ValueError | KeyError | ZeroDivisionError
| OverflowError | RecursionError | TimeoutError | re_error.

Record PyExc := mkExc { exc_class : ExcClass; exc_msg : string }.

Definition exc_class_eqb (a b : ExcClass) : bool :=
  match a, b with
  | Exception, Exception | ValueError, ValueError | KeyError, KeyError
  | ZeroDivisionError, ZeroDivisionError | OverflowError, OverflowError
  | RecursionError, RecursionError | TimeoutError, TimeoutError
  | re_error, re_error => true
  | _, _ => false
  end.

(** [except cls] catches an exception whose class is [cls]; the classes
    above have no subclass among them, except that all derive from
    [Exception]. *)
Definition caught_by (cls : ExcClass) (e : PyExc) : bool :=
  match cls with
  | Exception => true
  | _ => exc_class_eqb cls (exc_class e)
  end.

Inductive result (A : Type) : Type :=
| Ret (a : A)
| Raise (e : PyExc).
Arguments Ret {A} a.
Arguments Raise {A} e.

Definition rbind {A B} (r : result A) (k : A -> result B) : result B :=
  match r with
  | Ret a => k a
  | Raise e => Raise e
  end.

(** Computations that mutate an object of type [S] and may raise. *)
Definition M (S A : Type) : Type := S -> result A * S.

Definition ret {S A} (a : A) : M S A := fun s => (Ret a, s).
Definition raise {S A} (e : PyExc) : M S A := fun s => (Raise e, s).
Definition bind {S A B} (m : M S A) (k : A -> M S B) : M S B :=
  fun s => match m s with
           | (Ret a, s') => k a s'
           | (Raise e, s') => (Raise e, s')
           end.
Definition get {S} : M S S := fun s => (Ret s, s).
Definition modify {S} (f : S -> S) : M S unit := fun s => (Ret tt, f s).
Definition lift_result {S A} (r : result A) : M S A := fun s => (r, s).

(** [try: body except cls as e: handler e]. *)
Definition try_except {S A} (body : M S A) (cls : ExcClass)
    (handler : PyExc -> M S A) : M S A :=
  fun s => match body s with
           | (Ret a, s') => (Ret a, s')
           | (Raise e, s') => if caught_by cls e then handler e s' else (Raise e, s')
           end.

(** Run a computation on a component of the state. *)
Definition zoom {S T A} (proj : S -> T) (upd : T -> S -> S) (m : M T A) : M S A :=
  fun s => let '(r, t') := m (proj s) in (r, upd t' s).

(** *** Numbers *)

(** [float(z)]: the nearest binary64 number, ties to even. *)
Definition float_of_Z (z : Z) : float :=
  SF2Prim (binary_normalize prec emax z 0 false).

Definition exact_of_Z (z : Z) : spec_float :=
  match z with
  | Z0 => S754_zero false
  | Zpos p => S754_finite false p 0
  | Zneg p => S754_finite true p 0
  end.

(** [x / y] for two [int]s and [y != 0]: the exact quotient, rounded
    once. *)
Definition int_truediv (x y : Z) : float :=
  SF2Prim (SFdiv prec emax (exact_of_Z x) (exact_of_Z y)).

(** [Union[int, float]]. *)
Inductive PyNum :=
| NInt (z : Z)
| NFloat (f : float).

Definition to_float (n : PyNum) : float :=
  match n with
  | NInt z => float_of_Z z
  | NFloat f => f
  end.

(** [a + b], [a - b], [a * b]: exact on two [int]s, otherwise the
    float operation on the converted operands. *)
Definition num_add (a b : PyNum) : PyNum :=
  match a, b with
  | NInt x, NInt y => NInt (x + y)
  | _, _ => NFloat (to_float a + to_float b)
  end.

Definition num_sub (a b : PyNum) : PyNum :=
  match a, b with
  | NInt x, NInt y => NInt (x - y)
  | _, _ => NFloat (to_float a - to_float b)
  end.

Definition num_mul (a b : PyNum) : PyNum :=
  match a, b with
  | NInt x, NInt y => NInt (x * y)
  | _, _ => NFloat (to_float a * to_float b)
  end.

(** [b == 0], the test that makes [a / b] raise. *)
Definition num_is_zero (n : PyNum) : bool :=
  match n with
  | NInt z => (z =? 0)%Z
  | NFloat f => (f =? 0)%float
  end.

(** [a / b] where [b != 0]: always a [float]. *)
Definition num_div (a b : PyNum) : PyNum :=
  match a, b with
  | NInt x, NInt y => NFloat (int_truediv x y)
  | _, _ => NFloat (to_float a / to_float b)
  end.

Declare Scope pynum_scope.
Delimit Scope pynum_scope with num.
Bind Scope pynum_scope with PyNum.
Infix "+" := num_add : pynum_scope.
Infix "-" := num_sub : pynum_scope.
Infix "*" := num_mul : pynum_scope.
Infix "/" := num_div : pynum_scope.

(** The order of a float and an [int], exact as in CPython: [None]
    for NaN. *)
Definition float_compare_Z (f : float) (z : Z) : option comparison :=
  match Prim2SF f with
  | S754_nan => None
  | S754_infinity negative => Some (if negative then Lt else Gt)
  | S754_zero _ => Some (0 ?= z)%Z
  | S754_finite negative m e =>
      let v := if negative then Zneg m else Zpos m in
      Some (if (0 <=? e)%Z then (v * 2 ^ e ?= z)%Z else (v ?= z * 2 ^ (- e))%Z)
  end.

Definition float_compare (f g : float) : option comparison :=
  match (f ?= g)%float with
  | FEq => Some Eq
  | FLt => Some Lt
  | FGt => Some Gt
  | FNotComparable => None
  end.

Definition num_compare (a b : PyNum) : option comparison :=
  match a, b with
  | NInt x, NInt y => Some (x ?= y)%Z
  | NFloat f, NFloat g => float_compare f g
  | NFloat f, NInt y => float_compare_Z f y
  | NInt x, NFloat g => option_map CompOpp (float_compare_Z g x)
  end.

(** [a < b], [a <= b] and [a == b]; [a > b] is [b < a]. *)
Definition num_lt (a b : PyNum) : bool :=
  match num_compare a b with
  | Some Lt => true
  | _ => false
  end.

Definition num_le (a b : PyNum) : bool :=
  match num_compare a b with
  | Some Lt | Some Eq => true
  | _ => false
  end.

Definition num_eq (a b : PyNum) : bool :=
  match num_compare a b with
  | Some Eq => true
  | _ => false
  end.

Definition num_is_nan (n : PyNum) : bool :=
  match n with
  | NInt _ => false
  | NFloat f => is_nan f
  end.

(** *** Values *)

Inductive PyVal :=
| VNone
| VBool (b : bool)
| VInt (z : Z)
| VFloat (f : float)
| VStr (s : string)
| VList (l : list PyVal)
| VDict (d : list (string * PyVal)).

Definition num_to_val (n : PyNum) : PyVal :=
  match n with
  | NInt z => VInt z
  | NFloat f => VFloat f
  end.

(** The classes that [isinstance] is asked about. *)
Inductive PyType := T_str | T_int | T_float | T_bool | T_list | T_dict.

(** [isinstance(v, t)].  [bool] is a subclass of [int]. *)
Definition isinstance (v : PyVal) (t : PyType) : bool :=
  match v, t with
  | VBool _, T_bool | VBool _, T_int => true
  | VInt _, T_int => true
  | VFloat _, T_float => true
  | VStr _, T_str => true
  | VList _, T_list => true
  | VDict _, T_dict => true
  | _, _ => false
  end.

(** [isinstance(v, (t1, ..., tn))]. *)
Definition isinstance_any (v : PyVal) (ts : list PyType) : bool :=
  existsb (isinstance v) ts.

Definition is_None (v : PyVal) : bool :=
  match v with
  | VNone => true
  | _ => false
  end.

(** An [int], [bool] or [float] object as a number; [True] is 1. *)
Definition as_number (v : PyVal) : option PyNum :=
  match v with
  | VBool b => Some (NInt (if b then 1 else 0))
  | VInt z => Some (NInt z)
  | VFloat f => Some (NFloat f)
  | _ => None
  end.

Fixpoint assoc {A} (k : string) (d : list (string * A)) : option A :=
  match d with
  | [] => None
  | (k', v) :: r => if String.eqb k k' then Some v else assoc k r
  end.

(** [a == b]: numbers compare by value across [bool], [int] and [float]
    (NaN equals nothing), lists element-wise, dictionaries key by key. *)
Fixpoint py_eq (a b : PyVal) {struct a} : bool :=
  match a, b with
  | VNone, VNone => true
  | VStr s, VStr t => String.eqb s t
  | VList l, VList m =>
      (fix go (l m : list PyVal) : bool :=
         match l, m with
         | [], [] => true
         | x :: l', y :: m' => py_eq x y && go l' m'
         | _, _ => false
         end) l m
  | VDict d, VDict e =>
      Nat.eqb (length d) (length e) &&
      (fix go (d : list (string * PyVal)) : bool :=
         match d with
         | [] => true
         | (k, v) :: d' =>
             match assoc k e with
             | Some w => py_eq v w
             | None => false
             end && go d'
         end) d
  | (VBool _ | VInt _ | VFloat _), (VBool _ | VInt _ | VFloat _) =>
      match as_number a, as_number b with
      | Some x, Some y => num_eq x y
      | _, _ => false
      end
  | _, _ => false
  end.

(** [v in l] for a list [l], by [==].  (Python finds an object also by
    identity, which matters for NaN only; values read from a request
    are distinct objects.) *)
Definition py_in (v : PyVal) (l : list PyVal) : bool :=
  existsb (fun e => py_eq e v) l.

(** [d.get(k)]: [None] when the key is absent. *)
Definition dict_get (d : list (string * PyVal)) (k : string) : PyVal :=
  match assoc k d with
  | Some v => v
  | None => VNone
  end.

(** *** Strings *)

(** A byte [10xxxxxx] continues a code point. *)
Definition is_continuation (a : ascii) : bool :=
  let n := N_of_ascii a in (128 <=? n)%N && (n <? 192)%N.

(** [len(s)]: the number of code points. *)
Fixpoint str_len (s : string) : Z :=
  match s with
  | EmptyString => 0
  | String a r => (if is_continuation a then 0 else 1) + str_len r
  end%Z.

(** [needle in hay]. *)
Fixpoint str_contains (needle hay : string) : bool :=
  String.prefix needle hay ||
  match hay with
  | EmptyString => false
  | String _ r => str_contains needle r
  end.

Definition lower_ascii (a : ascii) : ascii :=
  let n := N_of_ascii a in
  if (65 <=? n)%N && (n <=? 90)%N then ascii_of_N (n + 32) else a.

(** [s.lower()] on the ASCII letters.  (Characters without case, the
    CJK keywords of [criterion.py] among them, are unchanged by Python's
    [lower] too.) *)
Fixpoint str_lower (s : string) : string :=
  match s with
  | EmptyString => EmptyString
  | String a r => String (lower_ascii a) (str_lower r)
  end.

(** The code points of a string, each as its UTF-8 bytes. *)
Definition starts_with_continuation (c : string) : bool :=
  match c with
  | String b _ => is_continuation b
  | EmptyString => false
  end.

Fixpoint chars (s : string) : list string :=
  match s with
  | EmptyString => []
  | String a r =>
      match chars r with
      | c :: cs =>
          if starts_with_continuation c then String a c :: cs
          else String a "" :: c :: cs
      | [] => [String a ""]
      end
  end.

Definition utf8 (bytes : list N) : string :=
  string_of_list_ascii (map ascii_of_N bytes).

(** The code points for which [str.isspace] holds: U+0009 to U+000D,
    U+001C to U+0020, U+0085, U+00A0, U+1680, U+2000 to U+200A, U+2028,
    U+2029, U+202F, U+205F and U+3000. *)
Definition whitespace : list string :=
  map utf8
    [ [9]; [10]; [11]; [12]; [13]; [28]; [29]; [30]; [31]; [32];
      [194; 133]; [194; 160]; [225; 154; 128];
      [226; 128; 128]; [226; 128; 129]; [226; 128; 130]; [226; 128; 131];
      [226; 128; 132]; [226; 128; 133]; [226; 128; 134]; [226; 128; 135];
      [226; 128; 136]; [226; 128; 137]; [226; 128; 138];
      [226; 128; 168]; [226; 128; 169]; [226; 128; 175];
      [226; 129; 159]; [227; 128; 128] ]%N.

Definition is_space (c : string) : bool := existsb (String.eqb c) whitespace.

Fixpoint split_go (cs : list string) (cur : string) : list string :=
  match cs with
  | [] => if String.eqb cur "" then [] else [cur]
  | c :: r =>
      if is_space c
      then (if String.eqb cur "" then split_go r "" else cur :: split_go r "")
      else split_go r (cur ++ c)
  end.

(** [s.split()]: the maximal runs without white space. *)
Definition str_split (s : string) : list string := split_go (chars s) "".

Fixpoint lstrip (cs : list string) : list string :=
  match cs with
  | c :: r => if is_space c then lstrip r else cs
  | [] => []
  end.

(** [s.strip()]. *)
Definition str_strip (s : string) : string :=
  String.concat "" (rev (lstrip (rev (lstrip (chars s))))).

(** [sep.join(l)]. *)
Fixpoint str_join (sep : string) (l : list string) : string :=
  match l with
  | [] => ""
  | [x] => x
  | x :: r => x ++ sep ++ str_join sep r
  end.

(** [len(v)] where the object has a [__len__]. *)
Definition py_len (v : PyVal) : option Z :=
  match v with
  | VStr s => Some (str_len s)
  | VList l => Some (Z.of_nat (length l))
  | VDict d => Some (Z.of_nat (length d))
  | _ => None
  end.

(** Truth value of an [Optional[int]] / [Optional[number]] / [Optional[str]]. *)
Definition truthy_int (o : option Z) : bool :=
  match o with
  | Some z => negb (z =? 0)%Z
  | None => false
  end.

Definition truthy_num (o : option PyNum) : bool :=
  match o with
  | Some n => negb (num_is_zero n)
  | None => false
  end.

Definition truthy_str (o : option string) : bool :=
  match o with
  | Some s => negb (String.eqb s "")
  | None => false
  end.

(** The library functions the sources call.

    - [re_match p s] is [bool(re.match(p, s))], or the exception that
      compiling or running the pattern raises; CPython raises [re.error]
      for a malformed pattern and, for instance, [OverflowError] for a
      repetition count that is too large.
    - [py_str v] is [str(v)], [float_repr x] the way an f-string prints
      a float, [format_3f x] is [f"{x:.3f}"].
    - [py_float s] is [float(s)], [None] standing for [ValueError]; the
      result may be an infinity or NaN, as for ["inf"] and ["nan"]. *)
Class Builtins := {
  re_match : string -> string -> result bool;
  py_str : PyVal -> string;
  float_repr : float -> string;
  format_3f : float -> string;
  py_float : string -> option float
}.

End Py.
Import Py.

(** ** [app/core/constraint/input.py] *)

Module InputTypeConstraint.

Record t := {
  name : string;
  data_type : string;
  required : bool;
  min_length : option Z;
  max_length : option Z;
  pattern : option string;
  allowed_values : option (list PyVal);
  min_value : option PyNum;
  max_value : option PyNum;
  custom_validator : option string
}.

Definition valid_types : list string :=
  [ "string"; "integer"; "float"; "boolean"; "array"; "object";
    "image"; "audio"; "video"; "file"; "url"; "email"; "phone" ].

(** The pydantic validator of [data_type]: a constraint is only ever
    constructed with one of the thirteen tags. *)
Definition validate_data_type (v : string) : result string :=
  if existsb (String.eqb v) valid_types
  then Ret v
  else Raise (mkExc ValueError ("不支持的数据类型: " ++ v)).

(** The value of [type_map.get(self.data_type)]: a class or a tuple of
    classes. *)
Inductive ClassInfo :=
| Cls (c : PyType)
| Tuple (cs : list PyType).

Definition type_map : list (string * ClassInfo) :=
  [ ("string", Cls T_str);
    ("integer", Cls T_int);
    ("float", Tuple [T_int; T_float]);
    ("boolean", Cls T_bool);
    ("array", Cls T_list);
    ("object", Cls T_dict);
    ("image", Cls T_str);
    ("audio", Cls T_str);
    ("video", Cls T_str);
    ("file", Cls T_str);
    ("url", Cls T_str);
    ("email", Cls T_str);
    ("phone", Cls T_str) ].

Definition _check_type (self : t) (data : PyVal) : bool :=
  match assoc (data_type self) type_map with
  | None => true
  | Some (Tuple cs) => isinstance_any data cs
  | Some (Cls c) => isinstance data c
  end.

Definition _check_length (self : t) (data : PyVal) : bool :=
  match py_len data with
  | None => true
  | Some length =>
      if match min_length self with
         | Some m => (length <? m)%Z
         | None => false
         end
      then false
      else if match max_length self with
              | Some m => (length >? m)%Z
              | None => false
              end
      then false
      else true
  end.

Definition _check_value_range (self : t) (data : PyVal) : bool :=
  if negb (isinstance_any data [T_int; T_float]) then true
  else
    match as_number data with
    | None => true
    | Some x =>
        if match min_value self with
           | Some m => num_lt x m
           | None => false
           end
        then false
        else if match max_value self with
                | Some m => num_lt m x
                | None => false
                end
        then false
        else true
    end.

Definition _check_allowed_values (self : t) (data : PyVal) : bool :=
  match allowed_values self with
  | None | Some [] => true
  | Some l => if negb (py_in data l) then false else true
  end.

Section Methods.
Context `{Builtins}.

(** Only [re.error] is handled here; any other exception of the
    regular-expression engine leaves the method. *)
Definition _check_pattern (self : t) (data : PyVal) : result bool :=
  match pattern self, data with
  | Some p, VStr s =>
      if String.eqb p "" then Ret true
      else
        match re_match p s with
        | Ret m => if negb m then Ret false else Ret true
        | Raise e => if caught_by re_error e then Ret false else Raise e
        end
  | _, _ => Ret true
  end.

(** The body of the [try] block of [validate]. *)
Definition validate_body (self : t) (data : PyVal) : result bool :=
  if required self && is_None data then Ret false
  else if is_None data then Ret true
  else if negb (_check_type self data) then Ret false
  else if negb (_check_length self data) then Ret false
  else
    rbind (_check_pattern self data) (fun ok_pattern =>
    if negb ok_pattern then Ret false
    else if negb (_check_value_range self data) then Ret false
    else if negb (_check_allowed_values self data) then Ret false
    else Ret true).

(** [try: ... except Exception: return False]. *)
Definition validate (self : t) (data : PyVal) : result bool :=
  match validate_body self data with
  | Ret b => Ret b
  | Raise e => if caught_by Exception e then Ret false else Raise e
  end.

Definition show_int (o : option Z) : string :=
  match o with
  | Some z => pretty z
  | None => "None"
  end.

Definition show_num (o : option PyNum) : string :=
  match o with
  | Some n => py_str (num_to_val n)
  | None => "None"
  end.

(** The [if]/[elif]/[elif] under [if not self._check_length(data)];
    [None] when no branch returns. *)
Definition length_message (self : t) : option string :=
  if truthy_int (min_length self) && truthy_int (max_length self)
  then Some ("字段 " ++ name self ++ " 长度应在 " ++ show_int (min_length self)
                ++ "-" ++ show_int (max_length self) ++ " 之间")
  else if truthy_int (min_length self)
  then Some ("字段 " ++ name self ++ " 长度应不少于 " ++ show_int (min_length self))
  else if truthy_int (max_length self)
  then Some ("字段 " ++ name self ++ " 长度应不超过 " ++ show_int (max_length self))
  else None.

(** The same under [if not self._check_value_range(data)]. *)
Definition range_message (self : t) : option string :=
  if truthy_num (min_value self) && truthy_num (max_value self)
  then Some ("字段 " ++ name self ++ " 值应在 " ++ show_num (min_value self)
                ++ "-" ++ show_num (max_value self) ++ " 之间")
  else if truthy_num (min_value self)
  then Some ("字段 " ++ name self ++ " 值应不少于 " ++ show_num (min_value self))
  else if truthy_num (max_value self)
  then Some ("字段 " ++ name self ++ " 值应不超过 " ++ show_num (max_value self))
  else None.

Definition allowed_message (self : t) : string :=
  "字段 " ++ name self ++ " 值应为: "
    ++ str_join ", " (map py_str (default [] (allowed_values self))).

(** What follows the length test of [get_error_message]. *)
Definition message_after_length (self : t) (data : PyVal) : result (option string) :=
  rbind (_check_pattern self data) (fun ok_pattern =>
  if negb ok_pattern then Ret (Some ("字段 " ++ name self ++ " 格式不正确"))
  else
    match (if negb (_check_value_range self data) then range_message self else None) with
    | Some msg => Ret (Some msg)
    | None =>
        if negb (_check_allowed_values self data)
        then Ret (Some (allowed_message self))
        else Ret (Some ("字段 " ++ name self ++ " 验证失败"))
    end).

(** [get_error_message] has no exception handler of its own. *)
Definition get_error_message (self : t) (data : PyVal) : result (option string) :=
  rbind (validate self data) (fun valid =>
  if valid then Ret None
  else if required self && is_None data
  then Ret (Some ("字段 " ++ name self ++ " 是必需的"))
  else if negb (_check_type self data)
  then Ret (Some ("字段 " ++ name self ++ " 类型错误，期望 " ++ data_type self))
  else
    match (if negb (_check_length self data) then length_message self else None) with
    | Some msg => Ret (Some msg)
    | None => message_after_length self data
    end).

End Methods.

(** The claim's reading of the type check, for comparison with
    [_check_type]: [float] accepts integers and reals, every other
    scalar tag accepts only values whose type is exactly the tag's,
    [array] and [object] exactly a list and a dictionary. *)
Definition is_exactly (c : PyType) (v : PyVal) : bool :=
  match c, v with
  | T_bool, VBool _ | T_int, VInt _ | T_float, VFloat _
  | T_str, VStr _ | T_list, VList _ | T_dict, VDict _ => true
  | _, _ => false
  end.

Definition claimed_check_type (self : t) (data : PyVal) : bool :=
  match assoc (data_type self) type_map with
  | None => true
  | Some (Tuple cs) => existsb (fun c => is_exactly c data) cs
  | Some (Cls c) => is_exactly c data
  end.

End InputTypeConstraint.

Module InputConstraintSet.
Import InputTypeConstraint.

Record t := { constraints : list InputTypeConstraint.t }.

Section Methods.
Context `{Builtins}.

(** [results[constraint.name] = constraint.validate(data.get(constraint.name))]
    for each constraint in turn; a later constraint of the same name
    overwrites the entry. *)
Fixpoint validate_loop (cs : list InputTypeConstraint.t) (data : list (string * PyVal))
    (results : gmap string bool) : result (gmap string bool) :=
  match cs with
  | [] => Ret results
  | c :: rest =>
      rbind (InputTypeConstraint.validate c (dict_get data (name c))) (fun b =>
      validate_loop rest data (<[name c := b]> results))
  end.

Definition validate (self : t) (data : list (string * PyVal)) : result (gmap string bool) :=
  validate_loop (constraints self) data ∅.

Fixpoint get_all_errors_loop (cs : list InputTypeConstraint.t) (data : list (string * PyVal))
    (errors : list string) : result (list string) :=
  match cs with
  | [] => Ret errors
  | c :: rest =>
      rbind (get_error_message c (dict_get data (name c))) (fun error_msg =>
      get_all_errors_loop rest data
        (if truthy_str error_msg then errors ++ [default "" error_msg] else errors))
  end.

Definition get_all_errors (self : t) (data : list (string * PyVal)) : result (list string) :=
  get_all_errors_loop (constraints self) data [].

Definition is_valid (self : t) (data : list (string * PyVal)) : result bool :=
  rbind (validate self data) (fun results =>
  Ret (forallb (fun kv => snd kv) (map_to_list results))).

End Methods.
End InputConstraintSet.

(** ** [app/core/llm/base.py] *)

Module LLMConfig.
Record t := {
  model_name : string;
  temperature : float;
  max_tokens : Z;
  top_p : float;
  frequency_penalty : float;
  presence_penalty : float;
  stop_sequences : option (list string);
  timeout : Z;
  max_retries : Z
}.

(** [LLMConfig(model_name=..., temperature=..., max_tokens=...)] with the
    declared defaults for the other fields. *)
Definition make (model_name : string) (temperature : float) (max_tokens : Z) : t :=
  {| model_name := model_name; temperature := temperature; max_tokens := max_tokens;
     top_p := 0.9; frequency_penalty := 0; presence_penalty := 0;
     stop_sequences := None; timeout := 30; max_retries := 3 |}.

Definition set_model_name (n : string) (c : t) : t :=
  {| model_name := n; temperature := temperature c; max_tokens := max_tokens c;
     top_p := top_p c; frequency_penalty := frequency_penalty c;
     presence_penalty := presence_penalty c; stop_sequences := stop_sequences c;
     timeout := timeout c; max_retries := max_retries c |}.
End LLMConfig.

Module GenerationResult.
Record t := {
  text : string;
  tokens_used : option Z;
  finish_reason : option string;
  metadata : list (string * PyVal)
}.
End GenerationResult.

(** Keyword arguments ([**kwargs]). *)
Definition kwargs := list (string * PyVal).

(** What an object did to the outside: each call of the abstract
    [generate] (with the exception it raised, if any) and each
    [asyncio.sleep]. *)
Inductive Event :=
| EvGenerate (prompt : string) (kw : kwargs) (raised : option PyExc)
| EvSleep (seconds : Z).

Module LLMBase.

(** The fields of [LLMBase.__init__].  [world] stands for what a
    concrete subclass adds (its client, the service behind it) together
    with the event loop; [trace] is not a Python field: it records the
    events of the object, in order. *)
Record t (W : Type) := {
  config : LLMConfig.t;
  _is_loaded : bool;
  _retry_count : Z;
  _total_tokens_used : Z;
  _total_requests : Z;
  world : W;
  trace : list Event
}.
Arguments config {W} _.
Arguments _is_loaded {W} _.
Arguments _retry_count {W} _.
Arguments _total_tokens_used {W} _.
Arguments _total_requests {W} _.
Arguments world {W} _.
Arguments trace {W} _.

Definition set_trace {W} (tr : list Event) (self : t W) : t W :=
  {| config := config self; _is_loaded := _is_loaded self;
     _retry_count := _retry_count self;
     _total_tokens_used := _total_tokens_used self;
     _total_requests := _total_requests self;
     world := world self; trace := tr |}.

Definition set_world {W} (w : W) (self : t W) : t W :=
  {| config := config self; _is_loaded := _is_loaded self;
     _retry_count := _retry_count self;
     _total_tokens_used := _total_tokens_used self;
     _total_requests := _total_requests self;
     world := w; trace := trace self |}.

Definition set_config {W} (c : LLMConfig.t) (self : t W) : t W :=
  {| config := c; _is_loaded := _is_loaded self;
     _retry_count := _retry_count self;
     _total_tokens_used := _total_tokens_used self;
     _total_requests := _total_requests self;
     world := world self; trace := trace self |}.

Definition set_counters {W} (tokens requests : Z) (self : t W) : t W :=
  {| config := config self; _is_loaded := _is_loaded self;
     _retry_count := _retry_count self;
     _total_tokens_used := tokens;
     _total_requests := requests;
     world := world self; trace := trace self |}.

Definition __init__ {W} (config : LLMConfig.t) (w : W) : t W :=
  {| config := config; _is_loaded := false; _retry_count := 0;
     _total_tokens_used := 0; _total_requests := 0; world := w; trace := [] |}.

(** The abstract methods, supplied by a subclass, and the event loop.
    An implementation of [generate] or [load_model] may change the token
    counters, [_is_loaded], [_retry_count] and the world, as the
    subclasses of the repository do; none of them assigns [config]. *)
Class Backend (W : Type) := {
  generate_impl : string -> kwargs -> M (t W) GenerationResult.t;
  load_model_impl : M (t W) bool;
  (** [asyncio.sleep(n)] *)
  sleep_impl : Z -> W -> W;
  (** [asyncio.get_event_loop().time()] *)
  loop_time : W -> float;
  (** [datetime.utcnow()] *)
  utcnow : W -> float;
  (** [asyncio.wait_for(coroutine, timeout)]: whether the deadline
      passes first, and the object as the cancelled coroutine leaves it *)
  deadline_passes : Z -> t W -> bool;
  interrupted : Z -> t W -> t W
}.

Section Methods.
Context {W : Type} `{Backend W}.

(** [await self.generate(prompt, **kwargs)], recorded in the trace. *)
Definition generate (prompt : string) (kw : kwargs) : M (t W) GenerationResult.t :=
  fun self =>
    let '(r, self') := generate_impl prompt kw self in
    let raised := match r with
                  | Ret _ => None
                  | Raise e => Some e
                  end in
    (r, set_trace (trace self ++ [EvGenerate prompt kw raised])
          (set_config (config self) self')).

Definition load_model : M (t W) bool :=
  fun self =>
    let '(r, self') := load_model_impl self in
    (r, set_trace (trace self) (set_config (config self) self')).

(** [await asyncio.sleep(seconds)]. *)
Definition sleep (seconds : Z) : M (t W) unit :=
  fun self =>
    (Ret tt, set_trace (trace self ++ [EvSleep seconds])
               (set_world (sleep_impl seconds (world self)) self)).

(** [range(n)]. *)
Definition range (n : Z) : list Z := map Z.of_nat (seq 0 (Z.to_nat n)).

(** The [for attempt in ...] loop of [generate_with_retry] over the
    attempts still to make, and the [raise] after it. *)
Fixpoint retry_loop (attempts : list Z) (last_exception : option PyExc)
    (prompt : string) (kw : kwargs) : M (t W) GenerationResult.t :=
  match attempts with
  | [] =>
      raise (match last_exception with
             | Some e => e
             | None => mkExc Exception "生成失败"
             end)
  | attempt :: rest =>
      fun self =>
        match generate prompt kw self with
        | (Ret r, self') => (Ret r, self')
        | (Raise e, self') =>
            let self'' :=
              if (attempt <? LLMConfig.max_retries (config self'))%Z
              then snd (sleep (2 ^ attempt)%Z self')
              else self' in
            retry_loop rest (Some e) prompt kw self''
        end
  end.

Definition generate_with_retry (prompt : string) (kw : kwargs) : M (t W) GenerationResult.t :=
  fun self =>
    retry_loop (range (LLMConfig.max_retries (config self) + 1)) None prompt kw self.

Definition is_loaded (self : t W) : bool := _is_loaded self.

Definition health_check : M (t W) bool :=
  try_except
    (bind get (fun self =>
     bind (if negb (_is_loaded self) then bind load_model (fun _ => ret tt) else ret tt) (fun _ =>
     bind (generate "Hello" [("max_tokens", VInt 5)]) (fun result =>
     ret (negb (String.eqb (str_strip (GenerationResult.text result)) ""))))))
    Exception
    (fun _ => ret false).

Definition get_token_usage (self : t W) : gmap string PyNum :=
  {[ "total_tokens_used" := NInt (_total_tokens_used self);
     "total_requests" := NInt (_total_requests self);
     "average_tokens_per_request" :=
       if (_total_requests self >? 0)%Z
       then (NInt (_total_tokens_used self) / NInt (_total_requests self))%num
       else NInt 0 ]}.

Definition reset_token_usage (self : t W) : t W := set_counters 0 0 self.

Definition _update_token_usage (tokens_used : Z) (self : t W) : t W :=
  set_counters (_total_tokens_used self + tokens_used) (_total_requests self + 1) self.

End Methods.

(** Observations on a trace. *)
Definition is_generate (ev : Event) : bool :=
  match ev with
  | EvGenerate _ _ _ => true
  | _ => false
  end.

Definition generate_calls (tr : list Event) : nat :=
  length (List.filter is_generate tr).

Fixpoint sleeps (tr : list Event) : list Z :=
  match tr with
  | [] => []
  | EvSleep n :: r => n :: sleeps r
  | _ :: r => sleeps r
  end.

(** The events of a run of [generate_with_retry] whose attempts
    [attempt, attempt+1, ...] raise the exceptions [es] in turn: each
    failed call, followed by the back-off where one is due. *)
Fixpoint failed_attempts (max_retries : Z) (prompt : string) (kw : kwargs)
    (attempt : Z) (es : list PyExc) : list Event :=
  match es with
  | [] => []
  | e :: r =>
      EvGenerate prompt kw (Some e)
        :: (if (attempt <? max_retries)%Z then [EvSleep (2 ^ attempt)%Z] else [])
        ++ failed_attempts max_retries prompt kw (attempt + 1) r
  end.

(** The seconds slept in a trace. *)
Definition total_sleep (tr : list Event) : Z := fold_right Z.add 0%Z (sleeps tr).

End LLMBase.

(** ** [app/core/constraint/criterion.py] *)

Definition nl : string := String (ascii_of_nat 10) "".

Module CriterionMetric.
Record t := {
  name : string;
  description : string;
  weight : float;
  threshold : float
}.

(** [CriterionMetric(name=..., description=..., weight=...)]; the
    threshold takes its default. *)
Definition make (name description : string) (weight : float) : t :=
  {| name := name; description := description; weight := weight; threshold := 0.8 |}.
End CriterionMetric.

Module OutputCriterion.
#[local] Open Scope float_scope.

Record t := {
  name : string;
  description : string;
  criteria : list CriterionMetric.t;
  weights : gmap string float;
  min_score : float;
  max_retries : Z
}.

Definition default_criteria : list CriterionMetric.t := [].
Definition default_weights : gmap string float := ∅.
Definition default_min_score : float := 0.8.
Definition default_max_retries : Z := 3.

(** [OutputCriterion(name=..., description=..., ...)].  The class is a
    pydantic [BaseModel]: its initializer validates the fields
    ([min_score] in [0, 1], [max_retries >= 0]) and stores them.
    [__post_init__] below is the hook of a dataclass; a [BaseModel]
    never calls it, and no code of the repository does. *)
Definition __init__ (name description : string) (criteria : list CriterionMetric.t)
    (weights : gmap string float) (min_score : float) (max_retries : Z) : result t :=
  if (0 <=? min_score) && (min_score <=? 1) && (0 <=? max_retries)%Z
  then Ret {| name := name; description := description; criteria := criteria;
              weights := weights; min_score := min_score; max_retries := max_retries |}
  else Raise (mkExc ValueError "validation error for OutputCriterion").

Definition set_criteria (cs : list CriterionMetric.t) (self : t) : t :=
  {| name := name self; description := description self; criteria := cs;
     weights := weights self; min_score := min_score self;
     max_retries := max_retries self |}.

Definition common_metrics : list (string * string) :=
  [ ("准确性", "输出内容是否准确无误");
    ("完整性", "输出内容是否完整");
    ("相关性", "输出内容是否与输入相关");
    ("一致性", "输出内容是否一致");
    ("清晰度", "输出内容是否清晰易懂");
    ("专业性", "输出内容是否专业");
    ("创新性", "输出内容是否有创新性");
    ("实用性", "输出内容是否实用") ].

(** The [for metric_name, metric_desc in common_metrics.items()] loop. *)
Fixpoint match_metrics (description_lower : string) (metrics : list (string * string))
    (criteria : list CriterionMetric.t) : list CriterionMetric.t :=
  match metrics with
  | [] => criteria
  | (metric_name, metric_desc) :: rest =>
      match_metrics description_lower rest
        (if existsb (fun keyword => str_contains keyword description_lower)
              (str_split (str_lower metric_name))
         then criteria ++ [CriterionMetric.make metric_name metric_desc 1]
         else criteria)
  end.

Definition _extract_criteria_from_description (self : t) : list CriterionMetric.t :=
  let description_lower := str_lower (description self) in
  let criteria := match_metrics description_lower common_metrics [] in
  match criteria with
  | [] => [CriterionMetric.make "总体质量" "整体输出质量评估" 1]
  | _ => criteria
  end.

Definition __post_init__ (self : t) : t :=
  match criteria self with
  | [] => set_criteria (_extract_criteria_from_description self) self
  | _ => self
  end.

Definition _simple_evaluation (criterion : CriterionMetric.t) (output : PyVal) : float :=
  match output with
  | VStr output =>
      let output_lower := str_lower output in
      if str_contains "准确性" (CriterionMetric.name criterion) then
        let error_keywords := ["错误"; "失败"; "无效"; "不正确"] in
        if existsb (fun keyword => str_contains keyword output_lower) error_keywords
        then 0.3 else 0.8
      else if str_contains "完整性" (CriterionMetric.name criterion) then
        if (str_len output <? 10)%Z then 0.4
        else if (str_len output >? 100)%Z then 0.9
        else 0.7
      else if str_contains "相关性" (CriterionMetric.name criterion) then 0.7
      else if str_contains "清晰度" (CriterionMetric.name criterion) then
        if (Z.of_nat (length (str_split output)) >? 5)%Z then 0.8 else 0.6
      else 0.7
  | _ => 0.5
  end.

(** Python's two-argument [min] and [max]: the first argument unless
    the second is smaller (larger); so the first when the second is
    NaN. *)
Definition py_min (a b : float) : float := if b <? a then b else a.
Definition py_max (a b : float) : float := if a <? b then b else a.

(** [score >= self.min_score]. *)
Definition is_satisfied (self : t) (score : float) : bool := min_score self <=? score.

Section Methods.
Context {W : Type} `{Builtins} `{LLMBase.Backend W}.

Definition evaluation_prompt (self : t) (criterion : CriterionMetric.t) (output : PyVal) : string :=
  nl ++ "请评估以下输出是否符合标准，评分范围0-1：" ++ nl ++ nl
     ++ "标准: " ++ CriterionMetric.description criterion ++ nl
     ++ "输出: " ++ py_str output ++ nl ++ nl
     ++ "请从" ++ float_repr (min_score self) ++ "到1.0之间给出一个分数，只返回数字：" ++ nl.

Definition _llm_evaluation (self : t) (criterion : CriterionMetric.t) (output : PyVal)
    : M (LLMBase.t W) float :=
  try_except
    (bind (LLMBase.generate (evaluation_prompt self criterion output)
             [("max_tokens", VInt 10)]) (fun response =>
     let score_text := str_strip (GenerationResult.text response) in
     match py_float score_text with
     | Some score => ret (py_max 0 (py_min 1 score))
     | None => ret 0.5
     end))
    Exception
    (fun _ => ret 0.5).

(** [llm] is [None] or the backend object, which the call may change. *)
Definition _evaluate_criterion (self : t) (criterion : CriterionMetric.t) (output : PyVal)
    : M (option (LLMBase.t W)) float :=
  try_except
    (fun llm =>
       match llm with
       | None => (Ret (_simple_evaluation criterion output), None)
       | Some l =>
           let '(r, l') := _llm_evaluation self criterion output l in (r, Some l')
       end)
    Exception
    (fun _ => ret 0.5).

(** The weight the loop of [evaluate] uses:
    [self.weights.get(criterion.name, criterion.weight)]. *)
Definition weight_of (self : t) (criterion : CriterionMetric.t) : float :=
  default (CriterionMetric.weight criterion) (weights self !! CriterionMetric.name criterion).

Fixpoint evaluate_loop (self : t) (cs : list CriterionMetric.t) (output : PyVal)
    (total_score total_weight : float) : M (option (LLMBase.t W)) (float * float) :=
  match cs with
  | [] => ret (total_score, total_weight)
  | criterion :: rest =>
      let weight := weight_of self criterion in
      bind (_evaluate_criterion self criterion output) (fun score =>
      evaluate_loop self rest output (total_score + score * weight) (total_weight + weight))
  end.

Definition evaluate (self : t) (output : PyVal) : M (option (LLMBase.t W)) float :=
  try_except
    (match criteria self with
     | [] => ret 0.5
     | cs =>
         bind (evaluate_loop self cs output 0 0) (fun totals =>
         let '(total_score, total_weight) := totals in
         ret (if 0 <? total_weight then total_score / total_weight else 0))
     end)
    Exception
    (fun _ => ret 0).


End Methods.





Section Reports.
Context `{Builtins}.

Definition get_feedback (self : t) (score : float) : string :=
  if min_score self <=? score
  then "输出质量良好 (分数: " ++ format_3f score ++ ")"
  else if 0.6 <=? score
  then "输出质量一般，需要改进 (分数: " ++ format_3f score ++ ")"
  else "输出质量较差，需要重新生成 (分数: " ++ format_3f score ++ ")".

Definition get_improvement_suggestions (self : t) (score : float) : list string :=
  let suggestions := [] in
  if score <? min_score self
  then
    let suggestions := (suggestions ++ ["输出质量不达标，建议重新生成"])%list in
    let suggestions :=
      if score <? 0.5
      then (suggestions ++ ["检查输入约束和输出要求"; "优化Prompt模板"])%list
      else suggestions in
    let suggestions :=
      if score <? 0.7
      then (suggestions ++ ["增加输出内容的详细程度"; "确保输出格式正确"])%list
      else suggestions in
    suggestions
  else suggestions.

End Reports.

End OutputCriterion.

Module CriterionEvaluator.
#[local] Open Scope float_scope.

(** The dictionary [evaluate_output] builds. *)
Record Evaluation := {
  score : float;
  is_satisfied : bool;
  feedback : string;
  suggestions : list string;
  criterion_name : string;
  timestamp : float
}.

Record t (W : Type) := {
  llm : option (LLMBase.t W);
  evaluation_history : list Evaluation
}.
Arguments llm {W} _.
Arguments evaluation_history {W} _.

Definition __init__ {W} (llm : option (LLMBase.t W)) : t W :=
  {| llm := llm; evaluation_history := [] |}.

Section Methods.
Context {W : Type} `{Builtins} `{LLMBase.Backend W}.


Definition get_evaluation_history (self : t W) : list Evaluation :=
  evaluation_history self.

(** [sum(1 for result in history if result['is_satisfied'])]. *)
Definition successful (h : list Evaluation) : Z :=
  Z.of_nat (length (List.filter is_satisfied h)).

(** The ratio of the two counts, as the exact rational; the float
    Python returns is this rational rounded. *)
Definition get_success_rate (self : t W) : Q :=
  match evaluation_history self with
  | [] => 0%Q
  | h => (inject_Z (successful h) / inject_Z (Z.of_nat (length h)))%Q
  end.

End Methods.
End CriterionEvaluator.

(** ** [app/core/llm/factory.py] *)

Module LLMFactoryConfig.
Record t := {
  preferred_mode : string;
  local_model_name : string;
  cloud_model_name : string;
  api_key : option string;
  base_url : string;
  fallback_to_cloud : bool;
  health_check_timeout : Z
}.
End LLMFactoryConfig.

Module QwenAPIConfig.
Record t := {
  api_key : string;
  base_url : string;
  model_name : string;
  timeout : Z
}.
End QwenAPIConfig.

Module LLMFactory.

(** The object a factory method returns: a reference to one of the two
    instances the factory holds. *)
Inductive Ref := LocalRef | CloudRef.

Record t (W : Type) := {
  config : LLMFactoryConfig.t;
  _local_llm : option (LLMBase.t W);
  _cloud_llm : option (LLMBase.t W);
  _current_mode : option string
}.
Arguments config {W} _.
Arguments _local_llm {W} _.
Arguments _cloud_llm {W} _.
Arguments _current_mode {W} _.

Definition __init__ {W} (config : LLMFactoryConfig.t) : t W :=
  {| config := config; _local_llm := None; _cloud_llm := None; _current_mode := None |}.

Definition set_local {W} (l : option (LLMBase.t W)) (self : t W) : t W :=
  {| config := config self; _local_llm := l; _cloud_llm := _cloud_llm self;
     _current_mode := _current_mode self |}.

Definition set_cloud {W} (l : option (LLMBase.t W)) (self : t W) : t W :=
  {| config := config self; _local_llm := _local_llm self; _cloud_llm := l;
     _current_mode := _current_mode self |}.

Definition set_mode {W} (m : option string) (self : t W) : t W :=
  {| config := config self; _local_llm := _local_llm self; _cloud_llm := _cloud_llm self;
     _current_mode := m |}.

(** The state a freshly constructed [QwenLLM] / [QwenAPILLM] adds to
    [LLMBase] (the classes of [qwen.py] and [qwen_api.py]; their
    initializers call [LLMBase.__init__] and store their settings). *)
Class Subclasses (W : Type) := {
  QwenLLM_world : LLMConfig.t -> W;
  QwenAPILLM_world : LLMConfig.t -> QwenAPIConfig.t -> W
}.

Section Methods.
Context {W : Type} `{LLMBase.Backend W} `{Subclasses W}.

Definition QwenLLM (llm_config : LLMConfig.t) : LLMBase.t W :=
  LLMBase.__init__ llm_config (QwenLLM_world llm_config).

Definition QwenAPILLM (llm_config : LLMConfig.t) (api_config : QwenAPIConfig.t) : LLMBase.t W :=
  LLMBase.__init__ llm_config (QwenAPILLM_world llm_config api_config).

(** [await asyncio.wait_for(m, timeout)]. *)
Definition wait_for {A} (m : M (LLMBase.t W) A) (timeout : Z) : M (LLMBase.t W) A :=
  fun l =>
    if LLMBase.deadline_passes timeout l
    then (Raise (mkExc TimeoutError ""), LLMBase.interrupted timeout l)
    else m l.

Definition _check_local_health : M (t W) bool :=
  try_except
    (fun self =>
       match _local_llm self with
       | None => (Ret false, self)
       | Some l =>
           let '(r, l') :=
             wait_for LLMBase.health_check
               (LLMFactoryConfig.health_check_timeout (config self)) l in
           (r, set_local (Some l') self)
       end)
    Exception
    (fun _ => ret false).

Definition _check_cloud_health : M (t W) bool :=
  try_except
    (fun self =>
       match _cloud_llm self with
       | None => (Ret false, self)
       | Some l =>
           let '(r, l') :=
             wait_for LLMBase.health_check
               (LLMFactoryConfig.health_check_timeout (config self)) l in
           (r, set_cloud (Some l') self)
       end)
    Exception
    (fun _ => ret false).

(** The first statement of [_create_local_llm]:
    [if self._local_llm is None: self._local_llm = QwenLLM(llm_config)]. *)
Definition ensure_local_llm (llm_config : LLMConfig.t) : M (t W) unit :=
  fun self =>
    match _local_llm self with
    | None => (Ret tt, set_local (Some (QwenLLM llm_config)) self)
    | Some _ => (Ret tt, self)
    end.

Definition _create_local_llm (llm_config : LLMConfig.t) : M (t W) Ref :=
  bind (ensure_local_llm llm_config) (fun _ =>
  bind _check_local_health (fun healthy =>
  if healthy
  then bind (modify (set_mode (Some "local"))) (fun _ => ret LocalRef)
  else raise (mkExc Exception "本地模型不可用"))).

(** [llm_config.model_name = name] as a backend that holds the object
    sees it. *)
Definition rename_config (name : string) (l : LLMBase.t W) : LLMBase.t W :=
  LLMBase.set_config (LLMConfig.set_model_name name (LLMBase.config l)) l.

(** The first statement of [_create_cloud_llm]: without an instance, a
    missing or empty API key raises; otherwise the instance is built
    under the cloud model name.

    The assignment [llm_config.model_name = ...] changes the caller's
    object in place.  Configurations are passed by value here, so the
    sharing is made explicit: [local_shares_config] tells whether the
    local backend was built from this very object; its configuration
    is then renamed too.  That is so when [_create_auto_llm] built the
    local backend a moment before, and when the caller passes the
    object an earlier call built it from.  No other holder exists:
    the cloud backend is built after the assignment, and nothing
    assigns to its object later. *)
Definition ensure_cloud_llm (llm_config : LLMConfig.t) (local_shares_config : bool)
    : M (t W) unit :=
  fun self =>
    match _cloud_llm self with
    | None =>
        match LLMFactoryConfig.api_key (config self) with
        | Some key =>
            if String.eqb key "" then (Raise (mkExc ValueError "云端模式需要API密钥"), self)
            else
              let api_config :=
                {| QwenAPIConfig.api_key := key;
                   QwenAPIConfig.base_url := LLMFactoryConfig.base_url (config self);
                   QwenAPIConfig.model_name := LLMFactoryConfig.cloud_model_name (config self);
                   QwenAPIConfig.timeout := 30 |} in
              let cloud_name := LLMFactoryConfig.cloud_model_name (config self) in
              let llm_config := LLMConfig.set_model_name cloud_name llm_config in
              let self :=
                if local_shares_config
                then set_local (option_map (rename_config cloud_name) (_local_llm self)) self
                else self in
              (Ret tt, set_cloud (Some (QwenAPILLM llm_config api_config)) self)
        | None => (Raise (mkExc ValueError "云端模式需要API密钥"), self)
        end
    | Some _ => (Ret tt, self)
    end.

Definition _create_cloud_llm (llm_config : LLMConfig.t) (local_shares_config : bool)
    : M (t W) Ref :=
  bind (ensure_cloud_llm llm_config local_shares_config) (fun _ =>
  bind _check_cloud_health (fun healthy =>
  if healthy
  then bind (modify (set_mode (Some "cloud"))) (fun _ => ret CloudRef)
  else raise (mkExc Exception "云端模型不可用"))).

(** The local backend shares [llm_config] when this call builds it,
    that is, when none is held on entry; one held on entry shares it
    when the caller says so. *)
Definition _create_auto_llm (llm_config : LLMConfig.t) (local_shares_config : bool)
    : M (t W) Ref :=
  bind get (fun entry =>
  let local_shares_config := match _local_llm entry with
                             | None => true
                             | Some _ => local_shares_config
                             end in
  try_except (_create_local_llm llm_config) Exception (fun e =>
  bind get (fun self =>
  if LLMFactoryConfig.fallback_to_cloud (config self)
  then
    try_except (_create_cloud_llm llm_config local_shares_config) Exception (fun e2 =>
    raise (mkExc Exception "本地和云端模型都不可用"))
  else raise (mkExc Exception "本地模型不可用且未启用云端回退")))).

(** [local_shares_config]: the object passed as [llm_config] is the
    one the local backend held was built from.  The object that the
    method creates when none is passed is shared with nothing. *)
Definition create_llm (llm_config : option LLMConfig.t) (local_shares_config : bool)
    : M (t W) Ref :=
  bind get (fun self =>
  let local_shares_config :=
    match llm_config with
    | Some _ => local_shares_config
    | None => false
    end in
  let llm_config :=
    match llm_config with
    | Some c => c
    | None =>
        LLMConfig.make (LLMFactoryConfig.local_model_name (config self)) 0.7 4096
    end in
  if String.eqb (LLMFactoryConfig.preferred_mode (config self)) "local"
  then _create_local_llm llm_config
  else if String.eqb (LLMFactoryConfig.preferred_mode (config self)) "cloud"
  then _create_cloud_llm llm_config local_shares_config
  else _create_auto_llm llm_config local_shares_config).

Definition get_current_mode (self : t W) : option string := _current_mode self.

(** The instance a returned reference denotes. *)
Definition deref (r : Ref) (self : t W) : option (LLMBase.t W) :=
  match r with
  | LocalRef => _local_llm self
  | CloudRef => _cloud_llm self
  end.

Definition get_available_modes (self : t W) : gmap string bool :=
  {[ "local" := match _local_llm self with
                | Some l => LLMBase.is_loaded l
                | None => false
                end;
     "cloud" := match _cloud_llm self with
                | Some l => LLMBase.is_loaded l
                | None => false
                end ]}.

Definition switch_mode (mode : string) (llm_config : option LLMConfig.t)
    (local_shares_config : bool) : M (t W) Ref :=
  bind get (fun self =>
  let local_shares_config :=
    match llm_config with
    | Some _ => local_shares_config
    | None => false
    end in
  let llm_config :=
    match llm_config with
    | Some c => c
    | None =>
        if String.eqb mode "local"
        then LLMConfig.make (LLMFactoryConfig.local_model_name (config self)) 0.7 2048
        else LLMConfig.make (LLMFactoryConfig.cloud_model_name (config self)) 0.7 2048
    end in
  if String.eqb mode "local" then _create_local_llm llm_config
  else if String.eqb mode "cloud" then _create_cloud_llm llm_config local_shares_config
  else raise (mkExc ValueError ("不支持的模式: " ++ mode))).

End Methods.
End LLMFactory.

(** ** [app/core/agent/base.py] *)

Module AgentStatus.
Definition IDLE : string := "idle".
Definition BUSY : string := "busy".
Definition ERROR : string := "error".
Definition OFFLINE : string := "offline".
End AgentStatus.

(** [app/core/constraint/output.py], which [base.py] imports
    ([OutputTypeConstraint], [OutputConstraintSet]), is not among the
    sources; what [base.py] uses of it is taken as a parameter:
    the [name] and [data_type] of a constraint, its [description]
    where it has one, and [is_valid] and [get_all_errors] of the set
    built from a list of constraints. *)
Class OutputConstraints (OC : Type) := {
  oc_name : OC -> string;
  oc_data_type : OC -> string;
  oc_description : OC -> option string;
  output_is_valid : list OC -> list (string * PyVal) -> result bool;
  output_get_all_errors : list OC -> list (string * PyVal) -> result (list string)
}.

Module AgentConfig.
Record t (OC : Type) := {
  name : string;
  description : string;
  input_constraints : list InputTypeConstraint.t;
  output_constraints : list OC;
  output_criterion : OutputCriterion.t;
  max_retries : Z;
  timeout : Z;
  enable_auto_optimization : bool
}.
Arguments name {OC} _.
Arguments description {OC} _.
Arguments input_constraints {OC} _.
Arguments output_constraints {OC} _.
Arguments output_criterion {OC} _.
Arguments max_retries {OC} _.
Arguments timeout {OC} _.
Arguments enable_auto_optimization {OC} _.
End AgentConfig.

(** A Python [dict] from strings to numbers, with [d[k]] raising
    [KeyError] on a missing key. *)
Module Dict.

Definition getitem (k : string) : M (gmap string PyNum) PyNum :=
  fun d =>
    match d !! k with
    | Some v => (Ret v, d)
    | None => (Raise (mkExc KeyError k), d)
    end.

Definition setitem (k : string) (v : PyNum) : M (gmap string PyNum) unit :=
  modify (<[k := v]>).

(** [d[k] += v]. *)
Definition iadd (k : string) (v : PyNum) : M (gmap string PyNum) unit :=
  bind (getitem k) (fun x => setitem k (x + v)%num).

(** [a / b].  CPython words the error by the operand types. *)
Definition div {S} (a b : PyNum) : M S PyNum :=
  if num_is_zero b
  then raise (mkExc ZeroDivisionError
                match a, b with
                | NInt _, NInt _ => "division by zero"
                | _, _ => "float division by zero"
                end)
  else ret (a / b)%num.

End Dict.

Module AgentBase.
#[local] Open Scope float_scope.

Record ExecutionRecord := {
  timestamp : float;
  input : PyVal;
  output : PyVal;
  quality_score : float;
  response_time : float;
  record_retry_count : Z;
  tokens_used : PyNum
}.

Record t (W OC : Type) := {
  config : AgentConfig.t OC;
  llm : LLMBase.t W;
  status : string;
  retry_count : Z;
  execution_history : list ExecutionRecord;
  performance_metrics : gmap string PyNum
}.
Arguments config {W OC} _.
Arguments llm {W OC} _.
Arguments status {W OC} _.
Arguments retry_count {W OC} _.
Arguments execution_history {W OC} _.
Arguments performance_metrics {W OC} _.

Section Methods.
Context {W OC : Type} `{Builtins} `{LLMBase.Backend W} `{OutputConstraints OC}.

Definition __init__ (config : AgentConfig.t OC) (llm : LLMBase.t W) : t W OC :=
  {| config := config;
     llm := llm;
     status := AgentStatus.IDLE;
     retry_count := 0;
     execution_history := [];
     performance_metrics :=
       {[ "total_executions" := NInt 0;
          "successful_executions" := NInt 0;
          "average_score" := NFloat 0;
          "average_response_time" := NFloat 0 ]} |}.

Definition set_llm (l : LLMBase.t W) (self : t W OC) : t W OC :=
  {| config := config self; llm := l; status := status self;
     retry_count := retry_count self; execution_history := execution_history self;
     performance_metrics := performance_metrics self |}.

Definition set_status (s : string) (self : t W OC) : t W OC :=
  {| config := config self; llm := llm self; status := s;
     retry_count := retry_count self; execution_history := execution_history self;
     performance_metrics := performance_metrics self |}.

Definition set_retry_count (n : Z) (self : t W OC) : t W OC :=
  {| config := config self; llm := llm self; status := status self;
     retry_count := n; execution_history := execution_history self;
     performance_metrics := performance_metrics self |}.

Definition set_execution_history (h : list ExecutionRecord) (self : t W OC) : t W OC :=
  {| config := config self; llm := llm self; status := status self;
     retry_count := retry_count self; execution_history := h;
     performance_metrics := performance_metrics self |}.

Definition set_performance_metrics (m : gmap string PyNum) (self : t W OC) : t W OC :=
  {| config := config self; llm := llm self; status := status self;
     retry_count := retry_count self; execution_history := execution_history self;
     performance_metrics := m |}.

(** Methods of [self.llm] and operations on [self.performance_metrics],
    run on the agent. *)
Definition on_llm {A} (m : M (LLMBase.t W) A) : M (t W OC) A :=
  zoom llm set_llm m.

Definition on_metrics {A} (m : M (gmap string PyNum) A) : M (t W OC) A :=
  zoom performance_metrics set_performance_metrics m.

(** [{constraint.name: input_data for constraint in constraints}]. *)
Definition same_for_all {C} (name_of : C -> string) (cs : list C) (data : PyVal)
    : list (string * PyVal) :=
  map (fun c => (name_of c, data)) cs.

Definition as_dict {C} (name_of : C -> string) (cs : list C) (data : PyVal)
    : list (string * PyVal) :=
  match data with
  | VDict d => d
  | _ => same_for_all name_of cs data
  end.

Definition _validate_input (input_data : PyVal) : M (t W OC) unit :=
  bind get (fun self =>
  match AgentConfig.input_constraints (config self) with
  | [] => ret tt
  | cs =>
      let constraint_set := {| InputConstraintSet.constraints := cs |} in
      let input_dict := as_dict InputTypeConstraint.name cs input_data in
      bind (lift_result (InputConstraintSet.is_valid constraint_set input_dict)) (fun valid =>
      if negb valid
      then
        bind (lift_result (InputConstraintSet.get_all_errors constraint_set input_dict))
          (fun errors => raise (mkExc ValueError ("输入验证失败: " ++ str_join "; " errors)))
      else ret tt)
  end).

Definition _validate_output (output : PyVal) : M (t W OC) unit :=
  bind get (fun self =>
  match AgentConfig.output_constraints (config self) with
  | [] => ret tt
  | cs =>
      let output_dict := as_dict oc_name cs output in
      bind (lift_result (output_is_valid cs output_dict)) (fun valid =>
      if negb valid
      then
        bind (lift_result (output_get_all_errors cs output_dict))
          (fun errors => raise (mkExc ValueError ("输出验证失败: " ++ str_join "; " errors)))
      else ret tt)
  end).

(** [self.config.output_criterion.evaluate(output, self.llm)] inside
    [try ... except Exception: return 0.5]. *)
Definition _evaluate_quality (output : PyVal) : M (t W OC) float :=
  try_except
    (fun self =>
       let '(r, l) :=
         OutputCriterion.evaluate (AgentConfig.output_criterion (config self)) output
           (Some (llm self)) in
       (r, match l with
           | Some l' => set_llm l' self
           | None => self
           end))
    Exception
    (fun _ => ret 0.5).

(** One line of the constraint summary in the prompt. *)
Definition constraint_line (name data_type : string) (description : option string) : string :=
  "- " ++ name ++ ": " ++ data_type
    ++ (if truthy_str description then " (" ++ default "" description ++ ")" else "")
    ++ nl.

Definition base_prompt (description : string) (input_data : PyVal) (criterion : string) : string :=
  nl ++ "任务描述: " ++ description ++ nl ++ nl
     ++ "输入数据: " ++ py_str input_data ++ nl ++ nl
     ++ "输出要求: " ++ criterion ++ nl ++ nl
     ++ "请根据任务描述和输入数据生成符合要求的输出。" ++ nl.

(** An [InputTypeConstraint] has no [description] attribute. *)
Definition _build_prompt (self : t W OC) (input_data : PyVal) : string :=
  let cfg := config self in
  let base_prompt :=
    base_prompt (AgentConfig.description cfg) input_data
      (OutputCriterion.description (AgentConfig.output_criterion cfg)) in
  let base_prompt :=
    match AgentConfig.input_constraints cfg with
    | [] => base_prompt
    | cs =>
        base_prompt ++ nl ++ "输入约束:" ++ nl
          ++ String.concat ""
               (map (fun c => constraint_line (InputTypeConstraint.name c)
                                (InputTypeConstraint.data_type c) None) cs)
    end in
  match AgentConfig.output_constraints cfg with
  | [] => base_prompt
  | cs =>
      base_prompt ++ nl ++ "输出约束:" ++ nl
        ++ String.concat ""
             (map (fun c => constraint_line (oc_name c) (oc_data_type c) (oc_description c)) cs)
  end.

Definition _generate_output (input_data : PyVal) (kw : kwargs) : M (t W OC) PyVal :=
  bind get (fun self =>
  let prompt := _build_prompt self input_data in
  bind (on_llm (LLMBase.generate_with_retry prompt kw)) (fun result =>
  ret (VStr (GenerationResult.text result)))).

Definition optimization_prompt (self : t W OC) (input_data previous_output : PyVal)
    (quality_score : float) : string :=
  nl ++ "原始任务描述: " ++ AgentConfig.description (config self) ++ nl ++ nl
     ++ "输入数据: " ++ py_str input_data ++ nl ++ nl
     ++ "上次输出: " ++ py_str previous_output ++ nl ++ nl
     ++ "质量评分: " ++ format_3f quality_score ++ nl ++ nl
     ++ "输出标准: " ++ OutputCriterion.description (AgentConfig.output_criterion (config self))
     ++ nl ++ nl
     ++ "请分析问题并提供改进的任务描述，要求：" ++ nl
     ++ "1. 保持原有意图" ++ nl
     ++ "2. 提高输出质量" ++ nl
     ++ "3. 更清晰的指令" ++ nl
     ++ "4. 更好的约束条件" ++ nl ++ nl
     ++ "改进后的任务描述:" ++ nl.

Definition _optimize_prompt (input_data previous_output : PyVal) (quality_score : float)
    : M (t W OC) string :=
  bind get (fun self =>
  if negb (AgentConfig.enable_auto_optimization (config self))
  then ret (_build_prompt self input_data)
  else
    try_except
      (bind (on_llm (LLMBase.generate
                       (optimization_prompt self input_data previous_output quality_score)
                       [("max_tokens", VInt 200)])) (fun result =>
       let optimized_description := str_strip (GenerationResult.text result) in
       ret (base_prompt optimized_description input_data
              (OutputCriterion.description (AgentConfig.output_criterion (config self))))))
      Exception
      (fun _ => bind get (fun self' => ret (_build_prompt self' input_data)))).

(** One more generation with the (possibly) optimized prompt; its text
    is what the method returns. *)
Definition _optimize_and_retry (input_data previous_output : PyVal) (quality_score : float)
    (kw : kwargs) : M (t W OC) PyVal :=
  bind (_optimize_prompt input_data previous_output quality_score) (fun optimized_prompt =>
  bind (on_llm (LLMBase.generate_with_retry optimized_prompt kw)) (fun result =>
  ret (VStr (GenerationResult.text result)))).

Definition _update_performance_metrics (min_score quality_score response_time : float)
    (tokens_used : PyNum) : M (gmap string PyNum) unit :=
  bind (if min_score <=? quality_score
        then Dict.iadd "successful_executions" (NInt 1)
        else ret tt) (fun _ =>
  bind (Dict.getitem "total_executions") (fun total_executions =>
  bind (Dict.getitem "average_score") (fun current_avg =>
  bind (Dict.div (current_avg * (total_executions - NInt 1) + NFloat quality_score)%num
          total_executions)
    (fun new_avg =>
  bind (Dict.setitem "average_score" new_avg) (fun _ =>
  bind (Dict.getitem "average_response_time") (fun current_avg_time =>
  bind (Dict.div (current_avg_time * (total_executions - NInt 1) + NFloat response_time)%num
          total_executions)
    (fun new_avg_time =>
  bind (Dict.setitem "average_response_time" new_avg_time) (fun _ =>
  bind (Dict.iadd "total_tokens_used" tokens_used) (fun _ =>
  bind (Dict.getitem "total_tokens_used") (fun total_tokens =>
  bind (Dict.div total_tokens total_executions) (fun avg_tokens =>
  Dict.setitem "average_tokens_per_execution" avg_tokens))))))))))).

(** The body of the [try] block of [execute]. *)
Definition execute_body (input_data : PyVal) (kw : kwargs) (start_time : float)
    : M (t W OC) PyVal :=
  bind (modify (set_status AgentStatus.BUSY)) (fun _ =>
  bind (on_metrics (Dict.iadd "total_executions" (NInt 1))) (fun _ =>
  bind (_validate_input input_data) (fun _ =>
  bind (_generate_output input_data kw) (fun output =>
  bind (_validate_output output) (fun _ =>
  bind (_evaluate_quality output) (fun quality_score =>
  bind get (fun self =>
  let llm_token_usage := LLMBase.get_token_usage (llm self) in
  let tokens_used := default (NInt 0) (llm_token_usage !! "total_tokens_used") in
  let execution_record :=
    {| timestamp := LLMBase.utcnow (LLMBase.world (llm self));
       input := input_data;
       output := output;
       quality_score := quality_score;
       response_time := LLMBase.loop_time (LLMBase.world (llm self)) - start_time;
       record_retry_count := retry_count self;
       tokens_used := tokens_used |} in
  bind (modify (set_execution_history (execution_history self ++ [execution_record]))) (fun _ =>
  if (quality_score
        <? OutputCriterion.min_score (AgentConfig.output_criterion (config self)))
     && (retry_count self <? AgentConfig.max_retries (config self))%Z
  then
    bind (modify (set_retry_count (retry_count self + 1)%Z)) (fun _ =>
    _optimize_and_retry input_data output quality_score kw)
  else
    bind (on_metrics
            (_update_performance_metrics
               (OutputCriterion.min_score (AgentConfig.output_criterion (config self)))
               quality_score (response_time execution_record) tokens_used)) (fun _ =>
    bind (modify (set_status AgentStatus.IDLE)) (fun _ =>
    bind (modify (set_retry_count 0%Z)) (fun _ =>
    ret output))))))))))).

Definition execute (input_data : PyVal) (kw : kwargs) : M (t W OC) PyVal :=
  bind get (fun self =>
  let start_time := LLMBase.loop_time (LLMBase.world (llm self)) in
  try_except (execute_body input_data kw start_time) Exception (fun e =>
  bind (modify (set_status AgentStatus.ERROR)) (fun _ => raise e))).

Definition reset_metrics (self : t W OC) : t W OC :=
  {| config := config self;
     llm := LLMBase.reset_token_usage (llm self);
     status := status self;
     retry_count := retry_count self;
     execution_history := [];
     performance_metrics :=
       {[ "total_executions" := NInt 0;
          "successful_executions" := NInt 0;
          "average_score" := NFloat 0;
          "average_response_time" := NFloat 0;
          "total_tokens_used" := NInt 0;
          "average_tokens_per_execution" := NFloat 0 ]} |}.

(** [l[start:]]: a negative [start] counts from the end; the bounds
    are clipped to the list. *)
Definition slice_from {A} (start : Z) (l : list A) : list A :=
  let n := Z.of_nat (length l) in
  let start := if (start <? 0)%Z then Z.max (start + n) 0 else Z.min start n in
  skipn (Z.to_nat start) l.

(** [self.execution_history[-limit:]]. *)
Definition get_execution_history (limit : Z) (self : t W OC) : list ExecutionRecord :=
  slice_from (- limit)%Z (execution_history self).

Definition health_check : M (t W OC) bool :=
  try_except (on_llm LLMBase.health_check) Exception (fun _ => ret false).

(** Two states of an agent agree on what steers [execute]: the
    configuration, the status and the retry counter. *)
Definition same_control (a b : t W OC) : Prop :=
  config a = config b /\ status a = status b /\ retry_count a = retry_count b.

End Methods.

(** The generation attempts in a trace, for a caller that passes no
    keyword arguments to [execute] (as [main.py] and the demos do): the
    calls of [generate] without keyword arguments.  (The scoring calls
    pass [max_tokens=10], the prompt-optimization call
    [max_tokens=200].) *)
Definition is_generation (ev : Event) : bool :=
  match ev with
  | EvGenerate _ [] _ => true
  | _ => false
  end.

Definition generation_attempts (tr : list Event) : nat :=
  length (List.filter is_generation tr).

End AgentBase.

(** ** Concrete instances used by the examples *)

(** A scripted backend: every call of [generate] consumes the next
    entry of a script, a reply or an exception; with the script
    exhausted the backend is unreachable.  Each reply costs 7 tokens
    and one second. *)
Module Scripted.
#[local] Open Scope float_scope.

Record World := {
  script : list (result string);
  clock : float
}.

Definition unreachable : PyExc := mkExc Exception "文本生成失败: connection refused".

Definition generate_scripted (prompt : string) (kw : kwargs)
    : M (LLMBase.t World) GenerationResult.t :=
  fun self =>
    let w := LLMBase.world self in
    match script w with
    | [] => (Raise unreachable, self)
    | r :: rest =>
        let self' :=
          LLMBase.set_world {| script := rest; clock := clock w + 1 |} self in
        match r with
        | Ret txt =>
            (Ret {| GenerationResult.text := txt;
                    GenerationResult.tokens_used := Some 7%Z;
                    GenerationResult.finish_reason := Some "stop";
                    GenerationResult.metadata := [] |},
             LLMBase._update_token_usage 7 self')
        | Raise e => (Raise e, self')
        end
    end.

Definition load_model_scripted : M (LLMBase.t World) bool :=
  fun self =>
    let ok := match script (LLMBase.world self) with
              | [] => false
              | _ => true
              end in
    (Ret ok,
     {| LLMBase.config := LLMBase.config self;
        LLMBase._is_loaded := ok;
        LLMBase._retry_count := LLMBase._retry_count self;
        LLMBase._total_tokens_used := LLMBase._total_tokens_used self;
        LLMBase._total_requests := LLMBase._total_requests self;
        LLMBase.world := LLMBase.world self;
        LLMBase.trace := LLMBase.trace self |}).

#[export] Instance backend : LLMBase.Backend World := {
  LLMBase.generate_impl := generate_scripted;
  LLMBase.load_model_impl := load_model_scripted;
  LLMBase.sleep_impl := fun n w => {| script := script w; clock := clock w + float_of_Z n |};
  LLMBase.loop_time := clock;
  LLMBase.utcnow := clock;
  LLMBase.deadline_passes := fun _ _ => false;
  LLMBase.interrupted := fun _ l => l
}.

(** No local model server is running; the cloud service answers. *)
#[export] Instance subclasses : LLMFactory.Subclasses World := {
  LLMFactory.QwenLLM_world := fun _ => {| script := []; clock := 0 |};
  LLMFactory.QwenAPILLM_world := fun _ _ => {| script := [Ret "Hello!"]; clock := 0 |}
}.

(** CPython's [re.match] on the patterns of the examples: [(] is
    malformed ([re.error]); a repetition count of twenty digits raises
    [OverflowError]; the other patterns used have no metacharacter and
    match as a prefix. *)
Definition re_match_sample (p s : string) : result bool :=
  if String.eqb p "a{99999999999999999999}"
  then Raise (mkExc OverflowError "the repetition number is too large")
  else if String.eqb p "("
  then Raise (mkExc re_error "missing ), unterminated subpattern at position 0")
  else Ret (String.prefix p s).

(** [str()], [float()] and the float formats on the values that occur
    in the examples. *)
Definition py_str_sample (v : PyVal) : string :=
  match v with
  | VNone => "None"
  | VBool true => "True"
  | VBool false => "False"
  | VInt z => pretty z
  | VStr s => s
  | _ => "..."
  end.

Definition py_float_sample (s : string) : option float :=
  if String.eqb s "0.3" then Some 0.3
  else if String.eqb s "0.7" then Some 0.7
  else if String.eqb s "0.9" then Some 0.9
  else if String.eqb s "nan" then Some nan
  else if String.eqb s "inf" then Some infinity
  else None.

Definition float_repr_sample (x : float) : string :=
  if x =? 0.8 then "0.8" else if x =? 0.7 then "0.7" else "0.0".

Definition format_3f_sample (x : float) : string :=
  if x =? 0.3 then "0.300" else if x =? 0.9 then "0.900" else "0.000".

#[export] Instance builtins : Builtins := {
  re_match := re_match_sample;
  py_str := py_str_sample;
  float_repr := float_repr_sample;
  format_3f := format_3f_sample;
  py_float := py_float_sample
}.

(** An agent without output constraints. *)
#[export] Instance no_output_constraints : OutputConstraints Empty_set := {
  oc_name := fun c => match c with end;
  oc_data_type := fun c => match c with end;
  oc_description := fun c => match c with end;
  output_is_valid := fun _ _ => Ret true;
  output_get_all_errors := fun _ _ => Ret []
}.

Definition constraint (name data_type : string) : InputTypeConstraint.t :=
  {| InputTypeConstraint.name := name;
     InputTypeConstraint.data_type := data_type;
     InputTypeConstraint.required := true;
     InputTypeConstraint.min_length := None;
     InputTypeConstraint.max_length := None;
     InputTypeConstraint.pattern := None;
     InputTypeConstraint.allowed_values := None;
     InputTypeConstraint.min_value := None;
     InputTypeConstraint.max_value := None;
     InputTypeConstraint.custom_validator := None |}.

Definition with_pattern (p : string) (c : InputTypeConstraint.t) : InputTypeConstraint.t :=
  {| InputTypeConstraint.name := InputTypeConstraint.name c;
     InputTypeConstraint.data_type := InputTypeConstraint.data_type c;
     InputTypeConstraint.required := InputTypeConstraint.required c;
     InputTypeConstraint.min_length := InputTypeConstraint.min_length c;
     InputTypeConstraint.max_length := InputTypeConstraint.max_length c;
     InputTypeConstraint.pattern := Some p;
     InputTypeConstraint.allowed_values := InputTypeConstraint.allowed_values c;
     InputTypeConstraint.min_value := InputTypeConstraint.min_value c;
     InputTypeConstraint.max_value := InputTypeConstraint.max_value c;
     InputTypeConstraint.custom_validator := InputTypeConstraint.custom_validator c |}.

Definition with_length (lo hi : Z) (c : InputTypeConstraint.t) : InputTypeConstraint.t :=
  {| InputTypeConstraint.name := InputTypeConstraint.name c;
     InputTypeConstraint.data_type := InputTypeConstraint.data_type c;
     InputTypeConstraint.required := InputTypeConstraint.required c;
     InputTypeConstraint.min_length := Some lo;
     InputTypeConstraint.max_length := Some hi;
     InputTypeConstraint.pattern := InputTypeConstraint.pattern c;
     InputTypeConstraint.allowed_values := InputTypeConstraint.allowed_values c;
     InputTypeConstraint.min_value := InputTypeConstraint.min_value c;
     InputTypeConstraint.max_value := InputTypeConstraint.max_value c;
     InputTypeConstraint.custom_validator := InputTypeConstraint.custom_validator c |}.

(** [InputTypeConstraint(name="count", data_type="integer")] *)
Definition count_constraint : InputTypeConstraint.t := constraint "count" "integer".

(** [InputTypeConstraint(name="code", data_type="string",
    pattern="a{99999999999999999999}")] *)
Definition overflow_constraint : InputTypeConstraint.t :=
  with_pattern "a{99999999999999999999}" (constraint "code" "string").

(** [InputTypeConstraint(name="code", data_type="string", pattern="(")] *)
Definition malformed_constraint : InputTypeConstraint.t :=
  with_pattern "(" (constraint "code" "string").

(** [InputTypeConstraint(name="topic", data_type="string", min_length=1,
    max_length=200)] *)
Definition topic_constraint : InputTypeConstraint.t :=
  with_length 1 200 (constraint "topic" "string").

(** [LLMConfig(model_name="qwen3:8b", max_retries=n)] *)
Definition llm_config (n : Z) : LLMConfig.t :=
  {| LLMConfig.model_name := "qwen3:8b"; LLMConfig.temperature := 0.7;
     LLMConfig.max_tokens := 4096; LLMConfig.top_p := 0.9;
     LLMConfig.frequency_penalty := 0; LLMConfig.presence_penalty := 0;
     LLMConfig.stop_sequences := None; LLMConfig.timeout := 30;
     LLMConfig.max_retries := n |}.

(** A backend object whose calls of [generate] follow the script. *)
Definition scripted_llm (max_retries : Z) (replies : list (result string))
    : LLMBase.t World :=
  LLMBase.__init__ (llm_config max_retries) {| script := replies; clock := 0 |}.

Definition first_failure : PyExc := mkExc Exception "文本生成失败: timeout".
Definition second_failure : PyExc := mkExc Exception "文本生成失败: quota".

(** Under [max_retries = 1], a backend that fails twice. *)
Definition failing_twice : LLMBase.t World :=
  scripted_llm 1 [Raise first_failure; Raise second_failure].

(** [OutputCriterion(name="默认标准", description="输出应该准确、完整且有用")],
    the criterion [main.py] builds when a request brings none: no
    metrics are supplied. *)
Definition default_criterion : OutputCriterion.t :=
  {| OutputCriterion.name := "默认标准";
     OutputCriterion.description := "输出应该准确、完整且有用";
     OutputCriterion.criteria := [];
     OutputCriterion.weights := ∅;
     OutputCriterion.min_score := 0.8;
     OutputCriterion.max_retries := 3 |}.

(** A criterion with two metrics of equal weight. *)
Definition two_metrics : OutputCriterion.t :=
  {| OutputCriterion.name := "质量评估";
     OutputCriterion.description := "准确性和完整性";
     OutputCriterion.criteria :=
       [ CriterionMetric.make "准确性" "输出内容是否准确无误" 1;
         CriterionMetric.make "完整性" "输出内容是否完整" 1 ];
     OutputCriterion.weights := ∅;
     OutputCriterion.min_score := 0.8;
     OutputCriterion.max_retries := 3 |}.

(** A criterion with one explicit metric, scored by the backend. *)
Definition quality_criterion : OutputCriterion.t :=
  {| OutputCriterion.name := "质量评估";
     OutputCriterion.description := "输出应该准确、完整且有用";
     OutputCriterion.criteria := [CriterionMetric.make "总体质量" "整体输出质量评估" 1];
     OutputCriterion.weights := ∅;
     OutputCriterion.min_score := 0.8;
     OutputCriterion.max_retries := 3 |}.

(** The agent of [demo_framework.py], with an explicit metric, without
    output constraints, and with [max_retries=2]. *)
Definition agent_config : AgentConfig.t Empty_set :=
  {| AgentConfig.name := "智能分析Agent";
     AgentConfig.description := "分析给定主题并提供专业见解";
     AgentConfig.input_constraints := [topic_constraint];
     AgentConfig.output_constraints := [];
     AgentConfig.output_criterion := quality_criterion;
     AgentConfig.max_retries := 2;
     AgentConfig.timeout := 30;
     AgentConfig.enable_auto_optimization := true |}.

(** A backend that answers every scoring prompt with 0.3: the replies
    are, in order, a first draft, its score, an improved task
    description, a second draft, and further scores and drafts should
    they be asked for. *)
Definition low_scoring_llm : LLMBase.t World :=
  scripted_llm 3
    [ Ret "draft one"; Ret "0.3"; Ret "a sharper task description";
      Ret "draft two"; Ret "0.3"; Ret "another task description";
      Ret "draft three"; Ret "0.3" ].

(** [AgentBase(agent_config, llm)], freshly constructed. *)
Definition low_scoring_agent : AgentBase.t World Empty_set :=
  AgentBase.__init__ agent_config low_scoring_llm.

(** A backend whose first draft is scored 0.9. *)
Definition high_scoring_llm : LLMBase.t World :=
  scripted_llm 3 [ Ret "a thorough analysis"; Ret "0.9" ].

Definition high_scoring_agent : AgentBase.t World Empty_set :=
  AgentBase.__init__ agent_config high_scoring_llm.

Definition topic : PyVal := VStr "人工智能在医疗领域的应用".

(** [LLMFactory(LLMFactoryConfig(preferred_mode="auto", api_key="sk-demo"))]:
    fall-back to the cloud is enabled by default. *)
Definition auto_factory : LLMFactory.t World :=
  LLMFactory.__init__
    {| LLMFactoryConfig.preferred_mode := "auto";
       LLMFactoryConfig.local_model_name := "qwen3:8b";
       LLMFactoryConfig.cloud_model_name := "qwen-plus";
       LLMFactoryConfig.api_key := Some "sk-demo";
       LLMFactoryConfig.base_url := "https://dashscope.aliyuncs.com/compatible-mode/v1";
       LLMFactoryConfig.fallback_to_cloud := true;
       LLMFactoryConfig.health_check_timeout := 10 |}.

(** [InputTypeConstraint(name="count", data_type="integer", min_value=0)] *)
Definition nonnegative_constraint : InputTypeConstraint.t :=
  {| InputTypeConstraint.name := "count";
     InputTypeConstraint.data_type := "integer";
     InputTypeConstraint.required := true;
     InputTypeConstraint.min_length := None;
     InputTypeConstraint.max_length := None;
     InputTypeConstraint.pattern := None;
     InputTypeConstraint.allowed_values := None;
     InputTypeConstraint.min_value := Some (NInt 0);
     InputTypeConstraint.max_value := None;
     InputTypeConstraint.custom_validator := None |}.

(** The mapping [{"topic": ""}]: an empty topic and no count. *)
Definition empty_topic : list (string * PyVal) := [("topic", VStr "")].


(** [LLMFactory(LLMFactoryConfig(preferred_mode="auto", fallback_to_cloud=False))]. *)
Definition local_only_factory : LLMFactory.t World :=
  LLMFactory.__init__
    {| LLMFactoryConfig.preferred_mode := "auto";
       LLMFactoryConfig.local_model_name := "qwen3:8b";
       LLMFactoryConfig.cloud_model_name := "qwen-plus";
       LLMFactoryConfig.api_key := None;
       LLMFactoryConfig.base_url := "https://dashscope.aliyuncs.com/compatible-mode/v1";
       LLMFactoryConfig.fallback_to_cloud := false;
       LLMFactoryConfig.health_check_timeout := 10 |}.

(** [LLMFactory(LLMFactoryConfig(preferred_mode="cloud"))]: no API key. *)
Definition keyless_cloud_factory : LLMFactory.t World :=
  LLMFactory.__init__
    {| LLMFactoryConfig.preferred_mode := "cloud";
       LLMFactoryConfig.local_model_name := "qwen3:8b";
       LLMFactoryConfig.cloud_model_name := "qwen-plus";
       LLMFactoryConfig.api_key := None;
       LLMFactoryConfig.base_url := "https://dashscope.aliyuncs.com/compatible-mode/v1";
       LLMFactoryConfig.fallback_to_cloud := true;
       LLMFactoryConfig.health_check_timeout := 10 |}.

(** The metrics of an agent after [reset_metrics] and the increment
    that opens its first execution. *)
Definition metrics_in_first_execution : gmap string PyNum :=
  <["total_executions" := NInt 1]>
    (AgentBase.performance_metrics (AgentBase.reset_metrics high_scoring_agent)).




End Scripted.

(** ** Proof automation *)

(** One step of a [bind] chain: run the first computation, keep what
    is known of its final state, and go on with its value; an
    exception ends the chain. *)
Ltac run_step lemma :=
  unfold bind at 1;
  match goal with
  | |- context [match ?m ?s with _ => _ end] =>
      let Hc := fresh "Hc" in
      pose proof (lemma s) as Hc;
      let r := fresh "r" in
      let e := fresh "e" in
      let s' := fresh "s" in
      destruct (m s) as [ [ r | e ] s']; cbn [fst snd] in Hc |- *
  end.

(** The same step, with the names of what it introduces: the value
    [r] or the exception [e], the state [s'] and the fact [Hc]. *)
Ltac run_step_as lemma r e s' Hc :=
  unfold bind at 1;
  match goal with
  | |- context [match ?m ?s with _ => _ end] =>
      pose proof (lemma s) as Hc;
      destruct (m s) as [ [ r | e ] s']; cbn [fst snd] in Hc |- *
  end.

(** * Properties *)

(** ** The order of numbers *)

Section NumberFacts.
#[local] Open Scope float_scope.

(** The comparisons of [float] are those of IEEE 754, as the
    specification of the primitive operations states them. *)

Lemma SFcompare_antisym (x y : spec_float) :
  SFcompare y x = option_map CompOpp (SFcompare x y).
Proof.
  destruct x as [sx|sx| |sx mx ex], y as [sy|sy| |sy my ey]; cbn;
    try reflexivity;
    repeat match goal with b : bool |- _ => destruct b end; cbn; try reflexivity.
  - rewrite (Z.compare_antisym ex ey). destruct (ex ?= ey)%Z; cbn; try reflexivity.
    change (Pos.compare_cont Eq my mx) with (Pos.compare my mx).
    change (Pos.compare_cont Eq mx my) with (Pos.compare mx my).
    rewrite (Pos.compare_antisym mx my). destruct (mx ?= my)%positive; reflexivity.
  - rewrite (Z.compare_antisym ex ey). destruct (ex ?= ey)%Z; cbn; try reflexivity.
    change (Pos.compare_cont Eq my mx) with (Pos.compare my mx).
    change (Pos.compare_cont Eq mx my) with (Pos.compare mx my).
    rewrite (Pos.compare_antisym mx my). reflexivity.
Qed.

Lemma SFcompare_refl (x : spec_float) :
  SFcompare x x = match x with S754_nan => None | _ => Some Eq end.
Proof.
  destruct x as [s|s| |s m e]; cbn; try reflexivity.
  - destruct s; reflexivity.
  - rewrite Z.compare_refl.
    change (Pos.compare_cont Eq m m) with (Pos.compare m m).
    rewrite Pos.compare_refl. destruct s; reflexivity.
Qed.

Lemma SFcompare_None (x y : spec_float) :
  SFcompare x y = None <-> x = S754_nan \/ y = S754_nan.
Proof.
  destruct x as [sx|sx| |sx mx ex], y as [sy|sy| |sy my ey]; cbn;
    split; intros Hx; try discriminate; auto;
    destruct Hx as [Hx|Hx]; discriminate.
Qed.

(** Transitivity of the order on the comparable numbers. *)
Lemma SFcompare_trans (x y z : spec_float) (c1 c2 : comparison) :
  SFcompare x y = Some c1 -> c1 <> Gt ->
  SFcompare y z = Some c2 -> c2 <> Gt ->
  exists c3, SFcompare x z = Some c3 /\ c3 <> Gt /\ (c3 = Eq -> c1 = Eq /\ c2 = Eq).
Proof.
  destruct x as [sx|sx| |sx mx ex], y as [sy|sy| |sy my ey], z as [sz|sz| |sz mz ez]; cbn;
    intros H1 N1 H2 N2; try discriminate;
    repeat match goal with b : bool |- _ => destruct b end; cbn in *;
    repeat match goal with
           | H : Some _ = Some _ |- _ => injection H as <-
           end;
    try congruence;
    try (eexists; split; [reflexivity|]; split; [discriminate|];
         intros; try discriminate; auto; fail).
  all: change (Pos.compare_cont Eq ?a ?b) with (Pos.compare a b) in *.
  all: destruct (Z.compare_spec ex ey), (Z.compare_spec ey ez), (Z.compare_spec ex ez);
       subst; try lia; try congruence;
       try destruct (Pos.compare_spec mx my); try destruct (Pos.compare_spec my mz);
       try destruct (Pos.compare_spec mx mz); subst; cbn in *; try lia; try congruence;
       try (eexists; split; [reflexivity|]; split; [discriminate|];
            intros; try discriminate; auto; fail).
Qed.

Lemma is_nan_spec (f : float) : is_nan f = true <-> Prim2SF f = S754_nan.
Proof.
  unfold is_nan. rewrite FloatAxioms.eqb_spec. unfold SFeqb. rewrite SFcompare_refl.
  destruct (Prim2SF f); cbn; split; intros Hx; congruence.
Qed.

Lemma ltb_compare (a b : float) :
  (a <? b) = match SFcompare (Prim2SF a) (Prim2SF b) with Some Lt => true | _ => false end.
Proof. rewrite FloatAxioms.ltb_spec. reflexivity. Qed.

Lemma leb_compare (a b : float) :
  (a <=? b) = match SFcompare (Prim2SF a) (Prim2SF b) with
              | Some Lt | Some Eq => true
              | _ => false
              end.
Proof. rewrite FloatAxioms.leb_spec. reflexivity. Qed.

(** [a < b] excludes [b <= a]; without NaN one of the two holds. *)
Lemma float_ltb_leb_opp (a b : float) :
  is_nan a = false -> is_nan b = false -> (a <? b) = negb (b <=? a).
Proof.
  intros Ha Hb. rewrite ltb_compare, leb_compare, (SFcompare_antisym (Prim2SF a) (Prim2SF b)).
  destruct (SFcompare (Prim2SF a) (Prim2SF b)) as [ [ | | ] | ] eqn:Hc; try reflexivity.
  apply SFcompare_None in Hc as [Hc|Hc]; apply is_nan_spec in Hc; congruence.
Qed.

Lemma float_nan_unordered (a b : float) :
  is_nan a = true \/ is_nan b = true ->
  (a <? b) = false /\ (a <=? b) = false /\ (b <? a) = false /\ (b <=? a) = false.
Proof.
  intros Hn. rewrite !ltb_compare, !leb_compare.
  assert (H1 : SFcompare (Prim2SF a) (Prim2SF b) = None).
  { apply SFcompare_None. destruct Hn as [Hn|Hn]; apply is_nan_spec in Hn; auto. }
  assert (H2 : SFcompare (Prim2SF b) (Prim2SF a) = None).
  { apply SFcompare_None. destruct Hn as [Hn|Hn]; apply is_nan_spec in Hn; auto. }
  rewrite H1, H2. auto.
Qed.

Lemma float_leb_not_nan (a b : float) :
  (a <=? b) = true -> is_nan a = false /\ is_nan b = false.
Proof.
  intros Hle. destruct (is_nan a) eqn:Ha.
  - destruct (float_nan_unordered a b (or_introl Ha)) as (_ & H & _). congruence.
  - destruct (is_nan b) eqn:Hb; [|auto].
    destruct (float_nan_unordered a b (or_intror Hb)) as (_ & H & _). congruence.
Qed.

Lemma float_ltb_leb (a b : float) : (a <? b) = true -> (a <=? b) = true.
Proof.
  rewrite ltb_compare, leb_compare.
  destruct (SFcompare (Prim2SF a) (Prim2SF b)) as [ [ | | ] | ]; congruence.
Qed.

Lemma float_leb_trans (a b c : float) :
  (a <=? b) = true -> (b <=? c) = true -> (a <=? c) = true.
Proof.
  rewrite !leb_compare. intros H1 H2.
  destruct (SFcompare (Prim2SF a) (Prim2SF b)) as [c1|] eqn:E1; [|discriminate].
  destruct (SFcompare (Prim2SF b) (Prim2SF c)) as [c2|] eqn:E2; [|discriminate].
  destruct (SFcompare_trans _ _ _ c1 c2 E1 ltac:(destruct c1; congruence)
              E2 ltac:(destruct c2; congruence)) as (c3 & -> & Hc3 & _).
  destruct c3; congruence.
Qed.

Lemma float_leb_ltb_trans (a b c : float) :
  (a <=? b) = true -> (b <? c) = true -> (a <? c) = true.
Proof.
  rewrite !leb_compare, !ltb_compare. intros H1 H2.
  destruct (SFcompare (Prim2SF a) (Prim2SF b)) as [c1|] eqn:E1; [|discriminate].
  destruct (SFcompare (Prim2SF b) (Prim2SF c)) as [c2|] eqn:E2; [|discriminate].
  destruct (SFcompare_trans _ _ _ c1 c2 E1 ltac:(destruct c1; congruence)
              E2 ltac:(destruct c2; congruence)) as (c3 & -> & Hc3 & Heq).
  destruct c3; try congruence. destruct (Heq eq_refl) as [_ ->]. discriminate.
Qed.

Lemma float_compare_spec (f g : float) :
  float_compare f g = SFcompare (Prim2SF f) (Prim2SF g).
Proof.
  unfold float_compare. rewrite FloatAxioms.compare_spec.
  destruct (SFcompare (Prim2SF f) (Prim2SF g)) as [ [ | | ] | ]; reflexivity.
Qed.

Lemma float_compare_Z_None (f : float) (z : Z) :
  float_compare_Z f z = None <-> is_nan f = true.
Proof.
  rewrite is_nan_spec. unfold float_compare_Z.
  destruct (Prim2SF f); split; intros Hx; congruence.
Qed.

Lemma num_compare_antisym (a b : PyNum) :
  num_compare b a = option_map CompOpp (num_compare a b).
Proof.
  destruct a as [x|f], b as [y|g]; cbn.
  - rewrite (Z.compare_antisym x y). reflexivity.
  - destruct (float_compare_Z g x) as [ [ | | ] | ]; reflexivity.
  - reflexivity.
  - rewrite !float_compare_spec. apply SFcompare_antisym.
Qed.

Lemma num_compare_None (a b : PyNum) :
  num_compare a b = None <-> num_is_nan a = true \/ num_is_nan b = true.
Proof.
  destruct a as [x|f], b as [y|g]; cbn.
  - split; [discriminate | intros [Hx|Hx]; discriminate].
  - destruct (float_compare_Z g x) as [c|] eqn:Hc; cbn.
    + split; [discriminate|]. intros [Hx|Hx]; [discriminate|].
      apply (float_compare_Z_None g x) in Hx. congruence.
    + apply float_compare_Z_None in Hc. split; auto.
  - rewrite float_compare_Z_None. split; [auto | intros [Hx|Hx]; [exact Hx | discriminate]].
  - rewrite float_compare_spec, SFcompare_None, <- !is_nan_spec. reflexivity.
Qed.

(** Without NaN, [a < b] is the negation of [b <= a]. *)
Lemma num_lt_le_opp (a b : PyNum) :
  num_is_nan a = false -> num_is_nan b = false -> num_lt a b = negb (num_le b a).
Proof.
  intros Ha Hb. unfold num_lt, num_le. rewrite (num_compare_antisym a b).
  destruct (num_compare a b) as [ [ | | ] | ] eqn:Hc; try reflexivity.
  apply num_compare_None in Hc as [Hc|Hc]; congruence.
Qed.

Lemma num_lt_nan (a b : PyNum) :
  num_is_nan a = true \/ num_is_nan b = true -> num_lt a b = false.
Proof.
  intros Hn. apply num_compare_None in Hn. unfold num_lt. rewrite Hn. reflexivity.
Qed.

End NumberFacts.


(** ** The constraint validator *)

Section ConstraintFacts.
Context `{Builtins}.
Import InputTypeConstraint.

Lemma caught_by_Exception (e : PyExc) : caught_by Exception e = true.
Proof. reflexivity. Qed.

Lemma validate_of_body (c : t) (v : PyVal) :
  validate c v =
    Ret match validate_body c v with
        | Ret b => b
        | Raise _ => false
        end.
Proof. unfold validate. destruct (validate_body c v); reflexivity. Qed.

(** [_check_pattern] returns unless the engine raises something other
    than [re.error]. *)
Lemma check_pattern_raises (c : t) (v : PyVal) (e : PyExc) :
  _check_pattern c v = Raise e ->
  exists p s, pattern c = Some p /\ v = VStr s /\ re_match p s = Raise e
              /\ caught_by re_error e = false.
Proof.
  unfold _check_pattern. intros Hc.
  destruct (pattern c) as [p|]; [|discriminate].
  destruct v; try discriminate.
  destruct (String.eqb p ""); [discriminate|].
  destruct (re_match p s) as [m|e'] eqn:Hm.
  - destruct m; discriminate.
  - destruct (caught_by re_error e') eqn:Hcb; [discriminate|].
    injection Hc as ->. eauto 6.
Qed.

Lemma field_prefix_nonempty (rest : string) : ("字段 " ++ rest)%string <> "".
Proof. discriminate. Qed.

Lemma length_message_nonempty (c : t) (m : string) :
  length_message c = Some m -> m <> "".
Proof.
  unfold length_message. intros Hm.
  repeat match type of Hm with
         | (if ?b then _ else _) = _ => destruct b
         end; inversion Hm; apply field_prefix_nonempty.
Qed.

Lemma range_message_nonempty (c : t) (m : string) :
  range_message c = Some m -> m <> "".
Proof.
  unfold range_message. intros Hm.
  repeat match type of Hm with
         | (if ?b then _ else _) = _ => destruct b
         end; inversion Hm; apply field_prefix_nonempty.
Qed.

(** Every message [get_error_message] returns is non-empty. *)
Lemma error_message_nonempty (c : t) (v : PyVal) (m : string) :
  get_error_message c v = Ret (Some m) -> m <> "".
Proof.
  unfold get_error_message. rewrite validate_of_body. cbn [rbind].
  destruct (match validate_body c v with Ret b => b | Raise _ => false end);
    [discriminate|].
  destruct (required c && is_None v).
  { intros [= <-]. apply field_prefix_nonempty. }
  destruct (negb (_check_type c v)).
  { intros [= <-]. apply field_prefix_nonempty. }
  destruct (if negb (_check_length c v) then length_message c else None) as [lm|] eqn:Hl.
  { intros [= <-]. destruct (negb (_check_length c v)); [|discriminate].
    eapply length_message_nonempty; eauto. }
  unfold message_after_length.
  destruct (_check_pattern c v) as [ok|e]; cbn [rbind]; [|discriminate].
  destruct (negb ok).
  { intros [= <-]. apply field_prefix_nonempty. }
  destruct (if negb (_check_value_range c v) then range_message c else None) as [rm|] eqn:Hr.
  { intros [= <-]. destruct (negb (_check_value_range c v)); [|discriminate].
    eapply range_message_nonempty; eauto. }
  destruct (negb (_check_allowed_values c v)); intros [= <-];
    apply field_prefix_nonempty.
Qed.

(** [get_error_message] returns [None] exactly when [validate] returns
    [True]. *)
Lemma error_message_none_iff (c : t) (v : PyVal) :
  get_error_message c v = Ret None <-> validate c v = Ret true.
Proof.
  unfold get_error_message. rewrite validate_of_body. cbn [rbind].
  destruct (match validate_body c v with Ret b => b | Raise _ => false end).
  { split; reflexivity. }
  split; [|discriminate].
  destruct (required c && is_None v); [discriminate|].
  destruct (negb (_check_type c v)); [discriminate|].
  destruct (if negb (_check_length c v) then length_message c else None); [discriminate|].
  unfold message_after_length.
  destruct (_check_pattern c v) as [ok|e]; cbn [rbind]; [|discriminate].
  destruct (negb ok); [discriminate|].
  destruct (if negb (_check_value_range c v) then range_message c else None); [discriminate|].
  destruct (negb (_check_allowed_values c v)); discriminate.
Qed.

(** Where the regular-expression engine raises nothing but [re.error],
    a failed validation always comes with a message. *)
Lemma error_message_when_engine_raises_only_re_error (c : t) (v : PyVal) :
  (forall p s e, re_match p s = Raise e -> caught_by re_error e = true) ->
  validate c v = Ret false ->
  exists m, get_error_message c v = Ret (Some m) /\ m <> "".
Proof.
  intros Hre Hv.
  destruct (get_error_message c v) as [[m|]|e] eqn:Hg.
  - exists m. split; [reflexivity|]. eapply error_message_nonempty; eauto.
  - apply error_message_none_iff in Hg. congruence.
  - exfalso. revert Hg. unfold get_error_message. rewrite Hv. cbn [rbind].
    destruct (required c && is_None v); [discriminate|].
    destruct (negb (_check_type c v)); [discriminate|].
    destruct (if negb (_check_length c v) then length_message c else None); [discriminate|].
    unfold message_after_length.
    destruct (_check_pattern c v) as [ok|e'] eqn:Hp; cbn [rbind].
    + destruct (negb ok); [discriminate|].
      destruct (if negb (_check_value_range c v) then range_message c else None);
        [discriminate|].
      destruct (negb (_check_allowed_values c v)); discriminate.
    + apply check_pattern_raises in Hp as (p & s & _ & _ & Hm & Hcb).
      apply Hre in Hm. congruence.
Qed.

End ConstraintFacts.

Section ConstraintClaims.
Context `{Builtins}.
Import InputTypeConstraint.

(** C10.  [validate] is total: for every constraint and every value it
    returns a boolean and never raises.  Whatever exception the checks
    raise is turned into [False]; in particular, when the
    regular-expression engine raises on the constraint's pattern
    ([re.error] for a malformed pattern, or any other exception), the
    string is rejected. *)
Theorem validate_never_raises (c : t) (v : PyVal) :
  (exists b, validate c v = Ret b) /\
  (forall e, validate_body c v = Raise e -> validate c v = Ret false) /\
  (forall p s e,
      pattern c = Some p -> String.eqb p "" = false -> v = VStr s ->
      re_match p s = Raise e -> validate c v = Ret false).
Proof.
  split; [|split].
  - rewrite validate_of_body. eauto.
  - intros e He. rewrite validate_of_body, He. reflexivity.
  - intros p s e Hp Hne -> Hm. rewrite validate_of_body. f_equal.
    unfold validate_body. cbn [is_None]. rewrite andb_false_r.
    destruct (negb (_check_type c (VStr s))); [reflexivity|].
    destruct (negb (_check_length c (VStr s))); [reflexivity|].
    unfold _check_pattern. rewrite Hp, Hne, Hm.
    destruct (caught_by re_error e); reflexivity.
Qed.

End ConstraintClaims.

Section ConstraintExamples.
Import Scripted.

(** The scenario of the specification: an empty topic violates the
    length bounds, and the message names them. *)
Example topic_empty_string :
  InputTypeConstraint.validate topic_constraint (VStr "") = Ret false /\
  InputTypeConstraint.get_error_message topic_constraint (VStr "")
    = Ret (Some "字段 topic 长度应在 1-200 之间").
Proof. split; vm_compute; reflexivity. Qed.

(** A malformed pattern: [re.error] is handled inside [_check_pattern],
    and [get_error_message] reports the format. *)
Example malformed_pattern_message :
  InputTypeConstraint.validate malformed_constraint (VStr "x") = Ret false /\
  InputTypeConstraint.get_error_message malformed_constraint (VStr "x")
    = Ret (Some "字段 code 格式不正确").
Proof. split; vm_compute; reflexivity. Qed.

Lemma validate_never_raises_witness :
  InputTypeConstraint.validate overflow_constraint (VStr "x") = Ret false.
Proof.
  exact (proj2 (proj2 (validate_never_raises overflow_constraint (VStr "x")))
           "a{99999999999999999999}" "x"
           (mkExc OverflowError "the repetition number is too large")
           eq_refl eq_refl eq_refl eq_refl).
Defined.

(** C5.  The claim fails on this input: the pattern's repetition count
    makes the engine raise [OverflowError], which [validate] turns into
    [False], while [get_error_message], re-running [_check_pattern]
    outside any handler, lets it escape: no message is returned. *)
Theorem get_error_message_lets_engine_error_escape :
  InputTypeConstraint.validate overflow_constraint (VStr "x") = Ret false /\
  InputTypeConstraint.get_error_message overflow_constraint (VStr "x")
    = Raise (mkExc OverflowError "the repetition number is too large").
Proof. split; vm_compute; reflexivity. Qed.

(** C4, as the claim states it, fails for a boolean under [integer]:
    [isinstance(True, int)] holds, so the check accepts a value whose
    type is not exactly [int]. *)
Lemma check_type_integer_accepts_bool :
  InputTypeConstraint._check_type count_constraint (VBool true) = true /\
  InputTypeConstraint.claimed_check_type count_constraint (VBool true) = false.
Proof. split; reflexivity. Qed.

(** C4, amended.  For every constraint and value the type check accepts
    exactly: integers, reals and booleans under [float]; integers and
    booleans under [integer]; booleans under [boolean]; strings under
    [string] and the string-shaped tags; lists under [array];
    dictionaries under [object]. *)
Theorem check_type_accepts (c : InputTypeConstraint.t) (v : PyVal) :
  let dt := InputTypeConstraint.data_type c in
  let ok := InputTypeConstraint._check_type c v in
  let exactly := fun ty => InputTypeConstraint.is_exactly ty v in
  (dt = "float" -> ok = exactly T_int || exactly T_float || exactly T_bool) /\
  (dt = "integer" -> ok = exactly T_int || exactly T_bool) /\
  (dt = "boolean" -> ok = exactly T_bool) /\
  (In dt ["string"; "image"; "audio"; "video"; "file"; "url"; "email"; "phone"] ->
   ok = exactly T_str) /\
  (dt = "array" -> ok = exactly T_list) /\
  (dt = "object" -> ok = exactly T_dict).
Proof.
  cbv zeta. unfold InputTypeConstraint._check_type.
  repeat split; intros Hdt;
    try (rewrite Hdt; destruct v; reflexivity).
  cbn [In] in Hdt.
  repeat (destruct Hdt as [Hdt|Hdt]; [rewrite <- Hdt; destruct v; reflexivity|]).
  destruct Hdt.
Qed.

Lemma check_type_accepts_witness :
  InputTypeConstraint._check_type count_constraint (VBool true)
    = InputTypeConstraint.is_exactly T_int (VBool true)
      || InputTypeConstraint.is_exactly T_bool (VBool true).
Proof.
  exact (proj1 (proj2 (check_type_accepts count_constraint (VBool true))) eq_refl).
Defined.

End ConstraintExamples.

(** ** The retrying [generate] of the backend invoker *)

Section RetryFacts.
Context {W : Type} `{LLMBase.Backend W}.
Import LLMBase.

Lemma generate_run (prompt : string) (kw : kwargs) (self : t W) :
  config (snd (generate prompt kw self)) = config self /\
  trace (snd (generate prompt kw self))
    = (trace self ++ [EvGenerate prompt kw
                         match fst (generate prompt kw self) with
                         | Ret _ => None
                         | Raise e => Some e
                         end])%list.
Proof.
  unfold generate. destruct (generate_impl prompt kw self) as [r self'].
  cbn. split; reflexivity.
Qed.

Lemma sleep_run (n : Z) (self : t W) :
  config (snd (sleep n self)) = config self /\
  trace (snd (sleep n self)) = (trace self ++ [EvSleep n])%list.
Proof. split; reflexivity. Qed.

Lemma last_cons_default {A} (x d : A) (l : list A) :
  List.last (x :: l) d = List.last l x.
Proof.
  revert x d. induction l as [|y l IH]; intros x d; [reflexivity|].
  change (List.last (x :: y :: l) d) with (List.last (y :: l) d).
  rewrite (IH y d), (IH y x). reflexivity.
Qed.

Lemma generate_calls_app (a b : list Event) :
  generate_calls (a ++ b)%list = (generate_calls a + generate_calls b)%nat.
Proof. unfold generate_calls. rewrite List.filter_app, List.length_app. reflexivity. Qed.

Lemma generate_calls_failed (mr : Z) (prompt : string) (kw : kwargs) (es : list PyExc) :
  forall k, generate_calls (failed_attempts mr prompt kw k es) = length es.
Proof.
  induction es as [|e es IH]; intros k; [reflexivity|].
  cbn [failed_attempts].
  change (EvGenerate prompt kw (Some e) :: ?l) with ([EvGenerate prompt kw (Some e)] ++ l)%list.
  rewrite !generate_calls_app, IH.
  destruct (k <? mr)%Z; reflexivity.
Qed.

(** The loop over the attempts [k, k+1, ..., k+n-1]. *)
Lemma retry_loop_run (prompt : string) (kw : kwargs) :
  forall (n k : nat) (last_exception : option PyExc) (self : t W),
    let mr := LLMConfig.max_retries (config self) in
    let run := retry_loop (map Z.of_nat (seq k n)) last_exception prompt kw self in
    config (snd run) = config self /\
    match fst run with
    | Raise e =>
        exists es,
          length es = n /\
          trace (snd run) = (trace self ++ failed_attempts mr prompt kw (Z.of_nat k) es)%list /\
          e = List.last es match last_exception with
                           | Some e0 => e0
                           | None => mkExc Exception "生成失败"
                           end
    | Ret _ =>
        exists es,
          (length es < n)%nat /\
          trace (snd run)
            = (trace self ++ failed_attempts mr prompt kw (Z.of_nat k) es
                 ++ [EvGenerate prompt kw None])%list
    end.
Proof.
  induction n as [|n IH]; intros k last_exception self; cbv zeta.
  - cbn. split; [reflexivity|]. exists []. cbn. rewrite app_nil_r. auto.
  - cbn [seq map retry_loop].
    pose proof (generate_run prompt kw self) as [Hcfg Htr].
    destruct (generate prompt kw self) as [[r|e] self1] eqn:Hg; cbn [fst snd] in *.
    + split; [exact Hcfg|]. exists []. cbn. split; [lia|]. exact Htr.
    + rewrite Hcfg.
      set (self2 := if (Z.of_nat k <? LLMConfig.max_retries (config self))%Z
                    then snd (sleep (2 ^ Z.of_nat k) self1) else self1).
      assert (Hcfg2 : config self2 = config self).
      { unfold self2. destruct (_ <? _)%Z; [|exact Hcfg].
        rewrite (proj1 (sleep_run _ _)). exact Hcfg. }
      assert (Htr2 : trace self2
                     = (trace self ++ EvGenerate prompt kw (Some e)
                          :: (if (Z.of_nat k <? LLMConfig.max_retries (config self))%Z
                              then [EvSleep (2 ^ Z.of_nat k)] else []))%list).
      { unfold self2. destruct (_ <? _)%Z.
        - rewrite (proj2 (sleep_run _ _)), Htr, <- app_assoc. reflexivity.
        - rewrite Htr. reflexivity. }
      specialize (IH (S k) (Some e) self2). cbv zeta in IH.
      rewrite Hcfg2 in IH. destruct IH as [IHc IHr].
      split; [exact IHc|].
      replace (Z.of_nat (S k)) with (Z.of_nat k + 1)%Z in IHr by lia.
      destruct (fst (retry_loop (map Z.of_nat (seq (S k) n)) (Some e) prompt kw self2))
        as [r|e'].
      * destruct IHr as (es & Hlen & Htrace). exists (e :: es). split; [cbn; lia|].
        rewrite Htrace, Htr2. cbn [failed_attempts].
        destruct (_ <? _)%Z; rewrite <- ?app_assoc; reflexivity.
      * destruct IHr as (es & Hlen & Htrace & Hlast). exists (e :: es).
        split; [cbn; lia|]. split.
        -- rewrite Htrace, Htr2. cbn [failed_attempts].
           destruct (_ <? _)%Z; rewrite <- ?app_assoc; reflexivity.
        -- rewrite last_cons_default. exact Hlast.
Qed.

(** C7.  [generate_with_retry] calls the single-shot [generate] at most
    [max_retries + 1] times.  Its events are the failed attempts, each
    followed by a sleep of [2^attempt] seconds while [attempt <
    max_retries] (so none after the last), and then either the
    successful call or nothing: when every attempt fails, the exception
    raised is the last one captured (the generic one if none was).  In
    particular, with [max_retries = 1] and both attempts failing, the
    caller receives the second attempt's exception and exactly one
    sleep, of [2^0] seconds, separates the two calls. *)
Theorem generate_with_retry_protocol (prompt : string) (kw : kwargs) (self : t W) :
  let mr := LLMConfig.max_retries (config self) in
  let run := generate_with_retry prompt kw self in
  (generate_calls (trace (snd run))
     <= generate_calls (trace self) + Z.to_nat (mr + 1))%nat /\
  match fst run with
  | Raise e =>
      exists es,
        length es = Z.to_nat (mr + 1) /\
        trace (snd run) = (trace self ++ failed_attempts mr prompt kw 0 es)%list /\
        e = List.last es (mkExc Exception "生成失败")
  | Ret _ =>
      exists es,
        (length es < Z.to_nat (mr + 1))%nat /\
        trace (snd run)
          = (trace self ++ failed_attempts mr prompt kw 0 es
               ++ [EvGenerate prompt kw None])%list
  end /\
  (mr = 1%Z ->
   forall e, fst run = Raise e ->
   exists e0,
     trace (snd run)
       = (trace self ++ [EvGenerate prompt kw (Some e0); EvSleep 1;
                         EvGenerate prompt kw (Some e)])%list).
Proof.
  cbv zeta. unfold generate_with_retry, range.
  pose proof (retry_loop_run prompt kw
                (Z.to_nat (LLMConfig.max_retries (config self) + 1)) 0 None self) as Hrun.
  cbv zeta in Hrun. destruct Hrun as [_ Hrun]. change (Z.of_nat 0) with 0%Z in Hrun.
  set (run := retry_loop _ None prompt kw self) in *.
  split; [|split].
  - destruct (fst run) as [r|e].
    + destruct Hrun as (es & Hlen & ->).
      rewrite !generate_calls_app, generate_calls_failed. cbn. lia.
    + destruct Hrun as (es & Hlen & -> & _).
      rewrite generate_calls_app, generate_calls_failed. lia.
  - exact Hrun.
  - intros Hmr e He. rewrite He in Hrun. destruct Hrun as (es & Hlen & Htr & Hlast).
    rewrite Hmr in Hlen, Htr. change (Z.to_nat (1 + 1)) with 2%nat in Hlen.
    destruct es as [|e0 [|e1 [|? ?]]]; try discriminate.
    exists e0. rewrite Htr. cbn in Hlast. subst e. reflexivity.
Qed.

End RetryFacts.

Section RetryExamples.
Import Scripted.

(** A backend that fails twice, under [max_retries = 1]. *)
Lemma generate_with_retry_protocol_witness :
  exists e0,
    LLMBase.trace (snd (LLMBase.generate_with_retry "Hello" [] failing_twice))
      = (LLMBase.trace failing_twice
           ++ [EvGenerate "Hello" [] (Some e0); EvSleep 1;
               EvGenerate "Hello" [] (Some second_failure)])%list.
Proof.
  exact (proj2 (proj2 (generate_with_retry_protocol "Hello" [] failing_twice))
           eq_refl second_failure eq_refl).
Defined.

End RetryExamples.

(** ** The backend selector *)

Section FactoryFacts.
Context {W : Type} `{LLMBase.Backend W} `{LLMFactory.Subclasses W}.
Import LLMFactory.

(** Without an instance and without a key, nothing is built. *)
Lemma ensure_cloud_llm_raises (c : LLMConfig.t) (shared : bool) (self : t W) (e : PyExc) :
  fst (ensure_cloud_llm c shared self) = Raise e ->
  snd (ensure_cloud_llm c shared self) = self /\ _cloud_llm self = None.
Proof.
  unfold ensure_cloud_llm.
  destruct (_cloud_llm self) as [l|]; [discriminate|].
  destruct (LLMFactoryConfig.api_key (config self)) as [key|]; [|auto].
  destruct (String.eqb key ""); [auto|discriminate].
Qed.

Lemma ensure_cloud_llm_returns (c : LLMConfig.t) (shared : bool) (self : t W) (u : unit) :
  fst (ensure_cloud_llm c shared self) = Ret u ->
  config (snd (ensure_cloud_llm c shared self)) = config self.
Proof.
  unfold ensure_cloud_llm.
  destruct (_cloud_llm self) as [l|]; [reflexivity|].
  destruct (LLMFactoryConfig.api_key (config self)) as [key|]; [|discriminate].
  destruct (String.eqb key ""); [discriminate|]. destruct shared; reflexivity.
Qed.

(** What the first statement of [_create_cloud_llm] leaves in the cloud
    slot: the backend held before, or a cloud client built from the
    key and under the cloud model name. *)
Lemma ensure_cloud_llm_slot (c : LLMConfig.t) (shared : bool) (self : t W) (u : unit) :
  fst (ensure_cloud_llm c shared self) = Ret u ->
  match _cloud_llm self with
  | Some held => _cloud_llm (snd (ensure_cloud_llm c shared self)) = Some held
  | None =>
      exists key,
        LLMFactoryConfig.api_key (config self) = Some key /\
        String.eqb key "" = false /\
        _cloud_llm (snd (ensure_cloud_llm c shared self))
          = Some (QwenAPILLM
                    (LLMConfig.set_model_name
                       (LLMFactoryConfig.cloud_model_name (config self)) c)
                    {| QwenAPIConfig.api_key := key;
                       QwenAPIConfig.base_url := LLMFactoryConfig.base_url (config self);
                       QwenAPIConfig.model_name :=
                         LLMFactoryConfig.cloud_model_name (config self);
                       QwenAPIConfig.timeout := 30 |})
  end.
Proof.
  unfold ensure_cloud_llm.
  destruct (_cloud_llm self) as [l|] eqn:Hl; [intros _; exact Hl|].
  destruct (LLMFactoryConfig.api_key (config self)) as [key|]; [|discriminate].
  destruct (String.eqb key "") eqn:Hkey; [discriminate|].
  intros _. exists key. destruct shared; auto.
Qed.

Lemma check_cloud_health_without_instance (self : t W) :
  _cloud_llm self = None -> _check_cloud_health self = (Ret false, self).
Proof. intros Hnone. unfold _check_cloud_health, try_except. rewrite Hnone. reflexivity. Qed.

(** A cloud health check that answers [True] is the probe of the
    backend in the cloud slot, which it leaves there. *)
Lemma check_cloud_health_true (self : t W) :
  fst (_check_cloud_health self) = Ret true ->
  exists probed l,
    _cloud_llm self = Some probed /\
    wait_for LLMBase.health_check
      (LLMFactoryConfig.health_check_timeout (config self)) probed = (Ret true, l) /\
    snd (_check_cloud_health self) = set_cloud (Some l) self.
Proof.
  unfold _check_cloud_health, try_except.
  destruct (_cloud_llm self) as [probed|]; [|discriminate].
  destruct (wait_for LLMBase.health_check _ probed) as [ [ b | e ] l'] eqn:Hw; cbn.
  - intros Hb. injection Hb as ->. exists probed, l'.
    split; [reflexivity|]. split; [exact Hw | reflexivity].
  - discriminate.
Qed.

Lemma ensure_local_llm_run (c : LLMConfig.t) (self : t W) :
  fst (ensure_local_llm c self) = Ret tt /\
  config (snd (ensure_local_llm c self)) = config self /\
  _cloud_llm (snd (ensure_local_llm c self)) = _cloud_llm self.
Proof. unfold ensure_local_llm. destruct (_local_llm self); repeat split. Qed.

Lemma check_local_health_frame (self : t W) :
  config (snd (_check_local_health self)) = config self /\
  _cloud_llm (snd (_check_local_health self)) = _cloud_llm self /\
  _current_mode (snd (_check_local_health self)) = _current_mode self /\
  exists b, fst (_check_local_health self) = Ret b.
Proof.
  unfold _check_local_health, try_except.
  destruct (_local_llm self) as [l|]; [|cbn; eauto].
  destruct (wait_for LLMBase.health_check _ l) as [ [ b | e ] l']; cbn; eauto.
Qed.

(** C9.  A selector in [auto] mode with fall-back to the cloud enabled:
    when the local health check fails and the cloud health check
    succeeds, [create_llm] returns the cloud backend and
    [get_current_mode] then reports ["cloud"].  The backend returned is
    the one in the cloud slot, and it is the very object the successful
    health check probed and left there: the cloud backend the selector
    held before the call, or else a cloud client built from the API key
    under the cloud model name; nothing else of the selector differs
    from what the health check left.  ([shared]: the local backend was
    built from the object passed as [llm_config], by this call or, as
    the caller tells, by an earlier one; the assignment of the cloud
    model name then shows in its configuration too.) *)
Theorem auto_falls_back_to_cloud (llm_config : option LLMConfig.t)
    (local_shares_config : bool) (self : t W) :
  let c := match llm_config with
           | Some c => c
           | None => LLMConfig.make
                       (LLMFactoryConfig.local_model_name (config self)) 0.7 4096
           end in
  let shared := match _local_llm self with
                | None => true
                | Some _ => match llm_config with
                            | Some _ => local_shares_config
                            | None => false
                            end
                end in
  let local_check := _check_local_health (snd (ensure_local_llm c self)) in
  let cloud_slot := ensure_cloud_llm c shared (snd local_check) in
  let cloud_check := _check_cloud_health (snd cloud_slot) in
  let run := create_llm llm_config local_shares_config self in
  LLMFactoryConfig.preferred_mode (config self) = "auto" ->
  LLMFactoryConfig.fallback_to_cloud (config self) = true ->
  fst local_check = Ret false ->
  fst cloud_check = Ret true ->
  fst run = Ret CloudRef /\
  get_current_mode (snd run) = Some "cloud" /\
  snd run = set_mode (Some "cloud") (snd cloud_check) /\
  (exists probed l,
     _cloud_llm (snd cloud_slot) = Some probed /\
     wait_for LLMBase.health_check
       (LLMFactoryConfig.health_check_timeout (config self)) probed = (Ret true, l) /\
     deref CloudRef (snd run) = Some l) /\
  match _cloud_llm self with
  | Some held => _cloud_llm (snd cloud_slot) = Some held
  | None =>
      exists key,
        LLMFactoryConfig.api_key (config self) = Some key /\
        String.eqb key "" = false /\
        _cloud_llm (snd cloud_slot)
          = Some (QwenAPILLM
                    (LLMConfig.set_model_name
                       (LLMFactoryConfig.cloud_model_name (config self)) c)
                    {| QwenAPIConfig.api_key := key;
                       QwenAPIConfig.base_url := LLMFactoryConfig.base_url (config self);
                       QwenAPIConfig.model_name :=
                         LLMFactoryConfig.cloud_model_name (config self);
                       QwenAPIConfig.timeout := 30 |})
  end.
Proof.
  cbv zeta. intros Hmode Hfb Hlocal Hcloud.
  set (c := match llm_config with Some c => c | None => _ end) in *.
  set (shares := match llm_config with Some _ => local_shares_config | None => false end)
    in *.
  set (built_here := match _local_llm self with None => true | Some _ => shares end) in *.
  pose proof (ensure_local_llm_run c self) as (He1 & Hc1 & Hcl1).
  pose proof (check_local_health_frame (snd (ensure_local_llm c self))) as (Hc2 & Hcl2 & _).
  set (s2 := snd (_check_local_health (snd (ensure_local_llm c self)))) in *.
  assert (Hcfg2 : config s2 = config self) by congruence.
  assert (Hslot2 : _cloud_llm s2 = _cloud_llm self) by congruence.
  (* the cloud slot is filled *)
  destruct (fst (ensure_cloud_llm c built_here s2)) as [ [] | e3 ] eqn:He3.
  2:{ exfalso. destruct (ensure_cloud_llm_raises c built_here s2 e3 He3) as [Hs Hnone].
      rewrite Hs, (check_cloud_health_without_instance _ Hnone) in Hcloud.
      discriminate. }
  pose proof (ensure_cloud_llm_slot c built_here s2 tt He3) as Hslot.
  pose proof (ensure_cloud_llm_returns c built_here s2 tt He3) as Hcfg3.
  rewrite Hslot2, Hcfg2 in Hslot.
  destruct (check_cloud_health_true _ Hcloud) as (probed & l & Hprobed & Hprobe & Hs4).
  rewrite Hcfg3, Hcfg2 in Hprobe.
  (* the run *)
  assert (Hrun : create_llm llm_config local_shares_config self
                 = (Ret CloudRef,
                    set_mode (Some "cloud")
                      (snd (_check_cloud_health (snd (ensure_cloud_llm c built_here s2)))))).
  { unfold create_llm, bind at 1, get. rewrite Hmode. cbn [String.eqb Ascii.eqb Bool.eqb].
    fold shares c. unfold _create_auto_llm, bind at 1, get. fold built_here.
    unfold try_except at 1, _create_local_llm, bind at 1.
    destruct (ensure_local_llm c self) as [r1 s1]. cbn [fst snd] in *. subst r1.
    unfold bind at 1. fold s2 in Hlocal.
    destruct (_check_local_health s1) as [r2 s2'] eqn:He2. cbn [fst snd] in *.
    subst r2 s2. unfold raise at 1. rewrite caught_by_Exception.
    unfold bind at 1, get. rewrite Hcfg2, Hfb.
    unfold try_except at 1, _create_cloud_llm, bind at 1.
    destruct (ensure_cloud_llm c built_here s2') as [r3 s3]. cbn [fst snd] in *. subst r3.
    unfold bind at 1.
    destruct (_check_cloud_health s3) as [r4 s4]. cbn [fst snd] in *. subst r4.
    reflexivity. }
  rewrite Hrun. cbn [fst snd].
  split; [reflexivity|]. split; [reflexivity|]. split; [reflexivity|].
  split; [|exact Hslot].
  exists probed, l. split; [exact Hprobed|]. split; [exact Hprobe|].
  rewrite Hs4. reflexivity.
Qed.

End FactoryFacts.

Section FactoryExamples.
Import Scripted.

(** No local server, a reachable cloud service, and an API key. *)
Lemma auto_falls_back_to_cloud_witness :
  fst (LLMFactory.create_llm None false auto_factory) = Ret LLMFactory.CloudRef /\
  LLMFactory.get_current_mode (snd (LLMFactory.create_llm None false auto_factory)) = Some "cloud" /\
  exists l, LLMFactory.deref LLMFactory.CloudRef (snd (LLMFactory.create_llm None false auto_factory))
            = Some l /\
            LLMConfig.model_name (LLMBase.config l) = "qwen-plus".
Proof.
  assert (Hlocal : fst (LLMFactory._check_local_health
                          (snd (LLMFactory.ensure_local_llm
                                  (LLMConfig.make "qwen3:8b" 0.7 4096) auto_factory)))
                   = Ret false) by (vm_compute; reflexivity).
  destruct (auto_falls_back_to_cloud None false auto_factory eq_refl eq_refl Hlocal)
    as (Hret & Hmode & _ & (probed & l & _ & _ & Hl) & _); [vm_compute; reflexivity|].
  split; [exact Hret|]. split; [exact Hmode|].
  exists l. split; [exact Hl|].
  revert Hl. vm_compute. intros Hl. injection Hl as <-. reflexivity.
Defined.

End FactoryExamples.

(** ** The quality criterion *)

Section CriterionFacts.
Context {W : Type} `{Builtins} `{LLMBase.Backend W}.
Import OutputCriterion.
#[local] Open Scope float_scope.

(** The extraction never returns an empty list, and falls back to the
    single default metric when no keyword matches. *)
Lemma extract_criteria_nonempty (self : t) :
  _extract_criteria_from_description self <> [].
Proof.
  unfold _extract_criteria_from_description.
  destruct (match_metrics _ common_metrics []); discriminate.
Qed.

Lemma extract_criteria_default (self : t) :
  match_metrics (str_lower (description self)) common_metrics [] = [] ->
  _extract_criteria_from_description self
    = [CriterionMetric.make "总体质量" "整体输出质量评估" 1].
Proof. unfold _extract_criteria_from_description. intros ->. reflexivity. Qed.

(** What the hook would do, were it called. *)
Lemma post_init_derives_criteria (self : t) :
  criteria self = [] ->
  criteria (__post_init__ self) = _extract_criteria_from_description self.
Proof. unfold __post_init__. intros ->. reflexivity. Qed.





End CriterionFacts.

Section CriterionExamples.
Import Scripted.
#[local] Open Scope float_scope.



(** The keyword matching of [_extract_criteria_from_description]. *)
Example extract_matches_keywords :
  map CriterionMetric.name (OutputCriterion._extract_criteria_from_description two_metrics)
    = ["准确性"; "完整性"].
Proof. vm_compute. reflexivity. Qed.

Example extract_falls_back :
  OutputCriterion._extract_criteria_from_description default_criterion
    = [CriterionMetric.make "总体质量" "整体输出质量评估" 1].
Proof. vm_compute. reflexivity. Qed.

(** C3.  The claim fails on the code: the criterion that [main.py]
    constructs without metrics keeps its empty metric list, because
    nothing calls [__post_init__], and [evaluate] then runs on the empty
    list and returns its default 0.5. *)
Theorem constructed_criterion_keeps_no_metrics :
  OutputCriterion.__init__ "默认标准" "输出应该准确、完整且有用"
    OutputCriterion.default_criteria OutputCriterion.default_weights
    OutputCriterion.default_min_score OutputCriterion.default_max_retries
    = Ret default_criterion /\
  OutputCriterion.criteria default_criterion = [] /\
  fst (OutputCriterion.evaluate default_criterion (VStr "任务完成")
         (None : option (LLMBase.t World))) = Ret 0.5%float.
Proof. repeat split. Qed.

End CriterionExamples.

(** ** The agent execution engine *)

Section AgentFacts.
Context {W OC : Type} `{Builtins} `{LLMBase.Backend W} `{OutputConstraints OC}.
Import AgentBase.
#[local] Open Scope float_scope.

(** X26.  On a dictionary that has the six keys of [reset_metrics] and a
    non-zero count of executions, the update returns, follows the
    incremental-mean formula for the score and the response time with
    [n] the count of executions, adds the tokens to the cumulative
    total and divides that total by [n]. *)
Lemma update_performance_metrics_run
    (m : gmap string PyNum) (min_score quality_score response_time : float)
    (tokens_used : PyNum) (succ n avg avg_time total avg_tokens : PyNum) :
  m !! "successful_executions" = Some succ ->
  m !! "total_executions" = Some n ->
  m !! "average_score" = Some avg ->
  m !! "average_response_time" = Some avg_time ->
  m !! "total_tokens_used" = Some total ->
  num_is_zero n = false ->
  let run := _update_performance_metrics min_score quality_score response_time tokens_used m in
  fst run = Ret tt /\
  snd run !! "average_score"
    = Some ((avg * (n - NInt 1) + NFloat quality_score) / n)%num /\
  snd run !! "average_response_time"
    = Some ((avg_time * (n - NInt 1) + NFloat response_time) / n)%num /\
  snd run !! "total_tokens_used" = Some (total + tokens_used)%num /\
  snd run !! "average_tokens_per_execution" = Some ((total + tokens_used) / n)%num /\
  snd run !! "total_executions" = Some n /\
  snd run !! "successful_executions"
    = Some (if min_score <=? quality_score then (succ + NInt 1)%num else succ).
Proof.
  intros Hsucc Hn Havg Htime Htotal Hnz. cbv zeta.
  unfold _update_performance_metrics.
  destruct (min_score <=? quality_score);
    unfold bind, Dict.iadd, Dict.getitem, Dict.setitem, Dict.div, bind, modify, ret, raise;
    rewrite ?Hsucc; simplify_map_eq; rewrite ?Hnz; simplify_map_eq; rewrite ?Hnz;
    simplify_map_eq; rewrite ?Hnz; cbn [fst snd]; simplify_map_eq; repeat split.
Qed.

(** Without the key [total_tokens_used], as in the dictionary that
    [__init__] creates, the update never returns. *)
Lemma update_performance_metrics_needs_token_key
    (m : gmap string PyNum) (min_score quality_score response_time : float)
    (tokens_used : PyNum) :
  m !! "total_tokens_used" = None ->
  exists e, fst (_update_performance_metrics min_score quality_score response_time
                   tokens_used m) = Raise e.
Proof.
  intros Hnone. unfold _update_performance_metrics.
  unfold bind, Dict.iadd, Dict.getitem, Dict.setitem, Dict.div, bind, modify, ret, raise.
  repeat match goal with
         | |- context [match ?m' !! ?k with _ => _ end] =>
             let Hk := fresh "Hk" in
             destruct (m' !! k) eqn:Hk; simplify_map_eq; cbn [fst snd]
         | |- context [if ?b then _ else _] => destruct b; cbn [fst snd]
         end; eauto.
Qed.

Lemma fresh_agent_lacks_token_key (cfg : AgentConfig.t OC) (l : LLMBase.t W) :
  performance_metrics (__init__ cfg l) !! "total_tokens_used" = None.
Proof. reflexivity. Qed.

(** *** What a call of [execute] leaves behind *)

Lemma same_control_refl (a : t W OC) : same_control a a.
Proof. repeat split. Qed.

Lemma same_control_trans (a b c : t W OC) :
  same_control a b -> same_control b c -> same_control a c.
Proof. unfold same_control. intuition congruence. Qed.

Lemma on_llm_control {A} (m : M (LLMBase.t W) A) (self : t W OC) :
  same_control (snd (on_llm m self)) self.
Proof.
  unfold on_llm, zoom. destruct (m (llm self)) as [r l']. repeat split.
Qed.

Lemma on_metrics_control {A} (m : M (gmap string PyNum) A) (self : t W OC) :
  same_control (snd (on_metrics m self)) self.
Proof.
  unfold on_metrics, zoom. destruct (m (performance_metrics self)) as [r d]. repeat split.
Qed.

Lemma validate_input_state (input_data : PyVal) (self : t W OC) :
  snd (_validate_input input_data self) = self.
Proof.
  unfold _validate_input, bind, get, lift_result, raise, ret.
  destruct (AgentConfig.input_constraints (config self)); [reflexivity|].
  match goal with
  | |- context [@InputConstraintSet.is_valid ?h ?cs ?d] =>
      destruct (@InputConstraintSet.is_valid h cs d) as [ [ | ] | e ];
      cbn [negb snd]; try reflexivity
  end.
  match goal with
  | |- context [@InputConstraintSet.get_all_errors ?h ?cs ?d] =>
      destruct (@InputConstraintSet.get_all_errors h cs d); reflexivity
  end.
Qed.

Lemma validate_output_state (output : PyVal) (self : t W OC) :
  snd (_validate_output output self) = self.
Proof.
  unfold _validate_output, bind, get, lift_result, raise, ret.
  destruct (AgentConfig.output_constraints (config self)); [reflexivity|].
  match goal with
  | |- context [@output_is_valid ?oc ?h ?cs ?d] =>
      destruct (@output_is_valid oc h cs d) as [ [ | ] | e ];
      cbn [negb snd]; try reflexivity
  end.
  match goal with
  | |- context [@output_get_all_errors ?oc ?h ?cs ?d] =>
      destruct (@output_get_all_errors oc h cs d); reflexivity
  end.
Qed.

Lemma generate_output_control (input_data : PyVal) (kw : kwargs) (self : t W OC) :
  same_control (snd (_generate_output input_data kw self)) self.
Proof.
  unfold _generate_output, bind, get, ret.
  pose proof (on_llm_control
                (LLMBase.generate_with_retry (_build_prompt self input_data) kw) self) as Hc.
  destruct (on_llm _ self) as [ [ r | e ] s']; exact Hc.
Qed.

Lemma evaluate_quality_control (output : PyVal) (self : t W OC) :
  same_control (snd (_evaluate_quality output self)) self.
Proof.
  unfold _evaluate_quality, try_except, ret.
  destruct (OutputCriterion.evaluate _ output (Some (llm self))) as [ [ q | e ] [ l' | ] ];
    cbn; repeat split.
Qed.

Lemma optimize_prompt_control (input_data previous_output : PyVal) (quality_score : float)
    (self : t W OC) :
  same_control (snd (_optimize_prompt input_data previous_output quality_score self)) self.
Proof.
  unfold _optimize_prompt, bind at 1, get.
  destruct (negb (AgentConfig.enable_auto_optimization (config self)));
    [apply same_control_refl|].
  unfold try_except, bind, ret, get.
  pose proof (on_llm_control
                (LLMBase.generate
                   (optimization_prompt self input_data previous_output quality_score)
                   [("max_tokens", VInt 200)]) self) as Hc.
  destruct (on_llm _ self) as [ [ r | e ] s']; cbn; exact Hc.
Qed.

Lemma optimize_and_retry_control (input_data previous_output : PyVal) (quality_score : float)
    (kw : kwargs) (self : t W OC) :
  same_control
    (snd (_optimize_and_retry input_data previous_output quality_score kw self)) self.
Proof.
  unfold _optimize_and_retry, bind at 1.
  pose proof (optimize_prompt_control input_data previous_output quality_score self) as Hc.
  destruct (_optimize_prompt _ _ _ self) as [ [ prompt | e ] s1]; cbn [fst snd] in *;
    [|exact Hc].
  unfold bind, ret.
  pose proof (on_llm_control (LLMBase.generate_with_retry prompt kw) s1) as Hc1.
  destruct (on_llm _ s1) as [ [ r | e ] s2]; cbn [fst snd] in *;
    eapply same_control_trans; eauto.
Qed.

Lemma execute_body_state (input_data : PyVal) (kw : kwargs) (start_time : float)
    (self : t W OC) :
  let run := execute_body input_data kw start_time self in
  config (snd run) = config self /\
  match fst run with
  | Raise _ => True
  | Ret _ =>
      (status (snd run) = AgentStatus.IDLE /\ retry_count (snd run) = 0%Z) \/
      (status (snd run) = AgentStatus.BUSY /\
       retry_count (snd run) = (retry_count self + 1)%Z /\
       (retry_count self < AgentConfig.max_retries (config self))%Z)
  end.
Proof.
  cbv zeta.
  enough (Hrun : let '(r, s) := execute_body input_data kw start_time self in
                 config s = config self /\
                 match r with
                 | Raise _ => True
                 | Ret _ =>
                     (status s = AgentStatus.IDLE /\ retry_count s = 0%Z) \/
                     (status s = AgentStatus.BUSY /\
                      retry_count s = (retry_count self + 1)%Z /\
                      (retry_count self < AgentConfig.max_retries (config self))%Z)
                 end).
  { destruct (execute_body input_data kw start_time self) as [r s]. exact Hrun. }
  unfold execute_body.
  unfold bind at 1, modify. cbn [fst snd].
  set (s0 := set_status AgentStatus.BUSY self).
  assert (H0c : config s0 = config self /\ retry_count s0 = retry_count self)
    by (split; reflexivity).
  assert (H0s : status s0 = AgentStatus.BUSY) by reflexivity.
  clearbody s0. destruct H0c as [Hcfg Hrc].
  run_step (on_metrics_control (Dict.iadd "total_executions" (NInt 1))).
  2:{ destruct Hc as (-> & _). auto. }
  destruct Hc as (Hc1 & Hs1 & Hr1).
  run_step (validate_input_state input_data).
  2:{ subst. rewrite Hc1. auto. }
  subst s1.
  run_step (generate_output_control input_data kw).
  2:{ destruct Hc as (-> & _). rewrite Hc1. auto. }
  destruct Hc as (Hc2 & Hs2 & Hr2).
  run_step (validate_output_state r1).
  2:{ subst. rewrite Hc2, Hc1. auto. }
  subst s2.
  run_step (evaluate_quality_control r1).
  2:{ destruct Hc as (-> & _). rewrite Hc2, Hc1. auto. }
  destruct Hc as (Hc3 & Hs3 & Hr3).
  unfold bind at 1, get. unfold bind at 1, modify.
  assert (Hcfg3 : config s2 = config self) by congruence.
  assert (Hrc3 : retry_count s2 = retry_count self) by congruence.
  assert (Hst3 : status s2 = AgentStatus.BUSY) by congruence.
  destruct ((r3 <? _) && (retry_count s2 <? AgentConfig.max_retries (config s2))%Z) eqn:Hretry.
  - unfold bind at 1.
    match goal with
    | |- context [_optimize_and_retry ?i ?o ?q ?k ?s] =>
        pose proof (optimize_and_retry_control i o q k s) as (Hc4 & Hs4 & Hr4);
        destruct (_optimize_and_retry i o q k s) as [ [ r4 | e4 ] s4]
    end; cbn [fst snd config status retry_count set_retry_count set_execution_history] in *.
    + split; [congruence|]. right.
      apply andb_true_iff in Hretry as [_ Hlt]. apply Z.ltb_lt in Hlt.
      repeat split; [congruence | congruence | congruence].
    + split; [congruence | exact I].
  - unfold bind at 1.
    match goal with
    | |- context [on_metrics ?m ?s] =>
        pose proof (on_metrics_control m s) as (Hc4 & Hs4 & Hr4);
        destruct (on_metrics m s) as [ [ r4 | e4 ] s4]
    end; cbn [fst snd config status retry_count set_retry_count set_execution_history] in *.
    + unfold bind, modify, ret. cbn. split; [congruence|]. left. auto.
    + split; [congruence | exact I].
Qed.

(** X25.  For every agent and input: [execute] keeps the configuration; when
    it raises, the status is [error]; when it returns, either the
    output was accepted (status [idle], [retry_count] 0) or the call
    went through the repair path, and then the status is [busy] and
    [retry_count] is one more than before the call. *)
Lemma execute_final_state (input_data : PyVal) (kw : kwargs) (self : t W OC) :
  let run := execute input_data kw self in
  config (snd run) = config self /\
  match fst run with
  | Raise _ => status (snd run) = AgentStatus.ERROR
  | Ret _ =>
      (status (snd run) = AgentStatus.IDLE /\ retry_count (snd run) = 0%Z) \/
      (status (snd run) = AgentStatus.BUSY /\
       retry_count (snd run) = (retry_count self + 1)%Z /\
       (retry_count self < AgentConfig.max_retries (config self))%Z)
  end.
Proof.
  cbv zeta.
  enough (Hrun : let '(r, s) := execute input_data kw self in
                 config s = config self /\
                 match r with
                 | Raise _ => status s = AgentStatus.ERROR
                 | Ret _ =>
                     (status s = AgentStatus.IDLE /\ retry_count s = 0%Z) \/
                     (status s = AgentStatus.BUSY /\
                      retry_count s = (retry_count self + 1)%Z /\
                      (retry_count self < AgentConfig.max_retries (config self))%Z)
                 end).
  { destruct (execute input_data kw self) as [r s]. exact Hrun. }
  unfold execute, bind, get, try_except.
  pose proof (execute_body_state input_data kw
                (LLMBase.loop_time (LLMBase.world (llm self))) self) as Hbody.
  cbv zeta in Hbody.
  destruct (execute_body input_data kw _ self) as [ [ out | e ] s']; cbn [fst snd] in *.
  - exact Hbody.
  - rewrite caught_by_Exception. cbn. split; [apply Hbody | reflexivity].
Qed.

End AgentFacts.

Section AgentExamples.
Import Scripted.

(** C1.  The claim fails on the code.  An agent with [max_retries = 2]
    whose draft is scored 0.3, below [min_score = 0.8]: one call of
    [execute] makes two generation attempts, not three.  The repair path
    generates once more and returns that second draft as it is, neither
    validated nor scored; the backend is not asked for a third.
    [total_executions] grows by one. *)
Theorem execute_makes_two_generation_attempts :
  let run := AgentBase.execute topic [] low_scoring_agent in
  AgentConfig.max_retries (AgentBase.config low_scoring_agent) = 2%Z /\
  map AgentBase.quality_score (AgentBase.execution_history (snd run)) = [0.3%float] /\
  fst run = Ret (VStr "draft two") /\
  AgentBase.generation_attempts (LLMBase.trace (AgentBase.llm (snd run))) = 2%nat /\
  AgentBase.performance_metrics low_scoring_agent !! "total_executions" = Some (NInt 0) /\
  AgentBase.performance_metrics (snd run) !! "total_executions" = Some (NInt 1).
Proof. vm_compute. repeat split. Qed.

(** C8.  The claim fails on the code.  On the repair path [execute]
    returns with [retry_count] at 1 and the status still busy: only
    the accepting path resets them.  Nor is the counter reset when the
    next call starts: its history record carries the 1 left behind. *)
Theorem execute_leaves_retry_count_set :
  let run := AgentBase.execute topic [] low_scoring_agent in
  let next := AgentBase.execute topic [] (snd run) in
  AgentBase.retry_count low_scoring_agent = 0%Z /\
  fst run = Ret (VStr "draft two") /\
  AgentBase.retry_count (snd run) = 1%Z /\
  AgentBase.status (snd run) = AgentStatus.BUSY /\
  map AgentBase.record_retry_count (AgentBase.execution_history (snd next)) = [0%Z; 1%Z].
Proof. vm_compute. repeat split. Qed.

(** C2.  The claim fails on the code.  On a freshly constructed agent
    an accepted output does not come back: [__init__] creates the
    metrics without the key [total_tokens_used], the update raises
    [KeyError] after it has stored the new mean score, and [execute]
    ends in the error state.  After [reset_metrics], which creates the
    key, the same call returns the output. *)
Theorem execute_raises_on_fresh_agent :
  let run := AgentBase.execute topic [] high_scoring_agent in
  let after_reset := AgentBase.execute topic [] (AgentBase.reset_metrics high_scoring_agent) in
  AgentBase.performance_metrics high_scoring_agent !! "total_tokens_used" = None /\
  map AgentBase.quality_score (AgentBase.execution_history (snd run)) = [0.9%float] /\
  fst run = Raise (mkExc KeyError "total_tokens_used") /\
  AgentBase.status (snd run) = AgentStatus.ERROR /\
  fst after_reset = Ret (VStr "a thorough analysis") /\
  AgentBase.status (snd after_reset) = AgentStatus.IDLE.
Proof. vm_compute. repeat split. Qed.

End AgentExamples.

(** * Further properties of the code *)

(** ** The constraint validator: what is accepted, and what is reported *)

Section ValidatorProperties.
Context `{Builtins}.
Import InputTypeConstraint.

(** X1.  A value is accepted exactly when it is missing and not required, or
    present and passing all five checks (the pattern check having
    returned, not raised). *)
Theorem validate_true_iff (c : t) (v : PyVal) :
  validate c v = Ret true <->
  (is_None v = true /\ required c = false) \/
  (is_None v = false /\
   _check_type c v = true /\
   _check_length c v = true /\
   _check_pattern c v = Ret true /\
   _check_value_range c v = true /\
   _check_allowed_values c v = true).
Proof.
  rewrite validate_of_body. unfold validate_body.
  destruct (required c), (is_None v), (_check_type c v), (_check_length c v),
    (_check_pattern c v) as [ [ | ] | e ], (_check_value_range c v),
    (_check_allowed_values c v); cbn;
    split; intros Hx;
    try discriminate;
    try (left; split; reflexivity);
    try (right; repeat split; reflexivity);
    try (destruct Hx as [ [? ?] | (? & ? & ? & ? & ? & ?) ]; congruence).
Qed.

Lemma num_lt_false_iff (a b : PyNum) :
  num_lt a b = false <->
  (num_is_nan a = false -> num_is_nan b = false -> num_le b a = true).
Proof.
  destruct (num_is_nan a) eqn:Ha.
  { rewrite (num_lt_nan a b (or_introl Ha)). split; [discriminate | reflexivity]. }
  destruct (num_is_nan b) eqn:Hb.
  { rewrite (num_lt_nan a b (or_intror Hb)). split; [discriminate | reflexivity]. }
  rewrite (num_lt_le_opp a b Ha Hb), negb_false_iff. split; auto.
Qed.

(** X2.  The numeric bounds apply to booleans (as 0 and 1), integers and
    floats alike, and to no other value.  A value is rejected when it
    is less than the minimum or greater than the maximum; so the bounds
    are inclusive, a bound that is NaN excludes nothing, and a value
    that is NaN passes every bound, every comparison with NaN being
    false. *)
Theorem check_value_range_inclusive (c : t) (v : PyVal) :
  match as_number v with
  | Some x =>
      (_check_value_range c v = true <->
       (forall m, min_value c = Some m -> num_lt x m = false) /\
       (forall m, max_value c = Some m -> num_lt m x = false)) /\
      (num_is_nan x = false ->
       (_check_value_range c v = true <->
        (forall m, min_value c = Some m -> num_is_nan m = false -> num_le m x = true) /\
        (forall m, max_value c = Some m -> num_is_nan m = false -> num_le x m = true))) /\
      (num_is_nan x = true -> _check_value_range c v = true)
  | None => _check_value_range c v = true
  end.
Proof.
  assert (Hnum : forall x, as_number v = Some x ->
                           isinstance_any v [T_int; T_float] = true).
  { destruct v; intros x Hx; try discriminate; reflexivity. }
  unfold _check_value_range.
  destruct (as_number v) as [x|] eqn:Hv.
  - rewrite (Hnum x eq_refl). cbn [negb].
    assert (Hcode : (if match min_value c with
                        | Some m => num_lt x m
                        | None => false
                        end
                     then false
                     else if match max_value c with
                             | Some m => num_lt m x
                             | None => false
                             end
                     then false else true) = true <->
                    (forall m, min_value c = Some m -> num_lt x m = false) /\
                    (forall m, max_value c = Some m -> num_lt m x = false)).
    { destruct (min_value c) as [lo|], (max_value c) as [hi|];
        try destruct (num_lt x lo) eqn:Hlo; try destruct (num_lt hi x) eqn:Hhi;
        split; try discriminate; try reflexivity;
        try (intros _; split; intros m Hm; congruence);
        intros [Hmin Hmax];
        try (specialize (Hmin lo eq_refl)); try (specialize (Hmax hi eq_refl));
        congruence. }
    split; [exact Hcode|]. split.
    + intros Hx. rewrite Hcode. split; intros [Hmin Hmax]; split; intros m Hm.
      * intros Hnan. apply (proj1 (num_lt_false_iff x m) (Hmin m Hm)); assumption.
      * intros Hnan. apply (proj1 (num_lt_false_iff m x) (Hmax m Hm)); assumption.
      * apply num_lt_false_iff. intros _ Hnan. apply (Hmin m Hm Hnan).
      * apply num_lt_false_iff. intros Hnan _. apply (Hmax m Hm Hnan).
    + intros Hx. apply Hcode. split; intros m _; apply num_lt_nan; auto.
  - destruct (negb _); reflexivity.
Qed.

(** X3.  The length bounds are inclusive, apply to strings (counted in code
    points), lists and dictionaries, and to no other value. *)
Theorem check_length_inclusive (c : t) (v : PyVal) :
  match py_len v with
  | Some n =>
      _check_length c v = true <->
      (forall m, min_length c = Some m -> (m <= n)%Z) /\
      (forall m, max_length c = Some m -> (n <= m)%Z)
  | None => _check_length c v = true
  end.
Proof.
  unfold _check_length. destruct (py_len v) as [n|]; [|reflexivity].
  destruct (min_length c) as [lo|], (max_length c) as [hi|].
  - destruct (n <? lo)%Z eqn:Hlo; [|destruct (n >? hi)%Z eqn:Hhi].
    + split; [discriminate|]. intros [Hmin _]. specialize (Hmin lo eq_refl). lia.
    + split; [discriminate|]. intros [_ Hmax]. specialize (Hmax hi eq_refl). lia.
    + split; [|reflexivity]. intros _. split; intros m [= <-]; lia.
  - destruct (n <? lo)%Z eqn:Hlo.
    + split; [discriminate|]. intros [Hmin _]. specialize (Hmin lo eq_refl). lia.
    + split; [|reflexivity]. intros _.
      split; intros m; [intros [= <-]; lia | discriminate].
  - destruct (n >? hi)%Z eqn:Hhi.
    + split; [discriminate|]. intros [_ Hmax]. specialize (Hmax hi eq_refl). lia.
    + split; [|reflexivity]. intros _.
      split; intros m; [discriminate | intros [= <-]; lia].
  - split; [|reflexivity]. intros _. split; intros m; discriminate.
Qed.

(** X4.  [get_error_message] and [validate] agree: [None] is returned exactly
    for an accepted value, every message returned is non-empty, and a
    rejected value gets a message unless the regular-expression engine
    raises something other than [re.error]. *)
Theorem error_message_round_trip (c : t) (v : PyVal) :
  (get_error_message c v = Ret None <-> validate c v = Ret true) /\
  (forall m, get_error_message c v = Ret (Some m) ->
             validate c v = Ret false /\ String.eqb m "" = false) /\
  ((forall p s e, re_match p s = Raise e -> caught_by re_error e = true) ->
   validate c v = Ret false ->
   exists m, get_error_message c v = Ret (Some m)).
Proof.
  split; [apply error_message_none_iff|]. split.
  - intros m Hm. split.
    + pose proof (validate_of_body c v) as Hv.
      destruct (match validate_body c v with Ret b => b | Raise _ => false end) eqn:Hb;
        [|exact Hv].
      apply error_message_none_iff in Hv. congruence.
    + apply String.eqb_neq. eapply error_message_nonempty; eauto.
  - intros Hre Hv.
    destruct (error_message_when_engine_raises_only_re_error c v Hre Hv) as (m & Hm & _).
    eauto.
Qed.

(** X5.  A bound equal to 0 is read as absent when the message is chosen:
    a value that fails the range check only because of such bounds is
    reported with the generic message, or with the allowed values when
    it also is not among them, never with the bound it violates. *)
Theorem range_failure_with_zero_bounds (c : t) (v : PyVal) :
  is_None v = false ->
  _check_type c v = true ->
  _check_length c v = true ->
  _check_pattern c v = Ret true ->
  _check_value_range c v = false ->
  truthy_num (min_value c) = false ->
  truthy_num (max_value c) = false ->
  get_error_message c v
    = Ret (Some (if _check_allowed_values c v
                 then "字段 " ++ name c ++ " 验证失败"
                 else allowed_message c)).
Proof.
  intros Hnone Htype Hlen Hpat Hrange Hmin Hmax.
  unfold get_error_message. rewrite validate_of_body. unfold validate_body.
  rewrite Hnone, Htype, Hlen, Hpat, Hrange, andb_false_r. cbn.
  unfold message_after_length. rewrite Hpat, Hrange. cbn.
  unfold range_message. rewrite Hmin, Hmax. cbn.
  destruct (_check_allowed_values c v); reflexivity.
Qed.

End ValidatorProperties.

(** ** Constraint sets *)

Section ConstraintSetProperties.
Context `{Builtins}.
Import InputTypeConstraint.

Lemma forallb_map_to_list (m : gmap string bool) :
  forallb (fun kv => snd kv) (map_to_list m) = true <->
  forall k b, m !! k = Some b -> b = true.
Proof.
  rewrite forallb_forall. split.
  - intros Hall k b Hk. apply (Hall (k, b)).
    apply list_elem_of_In, elem_of_map_to_list. exact Hk.
  - intros Hall [k b] Hin. apply list_elem_of_In, elem_of_map_to_list in Hin.
    exact (Hall k b Hin).
Qed.

(** The dictionary [validate] builds: one insertion per constraint, in
    order. *)
Lemma validate_loop_run (d : list (string * PyVal)) :
  forall cs m,
    InputConstraintSet.validate_loop cs d m
      = Ret (fold_left
               (fun m c => <[name c := match validate_body c (dict_get d (name c)) with
                                       | Ret b => b
                                       | Raise _ => false
                                       end]> m) cs m).
Proof.
  induction cs as [|c cs IH]; intros m; [reflexivity|].
  cbn [InputConstraintSet.validate_loop fold_left].
  rewrite validate_of_body. cbn [rbind]. apply IH.
Qed.

Lemma fold_insert_origin (f : t -> bool) :
  forall cs (m : gmap string bool) k b,
    fold_left (fun m c => <[name c := f c]> m) cs m !! k = Some b ->
    m !! k = Some b \/ exists c, c ∈ cs /\ name c = k /\ f c = b.
Proof.
  induction cs as [|c cs IH]; intros m k b Hk; [left; exact Hk|].
  cbn [fold_left] in Hk. apply IH in Hk as [Hk | (c' & Hin & Hn & Hf)].
  - destruct (decide (name c = k)) as [Heq|Hne].
    + subst k. rewrite lookup_insert_eq in Hk. injection Hk as <-.
      right. exists c. split; [left|]; auto.
    + rewrite lookup_insert_ne in Hk by exact Hne. left. exact Hk.
  - right. exists c'. split; [right; exact Hin|]. auto.
Qed.

Lemma fold_insert_other (f : t -> bool) :
  forall cs (m : gmap string bool) k,
    k ∉ map name cs ->
    fold_left (fun m c => <[name c := f c]> m) cs m !! k = m !! k.
Proof.
  induction cs as [|c cs IH]; intros m k Hk; [reflexivity|].
  cbn [fold_left]. cbn [map] in Hk. apply not_elem_of_cons in Hk as [Hne Hk].
  rewrite (IH _ _ Hk). apply lookup_insert_ne. congruence.
Qed.

Lemma fold_insert_distinct (f : t -> bool) :
  forall cs (m : gmap string bool) c,
    NoDup (map name cs) -> c ∈ cs ->
    fold_left (fun m c => <[name c := f c]> m) cs m !! name c = Some (f c).
Proof.
  induction cs as [|c0 cs IH]; intros m c Hnd Hin; [inversion Hin|].
  cbn [map] in Hnd. apply NoDup_cons in Hnd as [Hfresh Hnd].
  cbn [fold_left]. apply elem_of_cons in Hin as [-> | Hin].
  - rewrite (fold_insert_other f cs _ _ Hfresh). apply lookup_insert_eq.
  - apply IH; assumption.
Qed.

(** X6.  [is_valid] never raises.  It returns [True] when every constraint
    accepts its field (a missing key counting as [None]); with distinct
    constraint names it returns [True] only then.  (With a repeated
    name, only the last constraint of that name decides.) *)
Theorem is_valid_all_constraints (cs : list t) (d : list (string * PyVal)) :
  let self := {| InputConstraintSet.constraints := cs |} in
  (exists b, InputConstraintSet.is_valid self d = Ret b) /\
  ((forall c, c ∈ cs -> validate c (dict_get d (name c)) = Ret true) ->
   InputConstraintSet.is_valid self d = Ret true) /\
  (NoDup (map name cs) ->
   InputConstraintSet.is_valid self d = Ret true ->
   forall c, c ∈ cs -> validate c (dict_get d (name c)) = Ret true).
Proof.
  cbv zeta. unfold InputConstraintSet.is_valid, InputConstraintSet.validate.
  cbn [InputConstraintSet.constraints]. rewrite validate_loop_run. cbn [rbind].
  split; [eauto|]. split.
  - intros Hall. f_equal. apply forallb_map_to_list. intros k b Hk.
    apply fold_insert_origin in Hk as [Hk | (c & Hin & _ & Hf)].
    + rewrite lookup_empty in Hk. discriminate.
    + specialize (Hall c Hin). rewrite validate_of_body in Hall.
      injection Hall as Hall. congruence.
  - intros Hnd Hvalid c Hin. injection Hvalid as Hvalid.
    rewrite forallb_map_to_list in Hvalid.
    rewrite validate_of_body. f_equal.
    apply (Hvalid (name c)).
    apply (fold_insert_distinct
             (fun c => match validate_body c (dict_get d (name c)) with
                       | Ret b => b
                       | Raise _ => false
                       end) cs ∅ c Hnd Hin).
Qed.

Lemma get_all_errors_loop_run (d : list (string * PyVal)) :
  forall cs acc errs,
    InputConstraintSet.get_all_errors_loop cs d acc = Ret errs ->
    exists msgs,
      errs = (acc ++ msgs)%list /\
      Forall2 (fun c m => get_error_message c (dict_get d (name c)) = Ret (Some m))
        (List.filter (fun c => match validate c (dict_get d (name c)) with
                               | Ret true => false
                               | _ => true
                               end) cs)
        msgs.
Proof.
  induction cs as [|c cs IH]; intros acc errs Hrun.
  - injection Hrun as <-. exists []. rewrite app_nil_r. split; [reflexivity|constructor].
  - cbn [InputConstraintSet.get_all_errors_loop] in Hrun.
    destruct (get_error_message c (dict_get d (name c))) as [ [ m | ] | e ] eqn:Hmsg;
      cbn [rbind] in Hrun; [| |discriminate].
    + assert (Hne : m <> "") by (eapply error_message_nonempty; eauto).
      assert (Htr : truthy_str (Some m) = true).
      { cbn. destruct (String.eqb_spec m ""); [contradiction|reflexivity]. }
      rewrite Htr in Hrun. cbn [default] in Hrun.
      apply IH in Hrun as (msgs & -> & Hall).
      exists (m :: msgs). rewrite <- app_assoc. split; [reflexivity|].
      cbn [List.filter].
      destruct (validate c (dict_get d (name c))) as [ [ | ] | e ] eqn:Hv.
      * apply error_message_none_iff in Hv. congruence.
      * constructor; assumption.
      * constructor; assumption.
    + cbn [truthy_str] in Hrun. apply IH in Hrun as (msgs & -> & Hall).
      exists msgs. split; [reflexivity|]. cbn [List.filter].
      apply error_message_none_iff in Hmsg. rewrite Hmsg. exact Hall.
Qed.

(** X7.  When [get_all_errors] returns, its list holds exactly one message
    per rejected field, in the order of the constraints, each the
    message [get_error_message] gives for it; so the list is empty
    exactly when every constraint accepts its field. *)
Theorem get_all_errors_one_per_failure (cs : list t) (d : list (string * PyVal))
    (errs : list string) :
  InputConstraintSet.get_all_errors {| InputConstraintSet.constraints := cs |} d = Ret errs ->
  Forall2 (fun c m => get_error_message c (dict_get d (name c)) = Ret (Some m))
    (List.filter (fun c => match validate c (dict_get d (name c)) with
                           | Ret true => false
                           | _ => true
                           end) cs)
    errs /\
  (errs = [] <-> forall c, c ∈ cs -> validate c (dict_get d (name c)) = Ret true).
Proof.
  unfold InputConstraintSet.get_all_errors. cbn [InputConstraintSet.constraints].
  intros Hrun. apply get_all_errors_loop_run in Hrun as (msgs & -> & Hall).
  cbn [app]. split; [exact Hall|].
  split.
  - intros ->. inversion Hall as [Hnil|]; subst. intros c Hin.
    apply list_elem_of_In in Hin.
    destruct (validate c (dict_get d (name c))) as [ [ | ] | e ] eqn:Hv; [reflexivity| |].
    + exfalso. assert (Hf : In c []); [|destruct Hf].
      rewrite Hnil. apply List.filter_In. rewrite Hv. auto.
    + exfalso. assert (Hf : In c []); [|destruct Hf].
      rewrite Hnil. apply List.filter_In. rewrite Hv. auto.
  - intros Hok.
    assert (Hnil : List.filter (fun c => match validate c (dict_get d (name c)) with
                                         | Ret true => false
                                         | _ => true
                                         end) cs = []).
    { clear Hall. induction cs as [|c cs IH]; [reflexivity|].
      cbn [List.filter]. rewrite (Hok c) by (left).
      apply IH. intros c' Hin. apply Hok. right. exact Hin. }
    rewrite Hnil in Hall. inversion Hall. reflexivity.
Qed.

End ConstraintSetProperties.

Section ConstraintSetExamples.
Import Scripted.

(** A count of -1 under [min_value=0]: rejected, with the generic
    message. *)
Lemma range_failure_with_zero_bounds_witness :
  InputTypeConstraint.get_error_message nonnegative_constraint (VInt (-1))
    = Ret (Some "字段 count 验证失败").
Proof.
  exact (range_failure_with_zero_bounds nonnegative_constraint (VInt (-1))
           eq_refl eq_refl eq_refl eq_refl eq_refl eq_refl eq_refl).
Defined.

(** Two distinct constraints and a dictionary that satisfies both. *)
Lemma is_valid_all_constraints_witness :
  InputConstraintSet.is_valid
    {| InputConstraintSet.constraints := [topic_constraint; count_constraint] |}
    [("topic", VStr "人工智能"); ("count", VInt 3)] = Ret true.
Proof.
  refine (proj1 (proj2 (is_valid_all_constraints [topic_constraint; count_constraint]
                          [("topic", VStr "人工智能"); ("count", VInt 3)])) _).
  intros c Hc. apply elem_of_cons in Hc as [-> | Hc]; [reflexivity|].
  apply elem_of_cons in Hc as [-> | Hc]; [reflexivity|]. inversion Hc.
Defined.

(** An empty topic and a missing count: two messages, in order. *)
Lemma get_all_errors_one_per_failure_witness :
  Forall2
    (fun c m =>
       InputTypeConstraint.get_error_message c
         (dict_get empty_topic (InputTypeConstraint.name c)) = Ret (Some m))
    [topic_constraint; count_constraint]
    ["字段 topic 长度应在 1-200 之间"; "字段 count 是必需的"].
Proof.
  exact (proj1 (get_all_errors_one_per_failure [topic_constraint; count_constraint]
                  empty_topic
                  ["字段 topic 长度应在 1-200 之间"; "字段 count 是必需的"] eq_refl)).
Defined.

End ConstraintSetExamples.

(** ** The quality criterion: ranges, tiers and the derived metrics *)

Section CriterionProperties.
Context {W : Type} `{Builtins} `{LLMBase.Backend W}.
Import OutputCriterion.
#[local] Open Scope float_scope.

Lemma simple_evaluation_range (criterion : CriterionMetric.t) (output : PyVal) :
  (0 <=? _simple_evaluation criterion output) = true /\
  (_simple_evaluation criterion output <=? 1) = true.
Proof.
  unfold _simple_evaluation. destruct output;
    repeat match goal with
           | |- context [if ?b then _ else _] => destruct b
           end; split; reflexivity.
Qed.

(** [max(0.0, min(1.0, s))] lies in [0, 1] for every [s]; NaN and
    every [s >= 1] give 1.0. *)
Lemma clamp_range (s : float) :
  (0 <=? py_max 0 (py_min 1 s)) = true /\ (py_max 0 (py_min 1 s) <=? 1) = true.
Proof.
  unfold py_max, py_min.
  destruct (s <? 1) eqn:Hhi.
  - destruct (0 <? s) eqn:Hlo.
    + split; apply float_ltb_leb; assumption.
    + split; reflexivity.
  - split; reflexivity.
Qed.

Lemma llm_evaluation_range (self : t) (criterion : CriterionMetric.t) (output : PyVal)
    (l : LLMBase.t W) :
  exists q, fst (_llm_evaluation self criterion output l) = Ret q /\
            (0 <=? q) = true /\ (q <=? 1) = true.
Proof.
  unfold _llm_evaluation, try_except, bind, ret.
  destruct (LLMBase.generate _ _ l) as [ [ r | e ] l'].
  - destruct (py_float _) as [s|]; cbn.
    + exists (py_max 0 (py_min 1 s)). split; [reflexivity | apply clamp_range].
    + exists 0.5. repeat split.
  - cbn. exists 0.5. repeat split.
Qed.

(** X8.  The score of a single metric lies in [0, 1], whatever the
    output, with or without a model, and whatever the model replies or
    raises: a reply that [float()] reads is clamped ([nan] and [inf]
    to 1.0), any other reply and any exception give 0.5. *)
Theorem metric_score_in_unit_interval (self : t) (criterion : CriterionMetric.t)
    (output : PyVal) (llm : option (LLMBase.t W)) :
  exists q, fst (_evaluate_criterion self criterion output llm) = Ret q /\
            (0 <=? q) = true /\ (q <=? 1) = true.
Proof.
  unfold _evaluate_criterion, try_except.
  destruct llm as [l|].
  - destruct (llm_evaluation_range self criterion output l) as (q & Hq & Hr).
    destruct (_llm_evaluation self criterion output l) as [r l']. cbn in Hq. subst r.
    cbn. eauto.
  - cbn. eexists. split; [reflexivity | apply simple_evaluation_range].
Qed.


Lemma match_metrics_invariant (P : CriterionMetric.t -> Prop) (d : string) :
  (forall n desc, In (n, desc) common_metrics -> P (CriterionMetric.make n desc 1)) ->
  forall ms acc,
    incl ms common_metrics -> Forall P acc -> Forall P (match_metrics d ms acc).
Proof.
  intros Hmake. induction ms as [|[n desc] ms IH]; intros acc Hincl Hacc; [exact Hacc|].
  cbn [match_metrics]. apply IH.
  - intros x Hx. apply Hincl. right. exact Hx.
  - destruct (existsb _ _); [|exact Hacc].
    apply Forall_app. split; [exact Hacc|]. constructor; [|constructor].
    apply Hmake. apply Hincl. left. reflexivity.
Qed.

Lemma match_metrics_length (d : string) :
  forall ms acc,
    (length (match_metrics d ms acc) <= length acc + length ms)%nat.
Proof.
  induction ms as [|[n desc] ms IH]; intros acc; cbn [match_metrics length]; [lia|].
  destruct (existsb _ _).
  - specialize (IH (acc ++ [CriterionMetric.make n desc 1])%list).
    rewrite List.length_app in IH. cbn in IH. lia.
  - specialize (IH acc). lia.
Qed.

(** X9.  The metrics derived from a description: between one and eight of
    them, each of weight 1 and threshold 0.8, each one of the eight
    known metrics or the default one. *)
Theorem extract_criteria_shape (self : t) :
  let cs := _extract_criteria_from_description self in
  (1 <= length cs <= 8)%nat /\
  Forall (fun m =>
            CriterionMetric.weight m = 1 /\
            CriterionMetric.threshold m = 0.8 /\
            In (CriterionMetric.name m, CriterionMetric.description m)
              (("总体质量", "整体输出质量评估") :: common_metrics)) cs.
Proof.
  cbv zeta. unfold _extract_criteria_from_description.
  pose proof (match_metrics_length (str_lower (description self)) common_metrics []) as Hlen.
  pose proof (match_metrics_invariant
                (fun m => CriterionMetric.weight m = 1 /\
                          CriterionMetric.threshold m = 0.8 /\
                          In (CriterionMetric.name m, CriterionMetric.description m)
                            (("总体质量", "整体输出质量评估") :: common_metrics))
                (str_lower (description self))) as Hinv.
  specialize (Hinv (fun n desc Hin => conj eq_refl (conj eq_refl (or_intror Hin)))
                common_metrics [] (incl_refl _) ltac:(constructor)).
  destruct (match_metrics _ common_metrics []) as [|m ms].
  - split; [cbn; lia|]. constructor; [|constructor].
    repeat split. left. reflexivity.
  - split; [|exact Hinv]. cbn [length] in *. cbn in Hlen. lia.
Qed.

(** X10.  [__post_init__] leaves supplied metrics alone, always leaves a
    non-empty metric list, and is idempotent. *)
Theorem post_init_idempotent (self : t) :
  __post_init__ (__post_init__ self) = __post_init__ self /\
  (0 < length (criteria (__post_init__ self)))%nat /\
  ((0 < length (criteria self))%nat -> __post_init__ self = self).
Proof.
  unfold __post_init__.
  destruct (criteria self) as [|c cs] eqn:Hcs.
  - pose proof (extract_criteria_nonempty self) as Hne.
    destruct (_extract_criteria_from_description self) as [|m ms] eqn:Hex; [congruence|].
    cbn. split; [reflexivity|]. split; [lia|]. intros Hlt. inversion Hlt.
  - rewrite Hcs. split; [reflexivity|]. split; [cbn; lia|]. reflexivity.
Qed.

Lemma float_ltb_mono (a b x : float) :
  (a <=? b) = true -> (b <? x) = true -> (a <? x) = true.
Proof. apply float_leb_ltb_trans. Qed.

(** X11.  Suggestions are given exactly to a score that is less than
    [min_score]: to no score that satisfies the criterion, and to
    every other score unless it or [min_score] is NaN (a NaN score is
    not satisfying and gets none).  A score that is at least another
    never gets more suggestions than it. *)
Theorem improvement_suggestions_graded (self : t) (score : float) :
  (get_improvement_suggestions self score = [] <->
   is_satisfied self score = true \/
   is_nan score = true \/ is_nan (min_score self) = true) /\
  (forall higher, (score <=? higher) = true ->
     (length (get_improvement_suggestions self higher)
        <= length (get_improvement_suggestions self score))%nat).
Proof.
  split.
  - assert (Hempty : get_improvement_suggestions self score = [] <->
                     (score <? min_score self) = false).
    { unfold get_improvement_suggestions.
      destruct (score <? min_score self); [|split; reflexivity].
      split; [|discriminate].
      destruct (score <? 0.5), (score <? 0.7); discriminate. }
    rewrite Hempty. unfold is_satisfied.
    destruct (is_nan score) eqn:Hs.
    { destruct (float_nan_unordered score (min_score self) (or_introl Hs)) as (-> & _).
      split; auto. }
    destruct (is_nan (min_score self)) eqn:Hm.
    { destruct (float_nan_unordered score (min_score self) (or_intror Hm)) as (-> & _).
      split; auto. }
    rewrite (float_ltb_leb_opp score (min_score self) Hs Hm), negb_false_iff.
    split; [auto|]. intros [Hx | [Hx | Hx] ]; [exact Hx | discriminate | discriminate].
  - intros higher Hle. unfold get_improvement_suggestions.
    destruct (higher <? min_score self) eqn:A; [|cbn; lia].
    rewrite (float_ltb_mono _ _ _ Hle A).
    destruct (higher <? 0.5) eqn:B; [rewrite (float_ltb_mono _ _ _ Hle B)|];
      (destruct (higher <? 0.7) eqn:C; [rewrite (float_ltb_mono _ _ _ Hle C)|]);
      repeat match goal with
             | |- context [if ?b then _ else _] => destruct b
             end; cbn; lia.
Qed.

(** X12.  The three tiers of [get_feedback], by the two tests of the
    code: "good" exactly for a satisfying score; "needs improvement"
    exactly for a score that is not satisfying and is at least 0.6, so
    never under a [min_score] of 0.6 or less; "poor" for every other
    score, that is, one that is not satisfying and is below 0.6 or
    NaN. *)
Theorem feedback_tiers (self : t) (score : float) :
  String.prefix "输出质量良好" (get_feedback self score) = is_satisfied self score /\
  String.prefix "输出质量一般" (get_feedback self score)
    = negb (is_satisfied self score) && (0.6 <=? score) /\
  String.prefix "输出质量较差" (get_feedback self score)
    = negb (is_satisfied self score) && ((score <? 0.6) || is_nan score) /\
  ((min_score self <=? 0.6) = true ->
   String.prefix "输出质量一般" (get_feedback self score) = false) /\
  (is_nan score = true -> String.prefix "输出质量较差" (get_feedback self score) = true).
Proof.
  assert (Htiers :
            String.prefix "输出质量良好" (get_feedback self score) = is_satisfied self score /\
            String.prefix "输出质量一般" (get_feedback self score)
              = negb (is_satisfied self score) && (0.6 <=? score) /\
            String.prefix "输出质量较差" (get_feedback self score)
              = negb (is_satisfied self score) && negb (0.6 <=? score)).
  { unfold get_feedback, is_satisfied.
    destruct (min_score self <=? score), (0.6 <=? score);
      repeat split; vm_compute; reflexivity. }
  destruct Htiers as (Hgood & Hmid & Hpoor).
  assert (Hbelow : negb (0.6 <=? score) = (score <? 0.6) || is_nan score).
  { destruct (is_nan score) eqn:Hs.
    - destruct (float_nan_unordered score 0.6 (or_introl Hs)) as (-> & _ & _ & ->).
      reflexivity.
    - rewrite (float_ltb_leb_opp score 0.6 Hs eq_refl), orb_false_r. reflexivity. }
  split; [exact Hgood|]. split; [exact Hmid|].
  split; [rewrite Hpoor, Hbelow; reflexivity|]. split.
  - intros Hmin. rewrite Hmid. unfold is_satisfied.
    destruct (0.6 <=? score) eqn:H6; [|apply andb_false_r].
    rewrite (float_leb_trans _ _ _ Hmin H6). reflexivity.
  - intros Hs. rewrite Hpoor. unfold is_satisfied.
    destruct (float_nan_unordered score 0.6 (or_introl Hs)) as (_ & _ & _ & ->).
    destruct (float_nan_unordered score (min_score self) (or_introl Hs)) as (_ & _ & _ & ->).
    reflexivity.
Qed.

(** X13.  The success rate of an evaluator is a fraction of its history: it
    lies in [0, 1], and is 0 for an empty history. *)
Theorem success_rate_range (self : CriterionEvaluator.t W) :
  (0 <= CriterionEvaluator.get_success_rate self)%Q /\
  (CriterionEvaluator.get_success_rate self <= 1)%Q /\
  (CriterionEvaluator.evaluation_history self = [] ->
   CriterionEvaluator.get_success_rate self = 0%Q).
Proof.
  unfold CriterionEvaluator.get_success_rate, CriterionEvaluator.successful.
  destruct (CriterionEvaluator.evaluation_history self) as [|r h].
  { repeat split; unfold Qle; cbn; lia. }
  set (hist := r :: h).
  assert (Hlen : (length (List.filter CriterionEvaluator.is_satisfied hist)
                  <= length hist)%nat) by apply List.filter_length_le.
  assert (Hpos : (0 < inject_Z (Z.of_nat (length hist)))%Q).
  { rewrite <- (Zlt_Qlt 0). unfold hist. cbn [length]. lia. }
  split; [|split; [|discriminate] ].
  - apply Qle_shift_div_l; [exact Hpos|]. rewrite Qmult_0_l.
    rewrite <- (Zle_Qle 0). lia.
  - apply Qle_shift_div_r; [exact Hpos|]. rewrite Qmult_1_l.
    rewrite <- Zle_Qle. lia.
Qed.


End CriterionProperties.

(** ** The model wrapper: back-off schedule, health probe, token counters *)

Section WrapperProperties.
Context {W : Type} `{LLMBase.Backend W}.
Import LLMBase.

Lemma sleeps_app (a b : list Event) : sleeps (a ++ b) = (sleeps a ++ sleeps b)%list.
Proof.
  induction a as [|[p k r|n] a IH]; cbn; [reflexivity | exact IH | rewrite IH; reflexivity].
Qed.

(** The sleeps among [n] failed attempts numbered from [k]: one per
    attempt below [max_retries], of [2^attempt] seconds. *)
Lemma sleeps_failed_attempts (mr : Z) (prompt : string) (kw : kwargs) :
  forall (es : list PyExc) (k : nat),
    sleeps (failed_attempts mr prompt kw (Z.of_nat k) es)
      = map (fun i => (2 ^ Z.of_nat i)%Z)
          (seq k (Nat.min (length es) (Z.to_nat mr - k))).
Proof.
  induction es as [|e es IH]; intros k; [reflexivity|].
  cbn [failed_attempts sleeps length].
  replace (Z.of_nat k + 1)%Z with (Z.of_nat (S k)) by lia.
  destruct (Z.of_nat k <? mr)%Z eqn:Hk.
  - apply Z.ltb_lt in Hk. cbn [app sleeps]. rewrite IH.
    replace (Z.to_nat mr - k)%nat with (S (Z.to_nat mr - S k)) by lia.
    reflexivity.
  - apply Z.ltb_ge in Hk. cbn [app]. rewrite IH.
    replace (Z.to_nat mr - k)%nat with 0%nat by lia.
    replace (Z.to_nat mr - S k)%nat with 0%nat by lia.
    rewrite !Nat.min_0_r. reflexivity.
Qed.

Lemma sum_powers_of_two (n : nat) :
  forall k : nat,
    fold_right Z.add 0%Z (map (fun i => (2 ^ Z.of_nat i)%Z) (seq k n))
      = (2 ^ Z.of_nat (k + n) - 2 ^ Z.of_nat k)%Z.
Proof.
  induction n as [|n IH]; intros k.
  - cbn. rewrite Nat.add_0_r. lia.
  - cbn [seq map fold_right]. rewrite IH.
    replace (Z.of_nat (S k + n)) with (Z.of_nat (k + S n)) by lia.
    replace (Z.of_nat (S k)) with (Z.succ (Z.of_nat k)) by lia.
    rewrite Z.pow_succ_r by lia. lia.
Qed.

(** X15.  The back-off schedule of [generate_with_retry]: the call sleeps
    1, 2, 4, ... seconds, [n] times in all with [n <= max_retries], so
    [2^n - 1] seconds together; when it raises, [n] is [max_retries]. *)
Theorem backoff_schedule (prompt : string) (kw : kwargs) (self : t W) :
  let mr := LLMConfig.max_retries (config self) in
  let run := generate_with_retry prompt kw self in
  exists n : nat,
    (n <= Z.to_nat mr)%nat /\
    sleeps (trace (snd run))
      = (sleeps (trace self) ++ map (fun i => (2 ^ Z.of_nat i)%Z) (seq 0 n))%list /\
    total_sleep (trace (snd run))
      = (total_sleep (trace self) + (2 ^ Z.of_nat n - 1))%Z /\
    (forall e, fst run = Raise e -> n = Z.to_nat mr).
Proof.
  cbv zeta. unfold generate_with_retry, range.
  pose proof (retry_loop_run prompt kw
                (Z.to_nat (LLMConfig.max_retries (config self) + 1)) 0 None self) as Hrun.
  cbv zeta in Hrun. destruct Hrun as [_ Hrun].
  set (run := retry_loop _ None prompt kw self) in *.
  set (mr := LLMConfig.max_retries (config self)) in *.
  assert (Hes : exists es : list PyExc,
             (length es <= Z.to_nat (mr + 1))%nat /\
             (forall e, fst run = Raise e -> length es = Z.to_nat (mr + 1)) /\
             sleeps (trace (snd run))
               = (sleeps (trace self)
                    ++ sleeps (failed_attempts mr prompt kw (Z.of_nat 0) es))%list).
  { destruct (fst run) as [r|e].
    - destruct Hrun as (es & Hlen & ->). exists es.
      split; [lia|]. split; [discriminate|].
      rewrite !sleeps_app. cbn. rewrite app_nil_r. reflexivity.
    - destruct Hrun as (es & Hlen & -> & _). exists es.
      split; [lia|]. split; [intros; exact Hlen|].
      rewrite sleeps_app. reflexivity. }
  destruct Hes as (es & Hlen & Hraise & Hsl).
  rewrite sleeps_failed_attempts, Nat.sub_0_r in Hsl.
  exists (Nat.min (length es) (Z.to_nat mr)).
  split; [apply Nat.le_min_r|]. split; [exact Hsl|]. split.
  - unfold total_sleep. rewrite Hsl, fold_right_app, sum_powers_of_two.
    cbn [Nat.add]. change (2 ^ Z.of_nat 0)%Z with 1%Z.
    clear Hsl.
    generalize (2 ^ Z.of_nat (Nat.min (length es) (Z.to_nat mr)) - 1)%Z. intros z.
    induction (sleeps (trace self)) as [|x l IH]; cbn; [lia|]. rewrite IH. lia.
  - intros e He. rewrite (Hraise e He). lia.
Qed.

Lemma load_model_run (self : t W) :
  config (snd (load_model self)) = config self /\
  trace (snd (load_model self)) = trace self.
Proof.
  unfold load_model. destruct (load_model_impl self) as [r self']. split; reflexivity.
Qed.

(** X16.  [health_check] never raises.  It probes the model with at most one
    call of [generate] and no sleep: without that call (loading the
    model failed) the answer is [False], and with it the answer is
    [True] only when the call, of prompt "Hello" with [max_tokens=5],
    succeeded. *)
Theorem health_check_probe (self : t W) :
  let run := health_check self in
  exists healthy,
    fst run = Ret healthy /\
    config (snd run) = config self /\
    ((healthy = false /\ trace (snd run) = trace self) \/
     exists raised,
       trace (snd run)
         = (trace self ++ [EvGenerate "Hello" [("max_tokens", VInt 5)] raised])%list /\
       (healthy = true -> raised = None)).
Proof.
  cbv zeta.
  enough (Hrun : let '(r, s) := health_check self in
                 exists healthy,
                   r = Ret healthy /\ config s = config self /\
                   ((healthy = false /\ trace s = trace self) \/
                    exists raised,
                      trace s
                        = (trace self
                             ++ [EvGenerate "Hello" [("max_tokens", VInt 5)] raised])%list /\
                      (healthy = true -> raised = None))).
  { destruct (health_check self) as [r s]. exact Hrun. }
  unfold health_check, try_except, bind at 1, get.
  assert (Hprobe : forall s0 : t W,
             config s0 = config self -> trace s0 = trace self ->
             let '(r, s) :=
               let '(r0, s1) :=
                 bind (generate "Hello" [("max_tokens", VInt 5)]) (fun result =>
                 ret (negb (String.eqb (str_strip (GenerationResult.text result)) ""))) s0 in
               match r0 with
               | Ret a => (Ret a, s1)
               | Raise e => if caught_by Exception e then ret false s1 else (Raise e, s1)
               end in
             exists healthy,
               r = Ret healthy /\ config s = config self /\
               ((healthy = false /\ trace s = trace self) \/
                exists raised,
                  trace s
                    = (trace self
                         ++ [EvGenerate "Hello" [("max_tokens", VInt 5)] raised])%list /\
                  (healthy = true -> raised = None))).
  { intros s0 Hcfg Htr. unfold bind, ret.
    pose proof (generate_run "Hello" [("max_tokens", VInt 5)] s0) as [Hc Ht].
    destruct (generate "Hello" [("max_tokens", VInt 5)] s0) as [ [ r | e ] s1];
      cbn [fst snd] in *.
    - eexists. split; [reflexivity|]. split; [congruence|]. right.
      exists None. rewrite Ht, Htr. auto.
    - cbn. exists false. split; [reflexivity|]. split; [congruence|]. right.
      exists (Some e). rewrite Ht, Htr. split; [reflexivity | discriminate]. }
  destruct (negb (_is_loaded self)).
  - unfold bind at 1. unfold bind at 1.
    pose proof (load_model_run self) as [Hc Ht].
    destruct (load_model self) as [ [ b | e ] s1]; cbn [fst snd] in *.
    + unfold ret at 1. apply Hprobe; assumption.
    + cbn. exists false. split; [reflexivity|]. split; [exact Hc|]. left. split; [reflexivity | exact Ht].
  - unfold bind at 1, ret at 1. apply Hprobe; reflexivity.
Qed.

Lemma fold_update_token_usage (usages : list Z) :
  forall self : t W,
    let self' := fold_left (fun s u => _update_token_usage u s) usages self in
    _total_tokens_used self' = (_total_tokens_used self + fold_right Z.add 0 usages)%Z /\
    _total_requests self' = (_total_requests self + Z.of_nat (length usages))%Z /\
    config self' = config self /\ trace self' = trace self /\
    _is_loaded self' = _is_loaded self /\ world self' = world self.
Proof.
  induction usages as [|u usages IH]; intros self; cbv zeta.
  - cbn. repeat split; lia.
  - cbn [fold_left fold_right length].
    destruct (IH (_update_token_usage u self)) as (Ht & Hr & Hc & Htr & Hl & Hw).
    rewrite Ht, Hr, Hc, Htr, Hl, Hw. cbn. repeat split; lia.
Qed.

(** X17.  Token accounting after a reset: the report gives the sum of the
    recorded usages, their number, and their mean (0 when nothing was
    recorded); the rest of the object is untouched. *)
Theorem token_usage_after_reset (self : t W) (usages : list Z) :
  let self' :=
    fold_left (fun s u => _update_token_usage u s) usages (reset_token_usage self) in
  let total := fold_right Z.add 0%Z usages in
  let requests := Z.of_nat (length usages) in
  get_token_usage self'
    = {[ "total_tokens_used" := NInt total;
         "total_requests" := NInt requests;
         "average_tokens_per_request" :=
           match usages with
           | [] => NInt 0
           | _ => (NInt total / NInt requests)%num
           end ]} /\
  config self' = config self /\ trace self' = trace self.
Proof.
  cbv zeta.
  destruct (fold_update_token_usage usages (reset_token_usage self))
    as (Ht & Hr & Hc & Htr & _).
  cbn in Ht, Hr. unfold get_token_usage. rewrite Ht, Hr. split; [|split; assumption].
  destruct usages as [|u usages]; [reflexivity|].
  replace (Z.of_nat (length (u :: usages)) >? 0)%Z with true
    by (symmetry; apply Z.gtb_lt; cbn [length]; lia).
  reflexivity.
Qed.

End WrapperProperties.

(** ** The backend selector: what a call leaves behind *)

Section FactoryProperties.
Context {W : Type} `{LLMBase.Backend W} `{LLMFactory.Subclasses W}.
Import LLMFactory.

Lemma create_local_run (llm_config : LLMConfig.t) (self : t W) :
  let run := _create_local_llm llm_config self in
  config (snd run) = config self /\
  _cloud_llm (snd run) = _cloud_llm self /\
  is_Some (_local_llm (snd run)) /\
  match fst run with
  | Ret r => r = LocalRef /\ _current_mode (snd run) = Some "local"
  | Raise e =>
      e = mkExc Exception "本地模型不可用" /\ _current_mode (snd run) = _current_mode self
  end.
Proof.
  cbv zeta.
  enough (Hrun : let '(r, s) := _create_local_llm llm_config self in
                 config s = config self /\ _cloud_llm s = _cloud_llm self /\
                 is_Some (_local_llm s) /\
                 match r with
                 | Ret r => r = LocalRef /\ _current_mode s = Some "local"
                 | Raise e =>
                     e = mkExc Exception "本地模型不可用" /\
                     _current_mode s = _current_mode self
                 end).
  { destruct (_create_local_llm llm_config self) as [r s]. exact Hrun. }
  unfold _create_local_llm, bind at 1, ensure_local_llm.
  destruct (_local_llm self) as [l|] eqn:Hl;
    unfold bind at 1, _check_local_health, try_except; cbn [_local_llm set_local]; rewrite ?Hl;
    match goal with
    | |- context [wait_for ?m ?t ?l] => destruct (wait_for m t l) as [ [ [ | ] | e ] l']
    end; cbn; rewrite ?Hl; repeat split; eauto.
Qed.

Lemma create_cloud_run (llm_config : LLMConfig.t) (shared : bool) (self : t W) :
  let run := _create_cloud_llm llm_config shared self in
  config (snd run) = config self /\
  (shared = false -> _local_llm (snd run) = _local_llm self) /\
  (is_Some (_local_llm self) -> is_Some (_local_llm (snd run))) /\
  match fst run with
  | Ret r =>
      r = CloudRef /\ _current_mode (snd run) = Some "cloud" /\
      is_Some (_cloud_llm (snd run))
  | Raise e =>
      _current_mode (snd run) = _current_mode self /\
      ((e = mkExc ValueError "云端模式需要API密钥" /\ snd run = self /\
        _cloud_llm self = None) \/
       (e = mkExc Exception "云端模型不可用" /\ is_Some (_cloud_llm (snd run))))
  end.
Proof.
  cbv zeta.
  enough (Hrun : let '(r, s) := _create_cloud_llm llm_config shared self in
                 config s = config self /\
                 (shared = false -> _local_llm s = _local_llm self) /\
                 (is_Some (_local_llm self) -> is_Some (_local_llm s)) /\
                 match r with
                 | Ret r =>
                     r = CloudRef /\ _current_mode s = Some "cloud" /\
                     is_Some (_cloud_llm s)
                 | Raise e =>
                     _current_mode s = _current_mode self /\
                     ((e = mkExc ValueError "云端模式需要API密钥" /\ s = self /\
                       _cloud_llm self = None) \/
                      (e = mkExc Exception "云端模型不可用" /\ is_Some (_cloud_llm s)))
                 end).
  { destruct (_create_cloud_llm llm_config shared self) as [r s]. exact Hrun. }
  unfold _create_cloud_llm, bind at 1, ensure_cloud_llm.
  destruct (_cloud_llm self) as [l|] eqn:Hl.
  - unfold bind at 1, _check_cloud_health, try_except. rewrite Hl.
    match goal with
    | |- context [wait_for ?m ?t ?l] => destruct (wait_for m t l) as [ [ [ | ] | e ] l']
    end; cbn; repeat split; eauto.
  - destruct (LLMFactoryConfig.api_key (config self)) as [key|]; [|cbn; auto 10].
    destruct (String.eqb key ""); [cbn; auto 10|].
    unfold bind at 1, _check_cloud_health, try_except.
    destruct shared; cbn [_cloud_llm set_cloud set_local];
      match goal with
      | |- context [wait_for ?m ?t ?l] => destruct (wait_for m t l) as [ [ [ | ] | e ] l']
      end; cbn; repeat split; eauto; try discriminate;
      intros [l0 Hl0]; rewrite Hl0; cbn; eauto.
Qed.

Lemma create_auto_run (llm_config : LLMConfig.t) (shared : bool) (self : t W) :
  let run := _create_auto_llm llm_config shared self in
  config (snd run) = config self /\
  is_Some (_local_llm (snd run)) /\
  (LLMFactoryConfig.fallback_to_cloud (config self) = false ->
   _cloud_llm (snd run) = _cloud_llm self) /\
  match fst run with
  | Ret LocalRef => _current_mode (snd run) = Some "local"
  | Ret CloudRef =>
      _current_mode (snd run) = Some "cloud" /\ is_Some (_cloud_llm (snd run)) /\
      LLMFactoryConfig.fallback_to_cloud (config self) = true
  | Raise e =>
      _current_mode (snd run) = _current_mode self /\
      e = mkExc Exception
            (if LLMFactoryConfig.fallback_to_cloud (config self)
             then "本地和云端模型都不可用"
             else "本地模型不可用且未启用云端回退")
  end.
Proof.
  cbv zeta.
  enough (Hrun : let '(r, s) := _create_auto_llm llm_config shared self in
                 config s = config self /\ is_Some (_local_llm s) /\
                 (LLMFactoryConfig.fallback_to_cloud (config self) = false ->
                  _cloud_llm s = _cloud_llm self) /\
                 match r with
                 | Ret LocalRef => _current_mode s = Some "local"
                 | Ret CloudRef =>
                     _current_mode s = Some "cloud" /\ is_Some (_cloud_llm s) /\
                     LLMFactoryConfig.fallback_to_cloud (config self) = true
                 | Raise e =>
                     _current_mode s = _current_mode self /\
                     e = mkExc Exception
                           (if LLMFactoryConfig.fallback_to_cloud (config self)
                            then "本地和云端模型都不可用"
                            else "本地模型不可用且未启用云端回退")
                 end).
  { destruct (_create_auto_llm llm_config shared self) as [r s]. exact Hrun. }
  unfold _create_auto_llm, bind at 1, get, try_except at 1.
  set (built_here := match _local_llm self with None => true | Some _ => shared end).
  pose proof (create_local_run llm_config self) as Hlocal. cbv zeta in Hlocal.
  destruct (_create_local_llm llm_config self) as [ [ r | e ] s1]; cbn [fst snd] in Hlocal.
  - destruct Hlocal as (Hc & Hcl & Hl & -> & Hm). auto.
  - destruct Hlocal as (Hc & Hcl & Hl & -> & Hm).
    rewrite caught_by_Exception. unfold bind at 1, get. rewrite Hc.
    destruct (LLMFactoryConfig.fallback_to_cloud (config self)) eqn:Hfb.
    + unfold try_except.
      pose proof (create_cloud_run llm_config built_here s1) as Hcloud. cbv zeta in Hcloud.
      destruct (_create_cloud_llm llm_config built_here s1) as [ [ r | e ] s2];
        cbn [fst snd] in Hcloud.
      * destruct Hcloud as (Hc2 & _ & Hl2 & -> & Hm2 & Hs2).
        split; [congruence|]. split; [exact (Hl2 Hl)|]. split; [discriminate|]. auto.
      * destruct Hcloud as (Hc2 & _ & Hl2 & Hm2 & _).
        rewrite caught_by_Exception. cbn.
        split; [congruence|]. split; [exact (Hl2 Hl)|]. split; [discriminate|].
        split; [congruence | reflexivity].
    + cbn. repeat split; try congruence; assumption.
Qed.

(** X18.  Whatever the preferred mode and the health of the backends,
    [create_llm] keeps the configuration; when it returns, the current
    mode names the kind of the backend returned and the selector holds
    that backend; when it raises, the current mode is what it was. *)
Theorem create_llm_mode_tracks_result (llm_config : option LLMConfig.t)
    (local_shares_config : bool) (self : t W) :
  let run := create_llm llm_config local_shares_config self in
  config (snd run) = config self /\
  match fst run with
  | Ret r =>
      get_current_mode (snd run)
        = Some (match r with LocalRef => "local" | CloudRef => "cloud" end) /\
      is_Some (deref r (snd run))
  | Raise _ => get_current_mode (snd run) = get_current_mode self
  end.
Proof.
  cbv zeta. unfold create_llm, bind, get, get_current_mode.
  set (shared := match llm_config with Some _ => local_shares_config | None => false end).
  set (c := match llm_config with Some c => c | None => _ end).
  destruct (String.eqb (LLMFactoryConfig.preferred_mode (config self)) "local");
    [|destruct (String.eqb (LLMFactoryConfig.preferred_mode (config self)) "cloud")].
  - pose proof (create_local_run c self) as Hr. cbv zeta in Hr.
    destruct (fst (_create_local_llm c self)) as [r|e].
    + destruct Hr as (Hc & _ & Hl & -> & Hm). auto.
    + destruct Hr as (Hc & _ & Hl & _ & Hm). auto.
  - pose proof (create_cloud_run c shared self) as Hr. cbv zeta in Hr.
    destruct (fst (_create_cloud_llm c shared self)) as [r|e].
    + destruct Hr as (Hc & _ & _ & -> & Hm & Hl). auto.
    + destruct Hr as (Hc & _ & _ & Hm & _). auto.
  - pose proof (create_auto_run c shared self) as Hr. cbv zeta in Hr.
    destruct (fst (_create_auto_llm c shared self)) as [ [ | ] | e ].
    + destruct Hr as (Hc & Hl & _ & Hm). auto.
    + destruct Hr as (Hc & _ & _ & Hm & Hl & _). auto.
    + destruct Hr as (Hc & _ & _ & Hm & _). auto.
Qed.

(** X19.  [switch_mode] with a mode other than [local] and [cloud] raises
    [ValueError] and changes nothing; otherwise it returns a backend of
    the mode asked for, which the selector then holds and reports as
    current, or raises and leaves the current mode as it was. *)
Theorem switch_mode_result (mode : string) (llm_config : option LLMConfig.t)
    (local_shares_config : bool) (self : t W) :
  let run := switch_mode mode llm_config local_shares_config self in
  config (snd run) = config self /\
  match fst run with
  | Ret r =>
      get_current_mode (snd run) = Some mode /\
      is_Some (deref r (snd run)) /\
      r = (if String.eqb mode "local" then LocalRef else CloudRef)
  | Raise e =>
      get_current_mode (snd run) = get_current_mode self /\
      (String.eqb mode "local" || String.eqb mode "cloud" = false ->
       e = mkExc ValueError ("不支持的模式: " ++ mode) /\ snd run = self)
  end.
Proof.
  cbv zeta. unfold switch_mode, bind, get, get_current_mode.
  set (shared := match llm_config with Some _ => local_shares_config | None => false end).
  set (c := match llm_config with Some c => c | None => _ end).
  destruct (String.eqb mode "local") eqn:Hlocal;
    [|destruct (String.eqb mode "cloud") eqn:Hcloud].
  - apply String.eqb_eq in Hlocal. subst mode.
    pose proof (create_local_run c self) as Hr. cbv zeta in Hr.
    destruct (fst (_create_local_llm c self)) as [r|e].
    + destruct Hr as (Hc & _ & Hl & -> & Hm). auto.
    + destruct Hr as (Hc & _ & Hl & _ & Hm). split; [exact Hc|].
      split; [exact Hm | discriminate].
  - apply String.eqb_eq in Hcloud. subst mode.
    pose proof (create_cloud_run c shared self) as Hr. cbv zeta in Hr.
    destruct (fst (_create_cloud_llm c shared self)) as [r|e].
    + destruct Hr as (Hc & _ & _ & -> & Hm & Hl). auto.
    + destruct Hr as (Hc & _ & _ & Hm & _). split; [exact Hc|].
      split; [exact Hm | discriminate].
  - cbn. auto.
Qed.

(** X20.  In [auto] mode every failure reaches the caller as a plain
    [Exception] with one of two fixed messages, chosen by the fall-back
    setting; with the fall-back disabled the cloud backend is never
    built or probed, and a backend returned is the local one. *)
Theorem auto_mode_failures (llm_config : option LLMConfig.t)
    (local_shares_config : bool) (self : t W) :
  String.eqb (LLMFactoryConfig.preferred_mode (config self)) "local" = false ->
  String.eqb (LLMFactoryConfig.preferred_mode (config self)) "cloud" = false ->
  let run := create_llm llm_config local_shares_config self in
  (forall e, fst run = Raise e ->
     e = mkExc Exception
           (if LLMFactoryConfig.fallback_to_cloud (config self)
            then "本地和云端模型都不可用"
            else "本地模型不可用且未启用云端回退")) /\
  (LLMFactoryConfig.fallback_to_cloud (config self) = false ->
   _cloud_llm (snd run) = _cloud_llm self /\
   forall r, fst run = Ret r -> r = LocalRef).
Proof.
  intros Hlocal Hcloud. cbv zeta. unfold create_llm, bind, get.
  rewrite Hlocal, Hcloud.
  set (shared := match llm_config with Some _ => local_shares_config | None => false end).
  set (c := match llm_config with Some c => c | None => _ end).
  pose proof (create_auto_run c shared self) as Hr. cbv zeta in Hr.
  destruct Hr as (_ & _ & Hkeep & Hr).
  split.
  - intros e He. rewrite He in Hr. apply Hr.
  - intros Hfb. split; [exact (Hkeep Hfb)|].
    intros r Hret. rewrite Hret in Hr. destruct r; [reflexivity|].
    destruct Hr as (_ & _ & Hfb'). congruence.
Qed.

(** X21.  Cloud mode on a selector that holds no cloud backend and has no
    (or an empty) API key: [create_llm] raises [ValueError] before
    anything is built, and the selector is left as it was. *)
Theorem cloud_mode_needs_api_key (llm_config : option LLMConfig.t)
    (local_shares_config : bool) (self : t W) :
  LLMFactoryConfig.preferred_mode (config self) = "cloud" ->
  _cloud_llm self = None ->
  truthy_str (LLMFactoryConfig.api_key (config self)) = false ->
  create_llm llm_config local_shares_config self
    = (Raise (mkExc ValueError "云端模式需要API密钥"), self).
Proof.
  intros Hmode Hnone Hkey. unfold create_llm, bind at 1, get. rewrite Hmode.
  cbn [String.eqb Ascii.eqb Bool.eqb].
  unfold _create_cloud_llm, bind at 1, ensure_cloud_llm. rewrite Hnone.
  unfold truthy_str in Hkey.
  destruct (LLMFactoryConfig.api_key (config self)) as [key|]; [|reflexivity].
  destruct (String.eqb key ""); [reflexivity|discriminate].
Qed.

End FactoryProperties.

Section FactoryPropertyExamples.
Import Scripted.

Lemma auto_mode_failures_witness :
  (forall e, fst (LLMFactory.create_llm None false local_only_factory) = Raise e ->
     e = mkExc Exception "本地模型不可用且未启用云端回退") /\
  (false = false ->
   LLMFactory._cloud_llm (snd (LLMFactory.create_llm None false local_only_factory)) = None /\
   forall r, fst (LLMFactory.create_llm None false local_only_factory) = Ret r ->
             r = LLMFactory.LocalRef).
Proof.
  exact (auto_mode_failures None false local_only_factory eq_refl eq_refl).
Defined.

Lemma cloud_mode_needs_api_key_witness :
  LLMFactory.create_llm None false keyless_cloud_factory
    = (Raise (mkExc ValueError "云端模式需要API密钥"), keyless_cloud_factory).
Proof.
  exact (cloud_mode_needs_api_key None false keyless_cloud_factory eq_refl eq_refl eq_refl).
Defined.

End FactoryPropertyExamples.

(** ** The agent: bookkeeping of [execute] *)

Section AgentProperties.
Context {W OC : Type} `{Builtins} `{LLMBase.Backend W} `{OutputConstraints OC}.
Import AgentBase.
#[local] Open Scope float_scope.

Lemma bind_keeps {A B} (k : string) (m : M (gmap string PyNum) A)
    (f : A -> M (gmap string PyNum) B) :
  (forall d, snd (m d) !! k = d !! k) ->
  (forall a d, snd (f a d) !! k = d !! k) ->
  forall d, snd (bind m f d) !! k = d !! k.
Proof.
  intros Hm Hf d. unfold bind. specialize (Hm d).
  destruct (m d) as [ [ a | e ] d']; cbn [snd] in *; [|exact Hm].
  rewrite Hf. exact Hm.
Qed.

Lemma getitem_keeps (k k' : string) (d : gmap string PyNum) :
  snd (Dict.getitem k' d) !! k = d !! k.
Proof. unfold Dict.getitem. destruct (d !! k'); reflexivity. Qed.

Lemma div_keeps (k : string) (a b : PyNum) (d : gmap string PyNum) :
  snd (Dict.div a b d) !! k = d !! k.
Proof. unfold Dict.div. destruct (num_is_zero b); reflexivity. Qed.

Lemma setitem_keeps (k k' : string) (v : PyNum) (d : gmap string PyNum) :
  String.eqb k' k = false -> snd (Dict.setitem k' v d) !! k = d !! k.
Proof.
  intros Hne. unfold Dict.setitem, modify. cbn [snd].
  apply lookup_insert_ne. intros ->. rewrite String.eqb_refl in Hne. discriminate.
Qed.

Lemma iadd_keeps (k k' : string) (v : PyNum) (d : gmap string PyNum) :
  String.eqb k' k = false -> snd (Dict.iadd k' v d) !! k = d !! k.
Proof.
  intros Hne. unfold Dict.iadd. apply bind_keeps.
  - intros d0. apply getitem_keeps.
  - intros a d0. apply setitem_keeps. exact Hne.
Qed.

(** The update of the running averages never touches the count of
    executions, also when it raises half-way. *)
Lemma update_keeps_total (min_score quality_score response_time : float)
    (tokens_used : PyNum) (d : gmap string PyNum) :
  snd (_update_performance_metrics min_score quality_score response_time tokens_used d)
    !! "total_executions" = d !! "total_executions".
Proof.
  unfold _update_performance_metrics.
  repeat (apply bind_keeps;
          [ intros d0;
            first [ apply getitem_keeps | apply div_keeps
                  | apply setitem_keeps; reflexivity
                  | apply iadd_keeps; reflexivity
                  | destruct (min_score <=? quality_score);
                    [apply iadd_keeps; reflexivity | reflexivity] ]
          | intros ? ]).
  intros d0. apply setitem_keeps. reflexivity.
Qed.

Lemma on_llm_records {A} (m : M (LLMBase.t W) A) (self : t W OC) :
  performance_metrics (snd (on_llm m self)) = performance_metrics self /\
  execution_history (snd (on_llm m self)) = execution_history self /\
  retry_count (snd (on_llm m self)) = retry_count self.
Proof.
  unfold on_llm, zoom. destruct (m (llm self)) as [r l']. repeat split.
Qed.

Lemma on_metrics_records {A} (m : M (gmap string PyNum) A) (self : t W OC) :
  performance_metrics (snd (on_metrics m self)) = snd (m (performance_metrics self)) /\
  fst (on_metrics m self) = fst (m (performance_metrics self)) /\
  execution_history (snd (on_metrics m self)) = execution_history self /\
  retry_count (snd (on_metrics m self)) = retry_count self /\
  llm (snd (on_metrics m self)) = llm self.
Proof.
  unfold on_metrics, zoom. destruct (m (performance_metrics self)) as [r d]. repeat split.
Qed.

Lemma generate_output_records (input_data : PyVal) (kw : kwargs) (self : t W OC) :
  performance_metrics (snd (_generate_output input_data kw self)) = performance_metrics self /\
  execution_history (snd (_generate_output input_data kw self)) = execution_history self /\
  retry_count (snd (_generate_output input_data kw self)) = retry_count self.
Proof.
  unfold _generate_output, bind, get, ret.
  pose proof (on_llm_records
                (LLMBase.generate_with_retry (_build_prompt self input_data) kw) self) as Hc.
  destruct (on_llm _ self) as [ [ r | e ] s']; exact Hc.
Qed.

Lemma evaluate_quality_records (output : PyVal) (self : t W OC) :
  performance_metrics (snd (_evaluate_quality output self)) = performance_metrics self /\
  execution_history (snd (_evaluate_quality output self)) = execution_history self /\
  retry_count (snd (_evaluate_quality output self)) = retry_count self.
Proof.
  unfold _evaluate_quality, try_except, ret.
  destruct (OutputCriterion.evaluate _ output (Some (llm self))) as [ [ q | e ] [ l' | ] ];
    cbn; repeat split.
Qed.

Lemma optimize_prompt_records (input_data previous_output : PyVal) (quality_score : float)
    (self : t W OC) :
  let run := _optimize_prompt input_data previous_output quality_score self in
  performance_metrics (snd run) = performance_metrics self /\
  execution_history (snd run) = execution_history self /\
  retry_count (snd run) = retry_count self.
Proof.
  cbv zeta.
  enough (Hrun : let '(r, s) := _optimize_prompt input_data previous_output quality_score
                                  self in
                 performance_metrics s = performance_metrics self /\
                 execution_history s = execution_history self /\
                 retry_count s = retry_count self).
  { destruct (_optimize_prompt _ _ _ self) as [r s]. exact Hrun. }
  unfold _optimize_prompt, bind at 1, get.
  destruct (negb (AgentConfig.enable_auto_optimization (config self)));
    [repeat split|].
  unfold try_except, bind, ret, get.
  pose proof (on_llm_records
                (LLMBase.generate
                   (optimization_prompt self input_data previous_output quality_score)
                   [("max_tokens", VInt 200)]) self) as Hc.
  destruct (on_llm _ self) as [ [ r | e ] s']; cbn; exact Hc.
Qed.

Lemma optimize_and_retry_records (input_data previous_output : PyVal) (quality_score : float)
    (kw : kwargs) (self : t W OC) :
  let run := _optimize_and_retry input_data previous_output quality_score kw self in
  performance_metrics (snd run) = performance_metrics self /\
  execution_history (snd run) = execution_history self /\
  retry_count (snd run) = retry_count self.
Proof.
  cbv zeta.
  enough (Hrun : let '(r, s) := _optimize_and_retry input_data previous_output
                                  quality_score kw self in
                 performance_metrics s = performance_metrics self /\
                 execution_history s = execution_history self /\
                 retry_count s = retry_count self).
  { destruct (_optimize_and_retry _ _ _ _ self) as [r s]. exact Hrun. }
  unfold _optimize_and_retry, bind at 1.
  pose proof (optimize_prompt_records input_data previous_output quality_score self) as Hc.
  cbv zeta in Hc.
  destruct (_optimize_prompt _ _ _ self) as [ [ prompt | e ] s1]; cbn [fst snd] in *;
    [|exact Hc].
  unfold bind, ret.
  pose proof (on_llm_records (LLMBase.generate_with_retry prompt kw) s1) as Hc1.
  destruct (on_llm _ s1) as [ [ r | e ] s2]; cbn [fst snd] in *;
    destruct Hc as (<- & <- & <-); exact Hc1.
Qed.

Lemma execute_body_accounting (input_data : PyVal) (kw : kwargs) (start_time : float)
    (self : t W OC) :
  let run := execute_body input_data kw start_time self in
  performance_metrics (snd run) !! "total_executions"
    = (fun n => (n + NInt 1)%num) <$> performance_metrics self !! "total_executions" /\
  match fst run with
  | Ret _ =>
      exists record,
        execution_history (snd run) = (execution_history self ++ [record])%list /\
        input record = input_data /\ record_retry_count record = retry_count self
  | Raise _ =>
      execution_history (snd run) = execution_history self \/
      exists record,
        execution_history (snd run) = (execution_history self ++ [record])%list /\
        input record = input_data /\ record_retry_count record = retry_count self
  end.
Proof.
  cbv zeta.
  enough (Hrun : let '(r, s) := execute_body input_data kw start_time self in
                 performance_metrics s !! "total_executions"
                   = (fun n => (n + NInt 1)%num) <$> performance_metrics self !! "total_executions" /\
                 match r with
                 | Ret _ =>
                     exists record,
                       execution_history s = (execution_history self ++ [record])%list /\
                       input record = input_data /\
                       record_retry_count record = retry_count self
                 | Raise _ =>
                     execution_history s = execution_history self \/
                     exists record,
                       execution_history s = (execution_history self ++ [record])%list /\
                       input record = input_data /\
                       record_retry_count record = retry_count self
                 end).
  { destruct (execute_body input_data kw start_time self) as [r s]. exact Hrun. }
  unfold execute_body.
  unfold bind at 1, modify. cbn [fst snd].
  set (s0 := set_status AgentStatus.BUSY self).
  assert (Hm0 : performance_metrics s0 = performance_metrics self) by reflexivity.
  assert (Hh0 : execution_history s0 = execution_history self) by reflexivity.
  assert (Hr0 : retry_count s0 = retry_count self) by reflexivity.
  clearbody s0.
  unfold bind at 1.
  pose proof (on_metrics_records (Dict.iadd "total_executions" (NInt 1)) s0)
    as (Hm1 & Hf1 & Hh1 & Hr1 & _).
  assert (Hcount : performance_metrics (snd (on_metrics (Dict.iadd "total_executions" (NInt 1)) s0))
                     !! "total_executions"
                   = (fun n => (n + NInt 1)%num) <$> performance_metrics self !! "total_executions").
  { rewrite Hm1, Hm0. unfold Dict.iadd, Dict.getitem, Dict.setitem, bind, modify.
    destruct (performance_metrics self !! "total_executions") as [n|] eqn:Hn;
      cbn [snd fmap option_fmap option_map].
    - apply lookup_insert_eq.
    - exact Hn. }
  destruct (on_metrics (Dict.iadd "total_executions" (NInt 1)) s0) as [ [ u1 | e1 ] s1];
    cbn [fst snd] in *.
  2:{ split; [exact Hcount|]. left. congruence. }
  clear Hm1 Hf1.
  run_step_as (@validate_input_state W OC _ input_data) u2 e2 s2 Hs2.
  2:{ subst s2. split; [exact Hcount|]. left. congruence. }
  subst s2.
  run_step_as (generate_output_records input_data kw) out e3 s3 Hc3.
  2:{ destruct Hc3 as (Hm2 & Hh2 & _). rewrite Hm2. split; [exact Hcount|].
      left. congruence. }
  destruct Hc3 as (Hm2 & Hh2 & Hr2).
  run_step_as (@validate_output_state W OC _ out) u4 e4 s4 Hs4.
  2:{ subst s4. rewrite Hm2. split; [exact Hcount|]. left. congruence. }
  subst s4.
  run_step_as (evaluate_quality_records out) q e5 s5 Hc5.
  2:{ destruct Hc5 as (Hm3 & Hh3 & _). rewrite Hm3, Hm2.
      split; [exact Hcount|]. left. congruence. }
  destruct Hc5 as (Hm3 & Hh3 & Hr3).
  unfold bind at 1, get. unfold bind at 1, modify.
  match goal with
  | |- context [set_execution_history (execution_history s5 ++ [?rec])%list s5] =>
      set (record := rec);
      assert (Hrec : input record = input_data /\
                     record_retry_count record = retry_count self)
        by (split; [reflexivity | cbn; congruence]);
      clearbody record
  end.
  assert (Hhist : execution_history s5 = execution_history self) by congruence.
  assert (Hmet : performance_metrics s5 !! "total_executions"
                 = (fun n => (n + NInt 1)%num) <$> performance_metrics self !! "total_executions")
    by (rewrite Hm3, Hm2; exact Hcount).
  destruct ((q <? _) && (retry_count s5 <? AgentConfig.max_retries (config s5))%Z).
  - unfold bind at 1, modify.
    match goal with
    | |- context [_optimize_and_retry ?i ?o ?q ?k ?s] =>
        pose proof (optimize_and_retry_records i o q k s) as Hc4; cbv zeta in Hc4;
        destruct Hc4 as (Hm4 & Hh4 & _);
        destruct (_optimize_and_retry i o q k s) as [ [ r6 | e6 ] s6]
    end; cbn [fst snd performance_metrics execution_history set_retry_count
              set_execution_history] in *;
      (split; [rewrite Hm4; exact Hmet|]).
    + exists record. rewrite Hh4, Hhist. split; [reflexivity | exact Hrec].
    + right. exists record. rewrite Hh4, Hhist. split; [reflexivity | exact Hrec].
  - unfold bind at 1.
    match goal with
    | |- context [on_metrics ?m ?s] =>
        pose proof (on_metrics_records m s) as (Hm4 & _ & Hh4 & _);
        destruct (on_metrics m s) as [ [ r6 | e6 ] s6]
    end; cbn [fst snd performance_metrics execution_history set_retry_count
              set_execution_history] in *.
    + unfold bind, modify, ret. cbn. rewrite Hm4, update_keeps_total. cbn.
      split; [exact Hmet|].
      exists record. rewrite Hh4, Hhist. split; [reflexivity | exact Hrec].
    + rewrite Hm4, update_keeps_total. cbn. split; [exact Hmet|].
      right. exists record. rewrite Hh4, Hhist. split; [reflexivity | exact Hrec].
Qed.

(** X22.  Bookkeeping of [execute], whatever the outcome: the count of
    executions grows by exactly one (the call changes nothing in it
    when the key is missing); the history only grows, by at most one
    record, which holds the input and the retry count of the call; a
    call that returns has appended exactly one record. *)
Theorem execute_accounting (input_data : PyVal) (kw : kwargs) (self : t W OC) :
  let run := execute input_data kw self in
  performance_metrics (snd run) !! "total_executions"
    = (fun n => (n + NInt 1)%num) <$> performance_metrics self !! "total_executions" /\
  match fst run with
  | Ret _ =>
      exists record,
        execution_history (snd run) = (execution_history self ++ [record])%list /\
        input record = input_data /\ record_retry_count record = retry_count self
  | Raise _ =>
      execution_history (snd run) = execution_history self \/
      exists record,
        execution_history (snd run) = (execution_history self ++ [record])%list /\
        input record = input_data /\ record_retry_count record = retry_count self
  end.
Proof.
  cbv zeta. unfold execute, bind, get, try_except.
  pose proof (execute_body_accounting input_data kw
                (LLMBase.loop_time (LLMBase.world (llm self))) self) as Hbody.
  cbv zeta in Hbody.
  destruct (execute_body input_data kw _ self) as [ [ out | e ] s']; cbn [fst snd] in *.
  - exact Hbody.
  - rewrite caught_by_Exception. cbn. exact Hbody.
Qed.

(** X23.  An input the constraints reject never reaches the backend: the
    call raises [ValueError] with the collected messages, the status
    is [error], the execution is counted, and the model object and
    the history are what they were. *)
Theorem rejected_input_never_reaches_backend (input_data : PyVal) (kw : kwargs)
    (self : t W OC) (errs : list string) (n : PyNum) :
  let cs := AgentConfig.input_constraints (config self) in
  let d := as_dict InputTypeConstraint.name cs input_data in
  performance_metrics self !! "total_executions" = Some n ->
  InputConstraintSet.is_valid {| InputConstraintSet.constraints := cs |} d = Ret false ->
  InputConstraintSet.get_all_errors {| InputConstraintSet.constraints := cs |} d = Ret errs ->
  execute input_data kw self
    = (Raise (mkExc ValueError ("输入验证失败: " ++ str_join "; " errs)),
       {| config := config self;
          llm := llm self;
          status := AgentStatus.ERROR;
          retry_count := retry_count self;
          execution_history := execution_history self;
          performance_metrics := <["total_executions" := (n + NInt 1)%num]> (performance_metrics self) |}).
Proof.
  cbv zeta. intros Hn Hvalid Herrs.
  assert (Hv : forall s : t W OC,
             config s = config self ->
             _validate_input input_data s
               = (Raise (mkExc ValueError ("输入验证失败: " ++ str_join "; " errs)), s)).
  { intros s Hc. unfold _validate_input, bind at 1, get. rewrite Hc.
    destruct (AgentConfig.input_constraints (config self)) as [|c cs].
    - exfalso. revert Hvalid. unfold InputConstraintSet.is_valid, InputConstraintSet.validate.
      cbn. rewrite map_to_list_empty. discriminate.
    - unfold bind, lift_result, raise. rewrite Hvalid. cbn [negb]. rewrite Herrs.
      reflexivity. }
  unfold execute, bind at 1, get, try_except, execute_body.
  unfold bind at 1, modify. unfold bind at 1.
  assert (Hinc : on_metrics (Dict.iadd "total_executions" (NInt 1))
                   (set_status AgentStatus.BUSY self)
                 = (Ret tt,
                    set_performance_metrics
                      (<["total_executions" := (n + NInt 1)%num]> (performance_metrics self))
                      (set_status AgentStatus.BUSY self))).
  { unfold on_metrics, zoom, Dict.iadd, Dict.getitem, Dict.setitem, bind, modify.
    cbn [performance_metrics set_status]. rewrite Hn. reflexivity. }
  rewrite Hinc. unfold bind at 1. rewrite Hv by reflexivity.
  rewrite caught_by_Exception. reflexivity.
Qed.

(** X24.  [get_execution_history(limit)] is the slice [history[-limit:]]: for
    a positive limit the last [limit] records (all of them when there
    are fewer), in order; for limit 0 the whole history, not an empty
    list; for a negative limit the history without its first [-limit]
    records. *)
Theorem get_execution_history_window (limit : Z) (self : t W OC) :
  ((0 < limit)%Z ->
   exists older,
     execution_history self = (older ++ get_execution_history limit self)%list /\
     length (get_execution_history limit self)
       = Nat.min (Z.to_nat limit) (length (execution_history self))) /\
  get_execution_history 0 self = execution_history self /\
  ((limit < 0)%Z ->
   get_execution_history limit self
     = skipn (Z.to_nat (- limit)) (execution_history self)).
Proof.
  unfold get_execution_history, slice_from.
  split; [|split].
  - intros Hpos.
    replace (- limit <? 0)%Z with true by (symmetry; apply Z.ltb_lt; lia).
    exists (firstn (Z.to_nat (Z.max (- limit + Z.of_nat (length (execution_history self))) 0))
              (execution_history self)).
    split; [symmetry; apply firstn_skipn|].
    rewrite List.length_skipn. lia.
  - change (- 0 <? 0)%Z with false. change (- 0)%Z with 0%Z.
    rewrite Z.min_l by lia. reflexivity.
  - intros Hneg.
    replace (- limit <? 0)%Z with false by (symmetry; apply Z.ltb_ge; lia).
    destruct (Z.le_gt_cases (- limit) (Z.of_nat (length (execution_history self))))
      as [Hle | Hgt].
    + rewrite Z.min_l by exact Hle. reflexivity.
    + rewrite Z.min_r by lia. rewrite Nat2Z.id.
      rewrite !List.skipn_all2; [reflexivity | lia | lia].
Qed.

End AgentProperties.

Section AgentPropertyExamples.
Import Scripted.
#[local] Open Scope float_scope.

Lemma rejected_input_never_reaches_backend_witness :
  AgentBase.execute (VStr "") [] low_scoring_agent
    = (Raise (mkExc ValueError "输入验证失败: 字段 topic 长度应在 1-200 之间"),
       {| AgentBase.config := agent_config;
          AgentBase.llm := low_scoring_llm;
          AgentBase.status := AgentStatus.ERROR;
          AgentBase.retry_count := 0;
          AgentBase.execution_history := [];
          AgentBase.performance_metrics :=
            <["total_executions" := (NInt 0 + NInt 1)%num]>
              (AgentBase.performance_metrics low_scoring_agent) |}).
Proof.
  exact (rejected_input_never_reaches_backend (VStr "") [] low_scoring_agent
           ["字段 topic 长度应在 1-200 之间"] (NInt 0) eq_refl eq_refl eq_refl).
Defined.

(** The first accepted execution after [reset_metrics]: the averages
    are the values of that execution. *)
Lemma update_performance_metrics_run_witness :
  let run := AgentBase._update_performance_metrics 0.8 0.9 2 (NInt 7)
               metrics_in_first_execution in
  fst run = Ret tt /\
  snd run !! "average_score"
    = Some ((NFloat 0 * (NInt 1 - NInt 1) + NFloat 0.9) / NInt 1)%num /\
  snd run !! "average_response_time"
    = Some ((NFloat 0 * (NInt 1 - NInt 1) + NFloat 2) / NInt 1)%num /\
  snd run !! "total_tokens_used" = Some (NInt 0 + NInt 7)%num /\
  snd run !! "average_tokens_per_execution" = Some ((NInt 0 + NInt 7) / NInt 1)%num /\
  snd run !! "total_executions" = Some (NInt 1) /\
  snd run !! "successful_executions" = Some (NInt 0 + NInt 1)%num.
Proof.
  exact (update_performance_metrics_run metrics_in_first_execution 0.8 0.9 2 (NInt 7)
           (NInt 0) (NInt 1) (NFloat 0) (NFloat 0) (NInt 0) (NFloat 0)
           eq_refl eq_refl eq_refl eq_refl eq_refl eq_refl).
Defined.

End AgentPropertyExamples.
